(** * Data processors of [pipelines/data_handler/processor.py]

    A shallow embedding of the two feature pipelines of the file
    ([SquadProcessor] for extractive question answering and
    [TextSimilarityProcessor] for dense passage retrieval) together with
    the properties of them that the specification states.

    Layout: module [Py] holds the Python built-ins the processors rely on
    (exceptions, slicing, string methods, JSON-like values); module [Squad]
    and module [TextSimilarity] hold the two processors, with the
    collaborators that live in other files of the package (tokenizers,
    offset utilities, the dataset constructor) as parameters; module [Demo]
    holds small instances of these collaborators and sample inputs; the
    lemmas follow in [PyFacts], [SquadFacts] and [TextSimilarityFacts]. *)

From Stdlib Require Import ZArith String Ascii List Lia DecimalString.
From Stdlib Require DecimalPos.
From stdpp Require Import base gmap sets list strings.

#[local] Set Warnings "-register-all".
#[local] Open Scope Z_scope.

(* ===================================================================== *)
(** * Python built-ins *)
(* ===================================================================== *)

Module Py.

(** The exception classes that the modelled code can raise.
    [InputFormatError] is the bare
    [Exception("Input does not have the expected format")]. *)
Inductive exn :=
| AssertionError | AttributeError | IndexError | KeyError | NameError
| TypeError | ValueError | InputFormatError.

#[global] Instance exn_eq_dec : EqDecision exn.
Proof. solve_decision. Defined.

(** A computation either returns or raises. *)
Inductive result (A : Type) :=
| Ok (a : A)
| Raise (e : exn).
Arguments Ok {A} a.
Arguments Raise {A} e.

Definition bind {A B} (m : result A) (k : A -> result B) : result B :=
  match m with
  | Ok a => k a
  | Raise e => Raise e
  end.

(** [for x in l: body], where the body can raise. *)
Fixpoint for_each {A B} (body : A -> result B) (l : list A) : result (list B) :=
  match l with
  | [] => Ok []
  | x :: l' =>
      bind (body x) (fun y => bind (for_each body l') (fun ys => Ok (y :: ys)))
  end.

(** ** Sequences *)

Definition len {A} (l : list A) : Z := Z.of_nat (length l).

(** Normalisation of one bound of a slice over a sequence of length [n]:
    a negative bound counts from the end, and both are clamped. *)
Definition slice_index (n i : Z) : Z :=
  if i <? 0 then Z.max 0 (i + n) else Z.min i n.

(** [l[start:stop]] *)
Definition py_slice {A} (l : list A) (start stop : Z) : list A :=
  let a := slice_index (len l) start in
  let b := slice_index (len l) stop in
  take (Z.to_nat (b - a)) (drop (Z.to_nat a) l).

(** [l[:stop]] *)
Definition py_slice_to {A} (l : list A) (stop : Z) : list A :=
  py_slice l 0 stop.

(** [[x] * n]: empty when [n] is negative. *)
Definition py_repeat {A} (x : A) (n : Z) : list A :=
  replicate (Z.to_nat n) x.

(** [l.index(x)]: [ValueError] when [x] does not occur. *)
Fixpoint list_index {A} `{EqDecision A} (x : A) (l : list A) : result Z :=
  match l with
  | [] => Raise ValueError
  | y :: l' =>
      if decide (y = x) then Ok 0
      else bind (list_index x l') (fun i => Ok (i + 1))
  end.

(** [l.remove(x)]: drops the first element equal to [x], [ValueError]
    when there is none. *)
Fixpoint list_remove_first {A} `{EqDecision A} (x : A) (l : list A)
  : result (list A) :=
  match l with
  | [] => Raise ValueError
  | y :: l' =>
      if decide (y = x) then Ok l'
      else bind (list_remove_first x l') (fun r => Ok (y :: r))
  end.

(** ** Strings

    A [str] is modelled by a [string] whose characters are the code points
    below 256. *)

Definition str_len (s : string) : Z := Z.of_nat (String.length s).

(** [s[start:stop]] *)
Definition str_slice (s : string) (start stop : Z) : string :=
  string_of_list_ascii (py_slice (list_ascii_of_string s) start stop).

(** [s[-1]]: [IndexError] on the empty string. *)
Fixpoint str_last (s : string) : result ascii :=
  match s with
  | EmptyString => Raise IndexError
  | String c EmptyString => Ok c
  | String _ s' => str_last s'
  end.

(** [s[:-1]] *)
Definition str_drop_last (s : string) : string := str_slice s 0 (-1).

(** [str.isspace] on one character: TAB..CR, FS..US, space, NEL, NBSP. *)
Definition is_space (c : ascii) : bool :=
  let n := nat_of_ascii c in
  ((9 <=? n)%nat && (n <=? 13)%nat) || ((28 <=? n)%nat && (n <=? 32)%nat)
  || (n =? 133)%nat || (n =? 160)%nat.

Fixpoint lstrip (l : list ascii) : list ascii :=
  match l with
  | c :: l' => if is_space c then lstrip l' else l
  | [] => []
  end.

(** [s.strip()] *)
Definition str_strip (s : string) : string :=
  string_of_list_ascii
    (rev (lstrip (rev (lstrip (list_ascii_of_string s))))).

Fixpoint starts_with (p s : string) : bool :=
  match p, s with
  | EmptyString, _ => true
  | String a p', String b s' => if Ascii.eqb a b then starts_with p' s' else false
  | String _ _, EmptyString => false
  end.

(** [needle in hay] on strings. *)
Fixpoint str_contains (needle hay : string) : bool :=
  starts_with needle hay
  || match hay with
     | EmptyString => false
     | String _ hay' => str_contains needle hay'
     end.

(** [s.split(sep)] for a separator of one character. *)
Fixpoint str_split (sep : ascii) (s : string) : list string :=
  match s with
  | EmptyString => [EmptyString]
  | String c s' =>
      if Ascii.eqb c sep then EmptyString :: str_split sep s'
      else match str_split sep s' with
           | h :: t => String c h :: t
           | [] => [String c EmptyString]
           end
  end.

Definition digit_of (c : ascii) : option Z :=
  let n := nat_of_ascii c in
  if (48 <=? n)%nat && (n <=? 57)%nat then Some (Z.of_nat n - 48) else None.

(** Digits of a decimal literal; single underscores may separate digits. *)
Fixpoint parse_digits (acc : Z) (after_digit : bool) (l : list ascii)
  : option Z :=
  match l with
  | [] => if after_digit then Some acc else None
  | c :: l' =>
      match digit_of c with
      | Some d => parse_digits (10 * acc + d) true l'
      | None =>
          if Ascii.eqb c "_" && after_digit then parse_digits acc false l'
          else None
      end
  end.

(** The whitespace that [int] skips around a literal: TAB..CR and the
    space, and NEL and NBSP, the whitespace outside of ASCII.  The
    separators FS..US, which [str.strip] removes, are not skipped. *)
Definition is_int_space (c : ascii) : bool :=
  let n := nat_of_ascii c in
  ((9 <=? n)%nat && (n <=? 13)%nat) || (n =? 32)%nat
  || (n =? 133)%nat || (n =? 160)%nat.

Fixpoint int_lstrip (l : list ascii) : list ascii :=
  match l with
  | c :: l' => if is_int_space c then int_lstrip l' else l
  | [] => []
  end.

(** [int(s)] in base ten: surrounding whitespace, an optional sign, digits.
    [ValueError] otherwise. *)
Definition py_int (s : string) : result Z :=
  let body :=
    rev (int_lstrip (rev (int_lstrip (list_ascii_of_string s)))) in
  let parsed :=
    match body with
    | c :: l' =>
        if Ascii.eqb c "-" then option_map Z.opp (parse_digits 0 false l')
        else if Ascii.eqb c "+" then parse_digits 0 false l'
        else parse_digits 0 false body
    | [] => None
    end in
  match parsed with
  | Some z => Ok z
  | None => Raise ValueError
  end.

(** [str(z)] for an [int]. *)
Definition str_of_int (z : Z) : string := NilZero.string_of_int (Z.to_int z).

(** ** JSON-like values: the input records of the question-answering
    processor *)

Inductive value :=
| VNone
| VInt (z : Z)
| VStr (s : string)
| VList (l : list value)
| VTuple (l : list value)
| VDict (d : gmap string value).

(** Iteration over a value, as [enumerate] and comprehensions do it: the
    items of a list or tuple, the one-character strings of a string, the
    keys of a dict (in the order of the map: the order of insertion is not
    kept); [TypeError] on [None] and on numbers. *)
Definition py_iter (v : value) : result (list value) :=
  match v with
  | VList l | VTuple l => Ok l
  | VStr s => Ok (map (fun c => VStr (String c EmptyString)) (list_ascii_of_string s))
  | VDict d => Ok (map (fun kv => VStr (fst kv)) (map_to_list d))
  | VNone | VInt _ => Raise TypeError
  end.

(** [d[k]]: [KeyError] when the key is absent. *)
Definition dict_get (d : gmap string value) (k : string) : result value :=
  match d !! k with
  | Some v => Ok v
  | None => Raise KeyError
  end.

(** [v[k]] for a string [k]: only a dict can be indexed by a string. *)
Definition subscript (v : value) (k : string) : result value :=
  match v with
  | VDict d => dict_get d k
  | _ => Raise TypeError
  end.

(** [v.get(k, None)]: a method of dicts only. *)
Definition method_get (v : value) (k : string) : result value :=
  match v with
  | VDict d => Ok (default VNone (d !! k))
  | _ => Raise AttributeError
  end.

(** [len(v)] *)
Definition py_len (v : value) : result Z :=
  match v with
  | VList l | VTuple l => Ok (len l)
  | VStr s => Ok (str_len s)
  | VDict d => Ok (Z.of_nat (size d))
  | VNone | VInt _ => Raise TypeError
  end.

(** [v == s] for a string [s]: only a string equals a string. *)
Definition eq_str (v : value) (s : string) : bool :=
  match v with
  | VStr s' => String.eqb s' s
  | _ => false
  end.

(** [l[0]]: [IndexError] on the empty list. *)
Definition first_item {A} (l : list A) : result A :=
  match l with
  | x :: _ => Ok x
  | [] => Raise IndexError
  end.

(** [k in d] *)
Definition dict_has (d : gmap string value) (k : string) : bool :=
  bool_decide (is_Some (d !! k)).

End Py.

(** [result] is a monad; the stages below are written with the
    notations [x ← m; k] and [m;; k] for it. *)
#[global] Instance result_ret : MRet Py.result := @Py.Ok.
#[global] Instance result_bind : MBind Py.result :=
  fun A B k m => Py.bind m k.

(* ===================================================================== *)
(** * SquadProcessor: the question-answering pipeline *)
(* ===================================================================== *)

Module Squad.
Import Py.

(** ** Data model *)

(** An element of a token sequence: a vocabulary id, or a string (the
    probe of [_initialize_special_tokens_count] passes ["a"] and ["b"]). *)
Inductive token :=
| TokId (i : Z)
| TokStr (s : string).

#[global] Instance token_eq_dec : EqDecision token.
Proof. solve_decision. Defined.

(** The capability interface that the processor needs from its tokenizer. *)
Record Tokenizer := {
  build_inputs_with_special_tokens : list token -> list token -> list token;
  create_token_type_ids_from_sequences : list token -> list token -> list Z;
  num_special_tokens_to_add : bool -> Z;  (* the argument is [pair] *)
  pad_token_id : token;
}.

(** One gold answer of [basket.raw["answers"]]. *)
Record Answer := {
  text : string;
  answer_start : Z;
}.

(** [basket.raw] after tokenization. *)
Record BasketRaw := {
  document_text : string;
  document_offsets : list Z;
  document_tokens : list token;
  document_start_of_word : list Z;
  question_text : string;
  question_tokens : list token;
  question_offsets : list Z;
  question_start_of_word : list Z;
  answers : list Answer;
}.

(** [sample.clear_text] *)
Record ClearText := {
  passage_text : string;
  ct_question_text : string;
  passage_id : Z;
}.

(** [sample.tokenized]; the key ["labels"] is absent until
    [_convert_answers] stores the label matrix, one [(start, end)] row per
    answer slot. *)
Record Tokenized := {
  passage_start_t : Z;
  passage_start_c : Z;
  passage_tokens : list token;
  passage_start_of_word : list Z;
  tk_question_tokens : list token;
  tk_question_offsets : list Z;
  tk_question_start_of_word : list Z;
  labels : option (list (Z * Z));
}.

(** The feature dictionary of one sample. *)
Record FeatureRow := {
  input_ids : list token;
  padding_mask : list Z;
  segment_ids : list Z;
  row_passage_start_t : Z;
  start_of_word : list Z;
  row_labels : list (Z * Z);
  row_id : list Z;
  seq_2_start_t : Z;
  span_mask : list Z;
}.

Record Sample := {
  sample_id : string;   (* [sample.id] *)
  clear_text : ClearText;
  tokenized : option Tokenized;
  features : option (list FeatureRow);
}.

Record SampleBasket := {
  id_internal : string;
  id_external : option string;
  raw : BasketRaw;
  samples : option (list Sample);
}.

(** One entry of the list returned by [get_passage_offsets]. *)
Record PassageSpan := {
  span_passage_id : Z;
  span_passage_start_t : Z;
  span_passage_end_t : Z;
  span_passage_start_c : Z;
  span_passage_end_c : Z;
}.

(** The attributes of a [SquadProcessor] that the pipeline reads or writes.
    File names, proxies and the task registry are left out: no stage of the
    pipeline reads them.  [self.baskets] stays the empty list that the base
    constructor stores. *)
Record SquadProcessor := {
  tokenizer : Tokenizer;
  max_seq_len : Z;
  doc_stride : Z;
  max_query_length : Z;
  max_answers : Z;
  sp_toks_start : Z;
  sp_toks_mid : Z;
  sp_toks_end : Z;
  problematic_sample_ids : gset string;
}.

Definition set_tokenized (s : Sample) (t : Tokenized) : Sample :=
  {| sample_id := sample_id s; clear_text := clear_text s;
     tokenized := Some t; features := features s |}.

Definition set_features (s : Sample) (f : option (list FeatureRow)) : Sample :=
  {| sample_id := sample_id s; clear_text := clear_text s;
     tokenized := tokenized s; features := f |}.

Definition set_samples (b : SampleBasket) (ss : list Sample) : SampleBasket :=
  {| id_internal := id_internal b; id_external := id_external b;
     raw := raw b; samples := Some ss |}.

Definition set_labels (t : Tokenized) (l : list (Z * Z)) : Tokenized :=
  {| passage_start_t := passage_start_t t;
     passage_start_c := passage_start_c t;
     passage_tokens := passage_tokens t;
     passage_start_of_word := passage_start_of_word t;
     tk_question_tokens := tk_question_tokens t;
     tk_question_offsets := tk_question_offsets t;
     tk_question_start_of_word := tk_question_start_of_word t;
     labels := Some l |}.

(** [self.problematic_sample_ids.add(i)] *)
Definition add_problematic (self : SquadProcessor) (i : string) : SquadProcessor :=
  {| tokenizer := tokenizer self; max_seq_len := max_seq_len self;
     doc_stride := doc_stride self; max_query_length := max_query_length self;
     max_answers := max_answers self; sp_toks_start := sp_toks_start self;
     sp_toks_mid := sp_toks_mid self; sp_toks_end := sp_toks_end self;
     problematic_sample_ids := {[ i ]} ∪ problematic_sample_ids self |}.

(** ** Construction *)

(** The assertion shared by [__init__] and [convert_qa_input_dict]. *)
Definition assert_doc_stride (doc_stride max_seq_len max_query_length : Z)
  : result unit :=
  if doc_stride <? max_seq_len - max_query_length then Ok tt
  else Raise AssertionError.

(** [_initialize_special_tokens_count]: where the tokenizer puts two
    one-token sequences tells how many special tokens go before, between
    and after them. *)
Definition _initialize_special_tokens_count (tk : Tokenizer)
  : result (Z * Z * Z) :=
  let vec := build_inputs_with_special_tokens tk [TokStr "a"] [TokStr "b"] in
  ia ← list_index (TokStr "a") vec;
  let sp_toks_start := ia in
  ib ← list_index (TokStr "b") vec;
  let sp_toks_mid := ib - sp_toks_start - 1 in
  let sp_toks_end := len vec - ib - 1 in
  Ok (sp_toks_start, sp_toks_mid, sp_toks_end).

(** [SquadProcessor.__init__] up to the call of
    [_initialize_special_tokens_count]: the assertion on the stride, the
    attributes and the counts of the special tokens.  The last step of the
    constructor, the default task, follows in [Tasks.SquadProcessor_init],
    which is the whole constructor. *)
Definition __init__ (tk : Tokenizer)
    (max_seq_len doc_stride max_query_length max_answers : Z)
  : result SquadProcessor :=
  assert_doc_stride doc_stride max_seq_len max_query_length;;
  '(s, m, e) ← _initialize_special_tokens_count tk;
  Ok {| tokenizer := tk; max_seq_len := max_seq_len;
        doc_stride := doc_stride; max_query_length := max_query_length;
        max_answers := max_answers; sp_toks_start := s; sp_toks_mid := m;
        sp_toks_end := e; problematic_sample_ids := ∅ |}.

(** ** Stage 1: input normalisation *)

(** One entry of ["qas"] for a question of the api format. *)
Definition qa_entry (uid q : value) : value :=
  VDict (<["question" := q]> (<["id" := uid]> (<["answers" := VList []]>
        (<["answer_type" := VNone]> ∅)))).

(** The body of the [try] block of [convert_qa_input_dict]. *)
Definition convert_qa_input_dict_body (infer_dict : gmap string value)
  : result (gmap string value) :=
  if dict_has infer_dict "context" && dict_has infer_dict "qas"
  then Ok infer_dict
  else
    questions ← dict_get infer_dict "questions";
    text ← dict_get infer_dict "text";
    let uid := default VNone (infer_dict !! "id") in
    qs ← py_iter questions;
    let qas := map (qa_entry uid) qs in
    Ok (<["qas" := VList qas]> (<["context" := text]> ∅)).

(** [convert_qa_input_dict]: only a [KeyError] of the body is turned into
    the format error. *)
Definition convert_qa_input_dict (self : SquadProcessor)
    (infer_dict : gmap string value) : result (gmap string value) :=
  assert_doc_stride (doc_stride self) (max_seq_len self)
    (max_query_length self);;
  match convert_qa_input_dict_body infer_dict with
  | Raise KeyError => Raise InputFormatError
  | r => r
  end.

(** ** The external collaborators of the pipeline *)

Section Pipeline.

(** [get_passage_offsets(doc_offsets, doc_stride, passage_len_t, doc_text)] *)
Variable get_passage_offsets :
  list Z -> Z -> Z -> string -> result (list PassageSpan).

(** [offset_to_token_idx_vecorized(token_offsets, ch_idx)] *)
Variable offset_to_token_idx_vecorized : list Z -> Z -> Z.

(** [tokenize_batch_question_answering(pre_baskets, tokenizer, indices)] *)
Variable tokenize_batch_question_answering :
  list (gmap string value) -> Tokenizer -> option (list Z) ->
  result (list SampleBasket).

(** [convert_features_to_dataset(features)], the dataset and the tensor
    names. *)
Variable Dataset : Type.
Variable convert_features_to_dataset : list FeatureRow -> Dataset * list string.

(** ** Stage 3: passage windows *)

(** The sample built from one passage span. *)
Definition sample_of_span (self : SquadProcessor) (basket : SampleBasket)
    (passage_span : PassageSpan) : Sample :=
  let r := raw basket in
  let passage_start_t := span_passage_start_t passage_span in
  let passage_end_t := span_passage_end_t passage_span in
  let passage_start_c := span_passage_start_c passage_span in
  let passage_end_c := span_passage_end_c passage_span in
  let passage_start_of_word :=
    py_slice (document_start_of_word r) passage_start_t passage_end_t in
  let passage_tokens :=
    py_slice (document_tokens r) passage_start_t passage_end_t in
  let passage_text :=
    str_slice (document_text r) passage_start_c passage_end_c in
  {| sample_id :=
       id_internal basket ++ "-" ++ str_of_int (span_passage_id passage_span);
     clear_text :=
       {| passage_text := passage_text;
          ct_question_text := question_text r;
          passage_id := span_passage_id passage_span |};
     tokenized := Some
       {| passage_start_t := passage_start_t;
          passage_start_c := passage_start_c;
          passage_tokens := passage_tokens;
          passage_start_of_word := passage_start_of_word;
          tk_question_tokens :=
            py_slice_to (question_tokens r) (max_query_length self);
          tk_question_offsets :=
            py_slice_to (question_offsets r) (max_query_length self);
          tk_question_start_of_word :=
            py_slice_to (question_start_of_word r) (max_query_length self);
          labels := None |};
     features := None |}.

(** The token budget of a passage of this basket. *)
Definition passage_budget (self : SquadProcessor) (basket : SampleBasket) : Z :=
  max_seq_len self
  - len (py_slice_to (question_tokens (raw basket)) (max_query_length self))
  - num_special_tokens_to_add (tokenizer self) true.

(** The body of the loop of [_split_docs_into_passages]: a basket with an
    empty document is skipped and keeps its [samples]; a failure of
    [get_passage_offsets] gives no passage. *)
Definition split_basket (self : SquadProcessor) (basket : SampleBasket)
  : SampleBasket :=
  if String.eqb (document_text (raw basket)) "" then basket
  else
    let passage_len_t := passage_budget self basket in
    let passage_spans :=
      match get_passage_offsets (document_offsets (raw basket))
              (doc_stride self) passage_len_t (document_text (raw basket)) with
      | Ok spans => spans
      | Raise _ => []
      end in
    set_samples basket (map (sample_of_span self basket) passage_spans).

Definition _split_docs_into_passages (self : SquadProcessor)
    (baskets : list SampleBasket) : list SampleBasket :=
  map (split_basket self) baskets.

(** ** Stage 4: answers to token spans *)

(** [np.full((max_answers, 2), fill_value=-1)] *)
Definition np_full_labels (max_answers : Z) : result (list (Z * Z)) :=
  if max_answers <? 0 then Raise ValueError
  else Ok (replicate (Z.to_nat max_answers) (-1, -1)).

(** [label_idxs[i][col] = v]; column [false] is the start, [true] the
    end.  [IndexError] when the matrix has no row [i]. *)
Definition set_cell (label_idxs : list (Z * Z)) (i : nat) (col : bool) (v : Z)
  : result (list (Z * Z)) :=
  match label_idxs !! i with
  | Some (s, e) => Ok (<[i := if col then (s, v) else (v, e)]> label_idxs)
  | None => Raise IndexError
  end.

(** [label_idxs[i][0] = v; label_idxs[i][1] = w] *)
Definition set_row (label_idxs : list (Z * Z)) (i : nat) (v w : Z)
  : result (list (Z * Z)) :=
  l ← set_cell label_idxs i false v;
  set_cell l i true w.

(** What one round of the loop over the answers leaves behind. *)
Inductive answer_outcome :=
| Continue (label_idxs : list (Z * Z))
| Break (label_idxs : list (Z * Z)).  (* with [error_in_answer = True] *)

(** Token indices of an answer relative to the passage of the sample. *)
Definition answer_start_t_rel (r : BasketRaw) (t : Tokenized) (answer : Answer) : Z :=
  offset_to_token_idx_vecorized (document_offsets r) (answer_start answer)
  - passage_start_t t.

Definition answer_end_t_rel (r : BasketRaw) (t : Tokenized) (answer : Answer) : Z :=
  let answer_len_c := str_len (text answer) in
  let answer_start_c := answer_start answer in
  let answer_end_c := answer_start_c + answer_len_c - 1 in
  offset_to_token_idx_vecorized (document_offsets r) answer_end_c
  - passage_start_t t.

(** The body of [for i, answer in enumerate(basket.raw["answers"])]. *)
Definition convert_answer (self : SquadProcessor) (r : BasketRaw)
    (t : Tokenized) (i : nat) (answer : Answer) (label_idxs : list (Z * Z))
  : result answer_outcome :=
  let answer_len_c := str_len (text answer) in
  let answer_start_c := answer_start answer in
  let answer_end_c := answer_start_c + answer_len_c - 1 in
  let answer_start_t := answer_start_t_rel r t answer in
  let answer_end_t := answer_end_t_rel r t answer in
  let question_len_t := len (tk_question_tokens t) in
  let passage_len_t := len (passage_tokens t) in
  label_idxs ←
    (if (passage_len_t >? answer_start_t) && (answer_start_t >=? 0)
        && (passage_len_t >=? answer_end_t) && (answer_end_t >=? 0)
     then set_row label_idxs i
            (sp_toks_start self + question_len_t + sp_toks_mid self + answer_start_t)
            (sp_toks_start self + question_len_t + sp_toks_mid self + answer_end_t)
     else set_row label_idxs i 0 0);
  if (answer_start_t <? 0) || (answer_end_t >=? passage_len_t)
  then Ok (Continue label_idxs)
  else
    let doc_text := document_text r in
    let answer_indices := str_slice doc_text answer_start_c (answer_end_c + 1) in
    let answer_text := text answer in
    if negb (str_contains answer_text doc_text)
    then l ← set_row label_idxs i (-100) (-100); Ok (Break l)
    else if negb (String.eqb (str_strip answer_indices) (str_strip answer_text))
    then l ← set_row label_idxs i (-100) (-100); Ok (Break l)
    else Ok (Continue label_idxs).

(** The loop over the answers, from index [i] on; the result says whether
    the loop was left by [break]. *)
Fixpoint convert_answers_loop (self : SquadProcessor) (r : BasketRaw)
    (t : Tokenized) (i : nat) (answers : list Answer)
    (label_idxs : list (Z * Z)) : result (list (Z * Z) * bool) :=
  match answers with
  | [] => Ok (label_idxs, false)
  | answer :: rest =>
      o ← convert_answer self r t i answer label_idxs;
      match o with
      | Continue l => convert_answers_loop self r t (S i) rest l
      | Break l => Ok (l, true)
      end
  end.

(** The body of the loop over the samples of a basket: the label matrix
    of the sample and the new value of [error_in_answer]. *)
Definition sample_labels (self : SquadProcessor) (r : BasketRaw)
    (error_in_answer : bool) (sample : Sample)
  : result (list (Z * Z) * bool) :=
  label_idxs ← np_full_labels (max_answers self);
  if error_in_answer || (len (answers r) =? 0)
  then
    l ← set_row label_idxs 0 0 0;
    Ok (l, error_in_answer)
  else
    match tokenized sample with
    | None => Raise TypeError
    | Some t =>
        '(l, broke) ← convert_answers_loop self r t 0 (answers r) label_idxs;
        Ok (l, error_in_answer || broke)
    end.

Fixpoint convert_samples (self : SquadProcessor) (r : BasketRaw)
    (error_in_answer : bool) (ss : list Sample) : result (list Sample) :=
  match ss with
  | [] => Ok []
  | sample :: rest =>
      '(label_idxs, err) ← sample_labels self r error_in_answer sample;
      match tokenized sample with
      | None => Raise TypeError
      | Some t =>
          rest' ← convert_samples self r err rest;
          Ok (set_tokenized sample (set_labels t label_idxs) :: rest')
      end
  end.

Definition convert_basket_answers (self : SquadProcessor)
    (basket : SampleBasket) : result SampleBasket :=
  match samples basket with
  | None => Raise TypeError
  | Some ss =>
      ss' ← convert_samples self (raw basket) false ss;
      Ok (set_samples basket ss')
  end.

Definition _convert_answers (self : SquadProcessor)
    (baskets : list SampleBasket) : result (list SampleBasket) :=
  for_each (convert_basket_answers self) baskets.

(** ** Stage 5: feature rows *)

(** The local variables that [_passages_to_paddle_features] binds only
    under [if sample.tokenized is not None]; a sample without [tokenized]
    sees the values left by the sample before it. *)
Record Locals := {
  lv_question_start_of_word : list Z;
  lv_question_len_t : Z;
  lv_passage_start_t : Z;
  lv_passage_start_of_word : list Z;
  lv_passage_len_t : Z;
  lv_sample_id : list Z;
  lv_question_input_ids : list token;
  lv_passage_input_ids : list token;
}.

(** The assignments under [if sample.tokenized is not None]. *)
Definition bind_locals (sample : Sample) (t : Tokenized) : result Locals :=
  let question_tokens := tk_question_tokens t in
  let passage_tokens := passage_tokens t in
  sample_id ← for_each py_int (str_split "-" (sample_id sample));
  Ok {| lv_question_start_of_word := tk_question_start_of_word t;
        lv_question_len_t := len question_tokens;
        lv_passage_start_t := passage_start_t t;
        lv_passage_start_of_word := passage_start_of_word t;
        lv_passage_len_t := len passage_tokens;
        lv_sample_id := sample_id;
        lv_question_input_ids := tk_question_tokens t;
        lv_passage_input_ids := passage_tokens |}.

(** The five arrays of a feature row, padded. *)
Record Arrays := {
  a_input_ids : list token;
  a_padding_mask : list Z;
  a_segment_ids : list Z;
  a_start_of_word : list Z;
  a_span_mask : list Z;
}.

Definition padded_arrays (self : SquadProcessor) (lv : Locals) : Arrays :=
  let tk := tokenizer self in
  let input_ids :=
    build_inputs_with_special_tokens tk
      (lv_question_input_ids lv) (lv_passage_input_ids lv) in
  let segment_ids :=
    create_token_type_ids_from_sequences tk
      (lv_question_input_ids lv) (lv_passage_input_ids lv) in
  let start_of_word :=
    py_repeat 0 (sp_toks_start self) ++ lv_question_start_of_word lv
    ++ py_repeat 0 (sp_toks_mid self) ++ lv_passage_start_of_word lv
    ++ py_repeat 0 (sp_toks_end self) in
  let padding_mask := py_repeat 1 (len input_ids) in
  let span_mask :=
    py_repeat 1 (sp_toks_start self)
    ++ py_repeat 0 (lv_question_len_t lv)
    ++ py_repeat 0 (sp_toks_mid self)
    ++ py_repeat 1 (lv_passage_len_t lv)
    ++ py_repeat 0 (sp_toks_end self) in
  let pad_idx := pad_token_id tk in
  let padding := py_repeat pad_idx (max_seq_len self - len input_ids) in
  let zero_padding := py_repeat 0 (max_seq_len self - len input_ids) in
  {| a_input_ids := input_ids ++ padding;
     a_padding_mask := padding_mask ++ zero_padding;
     a_segment_ids := segment_ids ++ zero_padding;
     a_start_of_word := start_of_word ++ zero_padding;
     a_span_mask := span_mask ++ zero_padding |}.

Definition len_check (a : Arrays) : bool :=
  (len (a_input_ids a) =? len (a_padding_mask a))
  && (len (a_padding_mask a) =? len (a_segment_ids a))
  && (len (a_segment_ids a) =? len (a_start_of_word a))
  && (len (a_start_of_word a) =? len (a_span_mask a)).

(** [return_baskets or len(sample.tokenized.get("labels", [])) == max_answers] *)
Definition label_check (self : SquadProcessor) (return_baskets : bool)
    (sample : Sample) : result bool :=
  if return_baskets then Ok true
  else match tokenized sample with
       | None => Raise AttributeError
       | Some t => Ok (len (default [] (labels t)) =? max_answers self)
       end.

(** [return_baskets or np.all(sample.tokenized["labels"] > -99)] *)
Definition label_check2 (return_baskets : bool) (sample : Sample)
  : result bool :=
  if return_baskets then Ok true
  else match tokenized sample with
       | None => Raise TypeError
       | Some t =>
           match labels t with
           | None => Raise KeyError
           | Some l =>
               Ok (forallb (fun row => (fst row >? -99) && (snd row >? -99)) l)
           end
       end.

(** The body of the loop over the samples.  [lv] holds the local
    variables on entry ([None]: not bound yet). *)
Definition featurize_sample (return_baskets : bool)
    (st : SquadProcessor * option Locals) (sample : Sample)
  : result (Sample * (SquadProcessor * option Locals)) :=
  let '(self, lv) := st in
  lv ← match tokenized sample with
       | Some t => l ← bind_locals sample t; Ok (Some l)
       | None => Ok lv
       end;
  match lv with
  | None => Raise NameError
  | Some l =>
      let arrays := padded_arrays self l in
      let seq_2_start_t :=
        sp_toks_start self + lv_question_len_t l + sp_toks_mid self in
      let len_check := len_check arrays in
      let id_check := len (lv_sample_id l) =? 3 in
      label_check ← label_check self return_baskets sample;
      label_check2 ← label_check2 return_baskets sample;
      if len_check && id_check && label_check && label_check2
      then
        match tokenized sample with
        | None => Raise AttributeError
        | Some t =>
            let feature_dict :=
              {| input_ids := a_input_ids arrays;
                 padding_mask := a_padding_mask arrays;
                 segment_ids := a_segment_ids arrays;
                 row_passage_start_t := lv_passage_start_t l;
                 start_of_word := a_start_of_word arrays;
                 row_labels := default [] (labels t);
                 row_id := lv_sample_id l;
                 seq_2_start_t := seq_2_start_t;
                 span_mask := a_span_mask arrays |} in
            Ok (set_features sample (Some [feature_dict]), (self, Some l))
        end
      else
        Ok (set_features sample None,
            (add_problematic self (sample_id sample), Some l))
  end.

(** A loop whose body threads a state and can raise. *)
Fixpoint fold_result {S A B} (body : S -> A -> result (B * S)) (st : S)
    (l : list A) : result (list B * S) :=
  match l with
  | [] => Ok ([], st)
  | x :: l' =>
      '(y, st) ← body st x;
      '(ys, st) ← fold_result body st l';
      Ok (y :: ys, st)
  end.

(** The body of the loop over the baskets. *)
Definition featurize_basket (return_baskets : bool)
    (st : SquadProcessor * option Locals) (basket : SampleBasket)
  : result (SampleBasket * (SquadProcessor * option Locals)) :=
  match samples basket with
  | None => Raise TypeError
  | Some ss =>
      '(ss', st) ← fold_result (featurize_sample return_baskets) st ss;
      Ok (set_samples basket ss', st)
  end.

(** [_passages_to_paddle_features]: the baskets with their features and
    the processor with its updated [problematic_sample_ids]. *)
Definition _passages_to_paddle_features (self : SquadProcessor)
    (baskets : list SampleBasket) (return_baskets : bool)
  : result (list SampleBasket * SquadProcessor) :=
  '(baskets', (self', _)) ←
    fold_result (featurize_basket return_baskets) (self, None) baskets;
  Ok (baskets', self').

(** ** Stage 6: the flat feature list *)

(** [Processor._check_sample_features] *)
Definition _check_sample_features (basket : SampleBasket) : bool :=
  match samples basket with
  | None => false
  | Some ss =>
      if len ss =? 0 then false
      else forallb (fun sample => bool_decide (is_Some (features sample))) ss
  end.

(** The rows that [features_flat.extend(sample.features)] appends for the
    samples of a basket; the loop reaches them for complete baskets only,
    where no [features] is [None]. *)
Definition basket_rows (basket : SampleBasket) : list FeatureRow :=
  flat_map (fun sample => default [] (features sample))
    (default [] (samples basket)).

(** The list of baskets is a list of references: [baskets.remove(basket)]
    compares objects of a class without [__eq__], that is by identity.
    [deref] gives the object behind a reference. *)
Section CreateDataset.

Variable deref : nat -> SampleBasket.

(** The first loop: the accumulators [features_flat] and
    [basket_to_remove]. *)
Definition scan_basket (acc : list FeatureRow * list nat) (basket : nat)
  : list FeatureRow * list nat :=
  let '(features_flat, basket_to_remove) := acc in
  if _check_sample_features (deref basket)
  then (features_flat ++ basket_rows (deref basket), basket_to_remove)
  else (features_flat, basket_to_remove ++ [basket]).

(** [for basket in basket_to_remove: baskets.remove(basket)] *)
Fixpoint remove_baskets (basket_to_remove baskets : list nat)
  : result (list nat) :=
  match basket_to_remove with
  | [] => Ok baskets
  | basket :: rest =>
      baskets' ← list_remove_first basket baskets;
      remove_baskets rest baskets'
  end.

(** [SquadProcessor._create_dataset]: the dataset, the tensor names and
    the list of baskets after the removals; [create_dataset_rows] is
    the list handed to [convert_features_to_dataset]. *)
Definition create_dataset_rows (baskets : list nat) : list FeatureRow :=
  fst (fold_left scan_basket baskets ([], [])).

Definition _create_dataset (baskets : list nat)
  : result (Dataset * list string * list nat) :=
  let '(features_flat, basket_to_remove) :=
    fold_left scan_basket baskets ([], []) in
  baskets' ← remove_baskets basket_to_remove baskets;
  let '(dataset, tensor_names) := convert_features_to_dataset features_flat in
  Ok (dataset, tensor_names, baskets').

End CreateDataset.

(** ** The pipeline *)

Definition empty_raw : BasketRaw :=
  {| document_text := ""; document_offsets := []; document_tokens := [];
     document_start_of_word := []; question_text := "";
     question_tokens := []; question_offsets := [];
     question_start_of_word := []; answers := [] |}.

#[global] Instance SampleBasket_inhabited : Inhabited SampleBasket :=
  populate {| id_internal := ""; id_external := None; raw := empty_raw;
              samples := None |}.

(** What [dataset_from_dicts] returns; [out_baskets] is present when
    [return_baskets] is set. *)
Record Output := {
  out_dataset : Dataset;
  out_tensor_names : list string;
  out_problematic_sample_ids : gset string;
  out_baskets : option (list SampleBasket);
}.

(** [SquadProcessor.dataset_from_dicts].  The baskets that the tokenization
    step creates are objects of their own, so that the position of a basket
    in the list serves as its reference in [_create_dataset].  The call of
    [_log_samples] draws from [self.baskets], which is empty, and only
    writes to the log. *)
Definition dataset_from_dicts (self : SquadProcessor)
    (dicts : list (gmap string value)) (indices : option (list Z))
    (return_baskets : bool) : result (Output * SquadProcessor) :=
  pre_baskets ← for_each (convert_qa_input_dict self) dicts;
  baskets ←
    tokenize_batch_question_answering pre_baskets (tokenizer self) indices;
  let baskets := _split_docs_into_passages self baskets in
  baskets ←
    (if return_baskets then Ok baskets else _convert_answers self baskets);
  '(baskets, self) ← _passages_to_paddle_features self baskets return_baskets;
  let deref := fun i : nat => baskets !!! i in
  '(dataset, tensor_names, refs) ←
    _create_dataset deref (seq 0 (length baskets));
  Ok ({| out_dataset := dataset;
         out_tensor_names := tensor_names;
         out_problematic_sample_ids := problematic_sample_ids self;
         out_baskets :=
           if return_baskets then Some (map deref refs) else None |},
      self).

End Pipeline.

Arguments out_dataset {Dataset} _.
Arguments out_tensor_names {Dataset} _.
Arguments out_problematic_sample_ids {Dataset} _.
Arguments out_baskets {Dataset} _.

(** ** Notions used by the statements about the pipeline *)

(** The attributes that the constructor fixes: all of them but
    [problematic_sample_ids]. *)
Definition config_of (self : SquadProcessor)
  : Tokenizer * Z * Z * Z * Z * Z * Z * Z :=
  (tokenizer self, max_seq_len self, doc_stride self, max_query_length self,
   max_answers self, sp_toks_start self, sp_toks_mid self, sp_toks_end self).

(** A question and a passage fit the sequence length once the special
    tokens of a pair are added. *)
Definition fits (self : SquadProcessor) (q p : list token) : Prop :=
  len q + len p + num_special_tokens_to_add (tokenizer self) true
  <= max_seq_len self.

(** Two runs of a loop body agree: the same exception, or the same value
    and related states. *)
Definition agree {S A} (R : S -> S -> Prop) (m1 m2 : result (A * S)) : Prop :=
  match m1, m2 with
  | Ok (y1, s1), Ok (y2, s2) => y1 = y2 /\ R s1 s2
  | Raise e1, Raise e2 => e1 = e2
  | _, _ => False
  end.

(** The ids of the samples that have no features. *)
Definition failed_sample_ids (baskets : list SampleBasket) : list string :=
  flat_map
    (fun basket =>
       flat_map
         (fun sample =>
            match features sample with
            | None => [sample_id sample]
            | Some _ => []
            end)
         (default [] (samples basket)))
    baskets.

(** The answer check of [_convert_answers] finds fault with an answer:
    its text does not occur in the document, or differs from the text at
    its offsets once both are stripped. *)
Definition answer_mismatch (r : BasketRaw) (answer : Answer) : Prop :=
  str_contains (text answer) (document_text r) = false
  \/ str_strip (str_slice (document_text r) (answer_start answer)
                  (answer_start answer + str_len (text answer) - 1 + 1))
     <> str_strip (text answer).

End Squad.

(* ===================================================================== *)
(** * TextSimilarityProcessor: the retrieval pipeline *)
(* ===================================================================== *)

Module TextSimilarity.
Import Py.

(** ** Data model

    The baskets of this processor wrap the input dictionaries as they
    come, so that [raw], [clear_text], [tokenized] and the feature
    dictionaries are dictionaries of JSON-like values. *)

Record Sample := {
  sample_id : string;
  clear_text : gmap string value;
  tokenized : gmap string value;
  features : option (list (gmap string value));
}.

Record SampleBasket := {
  id_external : option string;
  id_internal : Z;
  raw : gmap string value;
  samples : option (list Sample);
}.

(** What the processor needs from a tokenizer: the call itself, which
    returns a dictionary with ["input_ids"] and ["token_type_ids"], and
    [convert_ids_to_tokens]. *)
Record Tokenizer := {
  tokenizer_call : value -> result (gmap string value);
  convert_ids_to_tokens : value -> result value;
}.

Record TextSimilarityProcessor := {
  query_tokenizer : Tokenizer;
  passage_tokenizer : Tokenizer;
  max_seq_len_query : Z;
  max_seq_len_passage : Z;
  embed_title : bool;
  num_positives : Z;
  num_hard_negatives : Z;
  shuffle_negatives : bool;
  shuffle_positives : bool;
}.

Definition set_samples (b : SampleBasket) (ss : list Sample) : SampleBasket :=
  {| id_external := id_external b; id_internal := id_internal b;
     raw := raw b; samples := Some ss |}.

Definition set_features (s : Sample) (f : option (list (gmap string value)))
  : Sample :=
  {| sample_id := sample_id s; clear_text := clear_text s;
     tokenized := tokenized s; features := f |}.

(** ** Queries *)

(** [_normalize_question] on a [str], the type of its signature. *)
Definition _normalize_question (question : string) : result string :=
  c ← str_last question;
  if Ascii.eqb c "?" then Ok (str_drop_last question) else Ok question.

(** The same two lines on any value that can stand under the key
    ["query"]. *)
Definition normalize_query (question : value) : result value :=
  match question with
  | VStr s => q ← _normalize_question s; Ok (VStr q)
  | VList l =>
      c ← first_item (py_slice l (-1) (len l));
      if eq_str c "?" then Ok (VList (py_slice l 0 (-1))) else Ok question
  | VTuple l =>
      c ← first_item (py_slice l (-1) (len l));
      if eq_str c "?" then Ok (VTuple (py_slice l 0 (-1))) else Ok question
  | VDict _ => Raise KeyError
  | VNone | VInt _ => Raise TypeError
  end.

(** How the body of the loop of [_convert_queries] ends. *)
Inductive query_outcome :=
| NewSample (sample : Sample)
| ReturnNone.

(** The statements of the [try] block before the first assignment. *)
Definition tokenize_query (self : TextSimilarityProcessor) (q : value)
  : result (value * gmap string value * value * Z) :=
  query ← normalize_query q;
  query_inputs ← tokenizer_call (query_tokenizer self) query;
  ids ← dict_get query_inputs "input_ids";
  tokenized_query ← convert_ids_to_tokens (query_tokenizer self) ids;
  n ← py_len tokenized_query;
  Ok (query, query_inputs, tokenized_query, n).

(** The body of the loop of [_convert_queries]. *)
Definition convert_query (self : TextSimilarityProcessor)
    (basket : SampleBasket) : query_outcome :=
  let sample c t f :=
    NewSample {| sample_id := ""; clear_text := c; tokenized := t;
                 features := f |} in
  match raw basket !! "query" with
  | None => sample ∅ ∅ (Some [∅])
  | Some q =>
      match tokenize_query self q with
      | Raise _ => sample ∅ ∅ None
      | Ok (query, query_inputs, tokenized_query, n) =>
          if n =? 0 then ReturnNone
          else
            let clear_text := <["query_text" := query]> ∅ in
            let tokenized := <["query_tokens" := tokenized_query]> ∅ in
            match dict_get query_inputs "input_ids",
                  dict_get query_inputs "token_type_ids" with
            | Ok ids, Ok type_ids =>
                sample clear_text tokenized
                  (Some [<["query_segment_ids" := type_ids]>
                           (<["query_input_ids" := ids]> ∅)])
            | _, _ => sample clear_text tokenized None
            end
      end
  end.

(** The state of the list of baskets when [_convert_queries] returns, and
    what it returns: [true] for [return baskets], [false] for
    [return None]. *)
Fixpoint convert_queries_loop (self : TextSimilarityProcessor)
    (baskets : list SampleBasket) : list SampleBasket * bool :=
  match baskets with
  | [] => ([], true)
  | basket :: rest =>
      match convert_query self basket with
      | ReturnNone => (basket :: rest, false)
      | NewSample sample =>
          let '(rest', returned) := convert_queries_loop self rest in
          (set_samples basket [sample] :: rest', returned)
      end
  end.

(** [_convert_queries]: the returned value, [None] for Python's [None]. *)
Definition _convert_queries (self : TextSimilarityProcessor)
    (baskets : list SampleBasket) : option (list SampleBasket) :=
  let '(baskets', returned) := convert_queries_loop self baskets in
  if returned then Some baskets' else None.

(** The baskets of the caller after the call of [_convert_queries]. *)
Definition baskets_after_convert_queries (self : TextSimilarityProcessor)
    (baskets : list SampleBasket) : list SampleBasket :=
  fst (convert_queries_loop self baskets).

(** ** Contexts *)

Section Contexts.

(** [random.shuffle] on the state of the generator. *)
Variable rng : Type.
Variable shuffle : rng -> list value -> list value * rng.

(** [list(filter(lambda x: x["label"] == label, passages))] *)
Fixpoint filter_label (label : string) (passages : list value)
  : result (list value) :=
  match passages with
  | [] => Ok []
  | x :: rest =>
      l ← subscript x "label";
      rest' ← filter_label label rest;
      Ok (if eq_str l label then x :: rest' else rest')
  end.

(** [_combine_title_context] *)
Fixpoint _combine_title_context (titles texts : list value) : list value :=
  match titles, texts with
  | title :: titles', ctx :: texts' =>
      let title := match title with VNone => VStr "" | _ => title end in
      VTuple [title; ctx] :: _combine_title_context titles' texts'
  | _, _ => []
  end.

(** The positive and the hard negative passages that are kept. *)
Definition select_contexts (self : TextSimilarityProcessor) (g : rng)
    (passages : value) : result (list value * list value) * rng :=
  match py_iter passages with
  | Raise e => (Raise e, g)
  | Ok ps =>
      match filter_label "positive" ps with
      | Raise e => (Raise e, g)
      | Ok positive_context =>
          let '(positive_context, g) :=
            if shuffle_positives self then shuffle g positive_context
            else (positive_context, g) in
          let positive_context :=
            py_slice_to positive_context (num_positives self) in
          match filter_label "hard_negative" ps with
          | Raise e => (Raise e, g)
          | Ok hard_negative_context =>
              let '(hard_negative_context, g) :=
                if shuffle_negatives self then shuffle g hard_negative_context
                else (hard_negative_context, g) in
              let hard_negative_context :=
                py_slice_to hard_negative_context (num_hard_negatives self) in
              (Ok (positive_context, hard_negative_context), g)
          end
      end
  end.

(** The list [all_ctx], padded with pairs of empty strings. *)
Definition all_ctx (self : TextSimilarityProcessor)
    (positive_context hard_negative_context : list value)
  : result (list value) :=
  positive_ctx_titles ←
    for_each (fun passage => method_get passage "title") positive_context;
  positive_ctx_texts ←
    for_each (fun passage => subscript passage "text") positive_context;
  hard_negative_ctx_titles ←
    for_each (fun passage => method_get passage "title") hard_negative_context;
  hard_negative_ctx_texts ←
    for_each (fun passage => subscript passage "text") hard_negative_context;
  let all_ctx :=
    if embed_title self
    then _combine_title_context positive_ctx_titles positive_ctx_texts
         ++ _combine_title_context hard_negative_ctx_titles
              hard_negative_ctx_texts
    else positive_ctx_texts ++ hard_negative_ctx_texts in
  Ok (all_ctx
      ++ py_repeat (VTuple [VStr ""; VStr ""])
           (num_positives self + num_hard_negatives self - len all_ctx)).

(** [ctx_inputs] and [tokenized_passage]: the tokenizer is called on
    [all_ctx[0]]. *)
Definition tokenize_contexts (self : TextSimilarityProcessor)
    (all_ctx : list value) : result (gmap string value * list value) :=
  ctx0 ← first_item all_ctx;
  ctx_inputs ← tokenizer_call (passage_tokenizer self) ctx0;
  ids ← dict_get ctx_inputs "input_ids";
  items ← py_iter ids;
  tokenized_passage ←
    for_each (convert_ids_to_tokens (passage_tokenizer self)) items;
  Ok (ctx_inputs, tokenized_passage).

(** The four assignments to the first sample of the basket.  The boolean
    tells whether one of them raised; the basket is returned as the
    assignments before it left it. *)
Definition store_contexts (basket : SampleBasket)
    (passages : list value) (ctx_inputs : gmap string value)
    (tokenized_passage : list value) : SampleBasket * bool :=
  match samples basket with
  | None | Some [] => (basket, true)
  | Some (sample :: rest) =>
      let put f :=
        set_samples basket
          ({| sample_id := sample_id sample;
              clear_text := <["passages" := VList passages]> (clear_text sample);
              tokenized :=
                <["passages_tokens" := VList tokenized_passage]>
                  (tokenized sample);
              features := f |} :: rest) in
      match dict_get ctx_inputs "input_ids", features sample with
      | Ok ids, Some (f0 :: fs) =>
          let f0 := <["passage_input_ids" := ids]> f0 in
          match dict_get ctx_inputs "token_type_ids" with
          | Ok type_ids =>
              (put (Some (<["passage_segment_ids" := type_ids]> f0 :: fs)),
               false)
          | Raise _ => (put (Some (f0 :: fs)), true)
          end
      | _, f => (put f, true)
      end
  end.

(** [basket.samples[0].features = None] in the handler, which can raise
    in its turn. *)
Definition null_first_features (basket : SampleBasket) : result SampleBasket :=
  match samples basket with
  | None => Raise TypeError
  | Some [] => Raise IndexError
  | Some (sample :: rest) =>
      Ok (set_samples basket (set_features sample None :: rest))
  end.

(** The body of the loop of [_convert_contexts]. *)
Definition convert_context (self : TextSimilarityProcessor) (g : rng)
    (basket : SampleBasket) : result SampleBasket * rng :=
  match raw basket !! "passages" with
  | None => (Ok basket, g)
  | Some passages =>
      let '(selected, g) := select_contexts self g passages in
      let prepared :=
        '(positive_context, hard_negative_context) ← selected;
        ctxs ← all_ctx self positive_context hard_negative_context;
        '(ctx_inputs, tokenized_passage) ← tokenize_contexts self ctxs;
        Ok (positive_context ++ hard_negative_context, ctx_inputs,
            tokenized_passage) in
      match prepared with
      | Raise _ => (null_first_features basket, g)
      | Ok (passages, ctx_inputs, tokenized_passage) =>
          let '(basket', raised) :=
            store_contexts basket passages ctx_inputs tokenized_passage in
          (if raised then null_first_features basket' else Ok basket', g)
      end
  end.

Fixpoint _convert_contexts (self : TextSimilarityProcessor) (g : rng)
    (baskets : list SampleBasket) : result (list SampleBasket) * rng :=
  match baskets with
  | [] => (Ok [], g)
  | basket :: rest =>
      match convert_context self g basket with
      | (Raise e, g) => (Raise e, g)
      | (Ok basket', g) =>
          match _convert_contexts self g rest with
          | (Raise e, g) => (Raise e, g)
          | (Ok rest', g) => (Ok (basket' :: rest'), g)
          end
      end
  end.

(** ** The flat feature list and the pipeline *)

(** [_fill_baskets]: without indices (or with an empty list of them) the
    baskets are numbered by position; [zip] stops at the shorter list. *)
Definition _fill_baskets (dicts : list (gmap string value))
    (indices : option (list Z)) : list SampleBasket :=
  let indices :=
    match indices with
    | Some (i :: l) => i :: l
    | _ => map Z.of_nat (seq 0 (length dicts))
    end in
  map (fun di =>
         {| id_external := None; id_internal := snd di; raw := fst di;
            samples := None |})
    (zip dicts indices).

(** [Processor._check_sample_features] on the baskets of this processor. *)
Definition _check_sample_features (basket : SampleBasket) : bool :=
  match samples basket with
  | None => false
  | Some ss =>
      if len ss =? 0 then false
      else forallb (fun sample => bool_decide (is_Some (features sample))) ss
  end.

Definition basket_rows (basket : SampleBasket) : list (gmap string value) :=
  flat_map (fun sample => default [] (features sample))
    (default [] (samples basket)).

(** [convert_features_to_dataset(features)] *)
Variable Dataset : Type.
Variable convert_features_to_dataset :
  list (gmap string value) -> Dataset * list string.

(** As for the other processor, the list of baskets is a list of
    references, and [deref] gives the basket behind a reference. *)
Section CreateDataset.

Variable deref : nat -> SampleBasket.

Definition scan_basket (acc : list (gmap string value) * list nat)
    (basket : nat) : list (gmap string value) * list nat :=
  let '(features_flat, basket_to_remove) := acc in
  if _check_sample_features (deref basket)
  then (features_flat ++ basket_rows (deref basket), basket_to_remove)
  else (features_flat, basket_to_remove ++ [basket]).

(** The loop over [basket_to_remove], which also collects the ids. *)
Fixpoint remove_baskets (basket_to_remove baskets : list nat)
    (problematic_ids : gset Z) : result (list nat * gset Z) :=
  match basket_to_remove with
  | [] => Ok (baskets, problematic_ids)
  | basket :: rest =>
      let problematic_ids :=
        {[ id_internal (deref basket) ]} ∪ problematic_ids in
      baskets' ← list_remove_first basket baskets;
      remove_baskets rest baskets' problematic_ids
  end.

(** [TextSimilarityProcessor._create_dataset] *)
Definition _create_dataset (baskets : list nat)
  : result (Dataset * list string * gset Z * list nat) :=
  let '(features_flat, basket_to_remove) :=
    fold_left scan_basket baskets ([], []) in
  '(baskets', problematic_ids) ←
    remove_baskets basket_to_remove baskets ∅;
  let '(dataset, tensor_names) := convert_features_to_dataset features_flat in
  Ok (dataset, tensor_names, problematic_ids, baskets').

End CreateDataset.

#[global] Instance SampleBasket_inhabited : Inhabited SampleBasket :=
  populate {| id_external := None; id_internal := 0; raw := ∅;
              samples := None |}.

(** What [dataset_from_dicts] returns. *)
Record Output := {
  out_dataset : Dataset;
  out_tensor_names : list string;
  out_problematic_ids : gset Z;
  out_baskets : option (list SampleBasket);
}.

(** [TextSimilarityProcessor.dataset_from_dicts].  When [_convert_queries]
    returns [None], the loop of [_convert_contexts] over it raises
    [TypeError]. *)
Definition dataset_from_dicts (self : TextSimilarityProcessor) (g : rng)
    (dicts : list (gmap string value)) (indices : option (list Z))
    (return_baskets : bool) : result Output * rng :=
  let baskets := _fill_baskets dicts indices in
  match _convert_queries self baskets with
  | None => (Raise TypeError, g)
  | Some baskets =>
      match _convert_contexts self g baskets with
      | (Raise e, g) => (Raise e, g)
      | (Ok baskets, g) =>
          let deref := fun i : nat => baskets !!! i in
          (created ← _create_dataset deref (seq 0 (length baskets));
           let '(dataset, tensor_names, problematic_ids, refs) := created in
           Ok {| out_dataset := dataset;
                 out_tensor_names := tensor_names;
                 out_problematic_ids := problematic_ids;
                 out_baskets :=
                   if return_baskets then Some (map deref refs) else None |},
           g)
      end
  end.

End Contexts.

Arguments out_dataset {Dataset} _.
Arguments out_tensor_names {Dataset} _.
Arguments out_problematic_ids {Dataset} _.
Arguments out_baskets {Dataset} _.

End TextSimilarity.

(* ===================================================================== *)
(** * Tasks: [Processor.add_task] and the constructors that call it *)
(* ===================================================================== *)

Module Tasks.
Import Py.

(** The truth value of a value in a condition. *)
Definition truthy (v : value) : bool :=
  match v with
  | VNone => false
  | VInt z => negb (z =? 0)
  | VStr s => negb (String.eqb s "")
  | VList l | VTuple l => negb (len l =? 0)
  | VDict d => negb (Z.of_nat (size d) =? 0)
  end.

(** The entry that [add_task] stores under the name of the task. *)
Definition task_entry (metric label_list label_column_name : value)
    (label_name : string) (task_type text_column_name : value) : value :=
  VDict (<["label_list" := label_list]>
        (<["metric" := metric]>
        (<["label_tensor_name" := VStr (String.append label_name "_ids")]>
        (<["label_name" := VStr label_name]>
        (<["label_column_name" := label_column_name]>
        (<["text_column_name" := text_column_name]>
        (<["task_type" := task_type]> ∅))))))).

(** [Processor.add_task] on the dictionary [self.tasks].  Only a list
    passes the test of the type; [label_name + "_ids"] raises [TypeError]
    unless the label name is a string. *)
Definition add_task (tasks : gmap string value) (name : string)
    (metric label_list label_column_name label_name task_type
       text_column_name : value)
  : result (gmap string value) :=
  match label_list with
  | VList _ =>
      let label_name :=
        match label_name with
        | VNone => VStr (String.append name "_label")
        | _ => label_name
        end in
      match label_name with
      | VStr s =>
          Ok (<[name := task_entry metric label_list label_column_name s
                          task_type text_column_name]> tasks)
      | _ => Raise TypeError
      end
  | _ => Raise ValueError
  end.

(** [SquadProcessor.__init__] with its last step: the base class starts
    from [tasks={}], and the default task is added [if metric and
    label_list]. *)
Definition SquadProcessor_init (tk : Squad.Tokenizer)
    (max_seq_len doc_stride max_query_length max_answers : Z)
    (metric label_list : value)
  : result (Squad.SquadProcessor * gmap string value) :=
  self ← Squad.__init__ tk max_seq_len doc_stride max_query_length
           max_answers;
  tasks ←
    (if truthy metric && truthy label_list
     then add_task ∅ "question_answering" metric label_list VNone VNone
            VNone VNone
     else Ok ∅);
  Ok (self, tasks).

(** [TextSimilarityProcessor.__init__]: the attributes, then the task
    [if metric]. *)
Definition TextSimilarityProcessor_init
    (query_tokenizer passage_tokenizer : TextSimilarity.Tokenizer)
    (max_seq_len_query max_seq_len_passage : Z) (embed_title : bool)
    (num_positives num_hard_negatives : Z)
    (shuffle_negatives shuffle_positives : bool) (metric label_list : value)
  : result (TextSimilarity.TextSimilarityProcessor * gmap string value) :=
  let self :=
    {| TextSimilarity.query_tokenizer := query_tokenizer;
       TextSimilarity.passage_tokenizer := passage_tokenizer;
       TextSimilarity.max_seq_len_query := max_seq_len_query;
       TextSimilarity.max_seq_len_passage := max_seq_len_passage;
       TextSimilarity.embed_title := embed_title;
       TextSimilarity.num_positives := num_positives;
       TextSimilarity.num_hard_negatives := num_hard_negatives;
       TextSimilarity.shuffle_negatives := shuffle_negatives;
       TextSimilarity.shuffle_positives := shuffle_positives |} in
  tasks ←
    (if truthy metric
     then add_task ∅ "text_similarity" metric label_list VNone (VStr "label")
            (VStr "text_similarity") VNone
     else Ok ∅);
  Ok (self, tasks).

End Tasks.

(* ===================================================================== *)
(** * Decimal numerals: what [str] writes and [int] reads *)
(* ===================================================================== *)

Module Numerals.

(** The characters of a decimal numeral. *)
Definition digit_char (c : ascii) : Prop :=
  In c ["0"; "1"; "2"; "3"; "4"; "5"; "6"; "7"; "8"; "9"]%char.

(** The value of a numeral read from the left, after the digits read so
    far. *)
Fixpoint horner (acc : Z) (d : Decimal.uint) : Z :=
  match d with
  | Decimal.Nil => acc
  | Decimal.D0 d => horner (10 * acc) d
  | Decimal.D1 d => horner (10 * acc + 1) d
  | Decimal.D2 d => horner (10 * acc + 2) d
  | Decimal.D3 d => horner (10 * acc + 3) d
  | Decimal.D4 d => horner (10 * acc + 4) d
  | Decimal.D5 d => horner (10 * acc + 5) d
  | Decimal.D6 d => horner (10 * acc + 6) d
  | Decimal.D7 d => horner (10 * acc + 7) d
  | Decimal.D8 d => horner (10 * acc + 8) d
  | Decimal.D9 d => horner (10 * acc + 9) d
  end.

End Numerals.

(* ===================================================================== *)
(** * Concrete collaborators

    Small instances of the interfaces above, on which the statements
    below are exercised. *)
(* ===================================================================== *)

Module Demo.
Import Py.

(** ** For the question-answering pipeline *)

(** A tokenizer that frames a pair as [[CLS] a [SEP] b [SEP]]. *)
Definition bert_like : Squad.Tokenizer :=
  {| Squad.build_inputs_with_special_tokens a b :=
       [Squad.TokId 101] ++ a ++ [Squad.TokId 102] ++ b ++ [Squad.TokId 102];
     Squad.create_token_type_ids_from_sequences a b :=
       py_repeat 0 (len a + 2) ++ py_repeat 1 (len b + 1);
     Squad.num_special_tokens_to_add pair := if pair then 3 else 2;
     Squad.pad_token_id := Squad.TokId 0 |}.

(** Modelled from the spec: [offset_to_token_idx], which is not part of
    the sources at hand, "maps a character position to its containing
    token index"; the token that contains a position is the last one that
    starts at or before it. *)
Definition offset_to_token_idx (token_offsets : list Z) (ch_idx : Z) : Z :=
  len (List.filter (fun o => o <=? ch_idx) token_offsets) - 1.

(** Modelled from the spec: [get_passage_offsets], which is not part of
    the sources at hand, returns the spans of a sliding window of
    [passage_len_t] tokens that advances by [doc_stride] tokens, and fails
    on degenerate input. *)
Fixpoint passage_windows (fuel : nat) (doc_offsets : list Z) (doc_len_c : Z)
    (doc_stride passage_len_t : Z) (passage_id start_t : Z)
  : list Squad.PassageSpan :=
  match fuel with
  | O => []
  | S fuel' =>
      let n := len doc_offsets in
      let end_t := Z.min (start_t + passage_len_t) n in
      let char_at t := nth (Z.to_nat t) doc_offsets doc_len_c in
      let span :=
        {| Squad.span_passage_id := passage_id;
           Squad.span_passage_start_t := start_t;
           Squad.span_passage_end_t := end_t;
           Squad.span_passage_start_c := char_at start_t;
           Squad.span_passage_end_c := char_at end_t |} in
      if end_t >=? n then [span]
      else span :: passage_windows fuel' doc_offsets doc_len_c doc_stride
                     passage_len_t (passage_id + 1) (start_t + doc_stride)
  end.

Definition get_passage_offsets (doc_offsets : list Z)
    (doc_stride passage_len_t : Z) (doc_text : string)
  : result (list Squad.PassageSpan) :=
  if (len doc_offsets =? 0) || (passage_len_t <=? 0) || (doc_stride <=? 0)
  then Raise ValueError
  else Ok (passage_windows (length doc_offsets) doc_offsets (str_len doc_text)
             doc_stride passage_len_t 0 0).

(** Whitespace tokenization with the character offset of every word. *)
Fixpoint words_from (pos : Z) (cur : option (Z * string)) (s : string)
  : list (Z * string) :=
  let flush := match cur with Some w => [w] | None => [] end in
  match s with
  | EmptyString => flush
  | String c s' =>
      if is_space c then flush ++ words_from (pos + 1) None s'
      else
        let cur' :=
          match cur with
          | Some (start, w) => Some (start, (w ++ String c EmptyString)%string)
          | None => Some (pos, String c EmptyString)
          end in
        words_from (pos + 1) cur' s'
  end.

Definition words (s : string) : list (Z * string) := words_from 0 None s.

Definition answer_of_value (v : value) : result Squad.Answer :=
  t ← subscript v "text";
  a ← subscript v "answer_start";
  match t, a with
  | VStr t, VInt a => Ok {| Squad.text := t; Squad.answer_start := a |}
  | _, _ => Raise TypeError
  end.

(** The basket of question number [q_idx] of document number [d_idx]. *)
Definition basket_of_question (context : string) (d_idx : Z) (q_idx : nat)
    (qa : value) : result Squad.SampleBasket :=
  q ← subscript qa "question";
  ans ← subscript qa "answers";
  ans ← py_iter ans;
  ans ← for_each answer_of_value ans;
  match q with
  | VStr q =>
      let dw := words context in
      let qw := words q in
      Ok {| Squad.id_internal :=
              (str_of_int d_idx ++ "-" ++ str_of_int (Z.of_nat q_idx))%string;
            Squad.id_external := None;
            Squad.raw :=
              {| Squad.document_text := context;
                 Squad.document_offsets := map fst dw;
                 Squad.document_tokens := map (fun w => Squad.TokStr (snd w)) dw;
                 Squad.document_start_of_word := map (fun _ => 1) dw;
                 Squad.question_text := q;
                 Squad.question_tokens := map (fun w => Squad.TokStr (snd w)) qw;
                 Squad.question_offsets := map fst qw;
                 Squad.question_start_of_word := map (fun _ => 1) qw;
                 Squad.answers := ans |};
            Squad.samples := None |}
  | _ => Raise TypeError
  end.

Definition baskets_of_dict (d_idx : Z) (d : gmap string value)
  : result (list Squad.SampleBasket) :=
  context ← dict_get d "context";
  qas ← dict_get d "qas";
  qas ← py_iter qas;
  match context with
  | VStr context =>
      for_each (fun iq => basket_of_question context d_idx (fst iq) (snd iq))
        (imap pair qas)
  | _ => Raise TypeError
  end.

(** A tokenization step: one basket for every question, numbered by the
    index of its document. *)
Definition tokenize_batch_question_answering
    (pre_baskets : list (gmap string value)) (tk : Squad.Tokenizer)
    (indices : option (list Z)) : result (list Squad.SampleBasket) :=
  let indices :=
    match indices with
    | Some (i :: l) => i :: l
    | _ => map Z.of_nat (seq 0 (length pre_baskets))
    end in
  bs ← for_each (fun di => baskets_of_dict (snd di) (fst di))
         (zip pre_baskets indices);
  Ok (concat bs).

(** A dataset that is the list of its rows. *)
Definition convert_features_to_dataset (features : list Squad.FeatureRow)
  : list Squad.FeatureRow * list string :=
  (features,
   ["input_ids"; "padding_mask"; "segment_ids"; "passage_start_t";
    "start_of_word"; "labels"; "id"; "seq_2_start_t"; "span_mask"]%string).

(** A processor over [bert_like]. *)
Definition squad_processor (max_seq_len doc_stride max_query_length
    max_answers : Z) : Squad.SquadProcessor :=
  {| Squad.tokenizer := bert_like; Squad.max_seq_len := max_seq_len;
     Squad.doc_stride := doc_stride;
     Squad.max_query_length := max_query_length;
     Squad.max_answers := max_answers; Squad.sp_toks_start := 1;
     Squad.sp_toks_mid := 1; Squad.sp_toks_end := 1;
     Squad.problematic_sample_ids := ∅ |}.

(** A document of four words with one question and one gold answer, the
    word ["bb"] at character 3. *)
Definition qa_doc : gmap string value :=
  <["context" := VStr "aa bb cc dd"]>
    (<["qas" :=
         VList [VDict (<["question" := VStr "what is bb"]>
                      (<["id" := VStr "q1"]>
                      (<["answers" :=
                           VList [VDict (<["text" := VStr "bb"]>
                                        (<["answer_start" := VInt 3]> ∅))]]>
                      (<["answer_type" := VNone]> ∅))))]]> ∅).

(** The same document with an answer whose text is not in it: its sample
    fails the validation of the features. *)
Definition bad_doc : gmap string value :=
  <["context" := VStr "aa bb cc dd"]>
    (<["qas" :=
         VList [VDict (<["question" := VStr "q"]>
                      (<["id" := VStr "q2"]>
                      (<["answers" :=
                           VList [VDict (<["text" := VStr "bx"]>
                                        (<["answer_start" := VInt 3]> ∅))]]>
                      (<["answer_type" := VNone]> ∅))))]]> ∅).

(** Sequences of eight tokens, of which two are for the question: three
    tokens are left for a passage. *)
Definition qa_processor : Squad.SquadProcessor := squad_processor 8 1 2 3.

Definition qa_tokenized : list Squad.SampleBasket :=
  match tokenize_batch_question_answering [qa_doc] bert_like None with
  | Ok baskets => baskets
  | Raise _ => []
  end.

(** The baskets of [qa_doc] with their two passages. *)
Definition qa_passages : list Squad.SampleBasket :=
  Squad._split_docs_into_passages get_passage_offsets qa_processor
    qa_tokenized.

(** A basket after [_split_docs_into_passages]: the document
    ["aa bb cc dd"], the question ["q"], and windows of two tokens that
    advance by one token. *)
Definition span_processor : Squad.SquadProcessor := squad_processor 6 1 2 3.

Definition span_raw (answers : list Squad.Answer) : Squad.BasketRaw :=
  {| Squad.document_text := "aa bb cc dd";
     Squad.document_offsets := [0; 3; 6; 9];
     Squad.document_tokens :=
       [Squad.TokStr "aa"; Squad.TokStr "bb"; Squad.TokStr "cc";
        Squad.TokStr "dd"];
     Squad.document_start_of_word := [1; 1; 1; 1];
     Squad.question_text := "q";
     Squad.question_tokens := [Squad.TokStr "q"];
     Squad.question_offsets := [0];
     Squad.question_start_of_word := [1];
     Squad.answers := answers |}.

Definition window (passage_id start_t start_c : Z) (passage_text : string)
    (tokens : list string) : Squad.Sample :=
  {| Squad.sample_id := ("0-0-" ++ str_of_int passage_id)%string;
     Squad.clear_text :=
       {| Squad.passage_text := passage_text;
          Squad.ct_question_text := "q";
          Squad.passage_id := passage_id |};
     Squad.tokenized := Some
       {| Squad.passage_start_t := start_t;
          Squad.passage_start_c := start_c;
          Squad.passage_tokens := map Squad.TokStr tokens;
          Squad.passage_start_of_word := map (fun _ => 1) tokens;
          Squad.tk_question_tokens := [Squad.TokStr "q"];
          Squad.tk_question_offsets := [0];
          Squad.tk_question_start_of_word := [1];
          Squad.labels := None |};
     Squad.features := None |}.

Definition window_tokenized (start_t start_c : Z) (tokens : list string)
  : Squad.Tokenized :=
  {| Squad.passage_start_t := start_t;
     Squad.passage_start_c := start_c;
     Squad.passage_tokens := map Squad.TokStr tokens;
     Squad.passage_start_of_word := map (fun _ => 1) tokens;
     Squad.tk_question_tokens := [Squad.TokStr "q"];
     Squad.tk_question_offsets := [0];
     Squad.tk_question_start_of_word := [1];
     Squad.labels := None |}.

Definition span_basket (answers : list Squad.Answer) : Squad.SampleBasket :=
  {| Squad.id_internal := "0-0";
     Squad.id_external := None;
     Squad.raw := span_raw answers;
     Squad.samples := Some
       [window 0 0 0 "aa bb " ["aa"; "bb"];
        window 1 1 3 "bb cc " ["bb"; "cc"];
        window 2 2 6 "cc dd" ["cc"; "dd"]] |}.

(** The answer ["bb cc"]: it starts in the first window and ends at the
    first token after it. *)
Definition answer_bb_cc : Squad.Answer :=
  {| Squad.text := "bb cc"; Squad.answer_start := 3 |}.

(** An answer whose text is not in the document, and one that is. *)
Definition answer_bx : Squad.Answer :=
  {| Squad.text := "bx"; Squad.answer_start := 3 |}.

Definition answer_aa : Squad.Answer :=
  {| Squad.text := "aa"; Squad.answer_start := 0 |}.

(** An answer at the third word whose text is not in the document: it
    lies after the first window and inside the second one. *)
Definition answer_cx : Squad.Answer :=
  {| Squad.text := "cx"; Squad.answer_start := 6 |}.

(** The labels that [_convert_answers] stores in the samples of a
    basket. *)
Definition labels_of (b : Squad.SampleBasket) : list (option (list (Z * Z))) :=
  map (fun s => match Squad.tokenized s with
                | Some t => Squad.labels t
                | None => None
                end)
    (default [] (Squad.samples b)).

(** The basket with the answers ["bx"] and ["aa"] after
    [_convert_answers]: the labels of its first window are marked. *)
Definition bx_labelled : list Squad.SampleBasket :=
  match Squad._convert_answers offset_to_token_idx span_processor
          [span_basket [answer_bx; answer_aa]] with
  | Ok baskets => baskets
  | Raise _ => []
  end.

(** A windowing that gives the first window alone, and fails for a
    budget below zero. *)
Definition first_window (doc_offsets : list Z) (doc_stride passage_len_t : Z)
    (doc_text : string) : result (list Squad.PassageSpan) :=
  if passage_len_t <? 0 then Raise ValueError
  else
    let end_t := Z.min passage_len_t (len doc_offsets) in
    Ok [{| Squad.span_passage_id := 0;
           Squad.span_passage_start_t := 0;
           Squad.span_passage_end_t := end_t;
           Squad.span_passage_start_c := 0;
           Squad.span_passage_end_c :=
             nth (Z.to_nat end_t) doc_offsets (str_len doc_text) |}].

(** A basket as the tokenization leaves it, for a document and the
    question ["q"]. *)
Definition fresh_basket (context : string) : Squad.SampleBasket :=
  {| Squad.id_internal := "0-0";
     Squad.id_external := None;
     Squad.raw :=
       {| Squad.document_text := context;
          Squad.document_offsets := map fst (words context);
          Squad.document_tokens :=
            map (fun w => Squad.TokStr (snd w)) (words context);
          Squad.document_start_of_word := map (fun _ => 1) (words context);
          Squad.question_text := "q";
          Squad.question_tokens := [Squad.TokStr "q"];
          Squad.question_offsets := [0];
          Squad.question_start_of_word := [1];
          Squad.answers := [] |};
     Squad.samples := None |}.

(** An input with an empty context. *)
Definition empty_doc : gmap string value :=
  <["context" := VStr ""]>
    (<["qas" :=
         VList [VDict (<["question" := VStr "q"]>
                      (<["id" := VStr "q3"]>
                      (<["answers" := VList []]>
                      (<["answer_type" := VNone]> ∅))))]]> ∅).

(** The input of the api format that the specification normalises. *)
Definition paris_api : gmap string value :=
  <["text" := VStr "Paris is the capital of France."]>
    (<["questions" := VList [VStr "What is the capital of France?"]]>
       (<["id" := VStr "q1"]> ∅)).

(** An input that carries the keys of both formats. *)
Definition both_formats : gmap string value :=
  <["text" := VStr "t"]>
    (<["questions" := VList [VStr "q"]]>
       (<["context" := VStr "c"]> (<["qas" := VList []]> ∅))).

(** ** For the retrieval pipeline *)

Definition char_ids (s : string) : list value :=
  map (fun c => VInt (Z.of_nat (nat_of_ascii c)))
    (List.filter (fun c => negb (is_space c)) (list_ascii_of_string s)).

Definition encode_text (v : value) : result (list value) :=
  match v with
  | VStr s => Ok (char_ids s)
  | _ => Raise TypeError
  end.

(** A tokenizer with one id for every character that is not whitespace.
    A string gives one sequence of ids; a list or a tuple of strings is a
    batch and gives one sequence for each of its members. *)
Definition char_tokenizer : TextSimilarity.Tokenizer :=
  {| TextSimilarity.tokenizer_call v :=
       match v with
       | VStr s =>
           let ids := char_ids s in
           Ok (<["token_type_ids" := VList (map (fun _ => VInt 0) ids)]>
                 (<["input_ids" := VList ids]> ∅))
       | VList l | VTuple l =>
           seqs ← for_each encode_text l;
           Ok (<["token_type_ids" :=
                   VList (map (fun s => VList (map (fun _ => VInt 0) s)) seqs)]>
                 (<["input_ids" := VList (map VList seqs)]> ∅))
       | _ => Raise TypeError
       end;
     TextSimilarity.convert_ids_to_tokens v :=
       match v with
       | VList l => Ok (VList (map (fun _ => VStr "t") l))
       | VInt _ => Ok (VStr "t")
       | _ => Raise TypeError
       end |}.

Definition retrieval_processor (num_positives num_hard_negatives : Z)
  : TextSimilarity.TextSimilarityProcessor :=
  {| TextSimilarity.query_tokenizer := char_tokenizer;
     TextSimilarity.passage_tokenizer := char_tokenizer;
     TextSimilarity.max_seq_len_query := 64;
     TextSimilarity.max_seq_len_passage := 256;
     TextSimilarity.embed_title := true;
     TextSimilarity.num_positives := num_positives;
     TextSimilarity.num_hard_negatives := num_hard_negatives;
     TextSimilarity.shuffle_negatives := false;
     TextSimilarity.shuffle_positives := false |}.

(** A generator without state, whose shuffle keeps the order. *)
Definition no_shuffle (g : unit) (l : list value) : list value * unit := (l, g).

Definition passage (title text label : string) : value :=
  VDict (<["title" := VStr title]> (<["text" := VStr text]>
        (<["label" := VStr label]> ∅))).

Definition query_basket (i : Z) (query : string) (passages : list value)
  : TextSimilarity.SampleBasket :=
  {| TextSimilarity.id_external := None; TextSimilarity.id_internal := i;
     TextSimilarity.raw :=
       <["query" := VStr query]> (<["passages" := VList passages]> ∅);
     TextSimilarity.samples := None |}.

(** Three positive and five hard negative passages for one query. *)
Definition retrieval_basket : TextSimilarity.SampleBasket :=
  query_basket 0 "who?"
    [passage "t1" "p1" "positive"; passage "t2" "p2" "positive";
     passage "t3" "p3" "positive";
     passage "u1" "n1" "hard_negative"; passage "u2" "n2" "hard_negative";
     passage "u3" "n3" "hard_negative"; passage "u4" "n4" "hard_negative";
     passage "u5" "n5" "hard_negative"].

(** A generator that counts the calls of [shuffle], which reverses the
    list. *)
Definition counting_shuffle (g : nat) (l : list value) : list value * nat :=
  (rev l, S g).

(** One query with a positive passage, and one whose list of passages
    holds a number where a passage should be. *)
Definition retrieval_queries : list TextSimilarity.SampleBasket :=
  TextSimilarity.baskets_after_convert_queries (retrieval_processor 1 2)
    [query_basket 0 "who?" [passage "t1" "p1" "positive"];
     query_basket 1 "why" [VInt 3]].

(** [passage_input_ids] of the first sample of a basket. *)
Definition passage_input_ids_of (b : TextSimilarity.SampleBasket)
  : option value :=
  match TextSimilarity.samples b with
  | Some (s :: _) =>
      match TextSimilarity.features s with
      | Some (f :: _) => f !! "passage_input_ids"
      | _ => None
      end
  | _ => None
  end.

End Demo.

(* ===================================================================== *)
(** * Facts about the built-ins *)
(* ===================================================================== *)

Module PyFacts.
Import Py.

Lemma len_nonneg {A} (l : list A) : 0 <= len l.
Proof. unfold len. lia. Qed.

Lemma len_app {A} (l1 l2 : list A) : len (l1 ++ l2) = len l1 + len l2.
Proof. unfold len. rewrite length_app. lia. Qed.

Lemma len_py_repeat {A} (x : A) (n : Z) : len (py_repeat x n) = Z.max 0 n.
Proof. unfold len, py_repeat. rewrite length_replicate. lia. Qed.

Lemma slice_index_range (n i : Z) : 0 <= n -> 0 <= slice_index n i <= n.
Proof. unfold slice_index. destruct (i <? 0) eqn:E; lia. Qed.

(** A slice between bounds that are not negative is no longer than their
    distance. *)
Lemma len_py_slice_le {A} (l : list A) (a b : Z) :
  0 <= a <= b -> len (py_slice l a b) <= b - a.
Proof.
  intros H. unfold py_slice, len, slice_index.
  rewrite length_take, length_drop.
  destruct (a <? 0) eqn:Ea; destruct (b <? 0) eqn:Eb; lia.
Qed.

Lemma list_ascii_of_string_app (s1 s2 : string) :
  list_ascii_of_string (s1 ++ s2)
  = list_ascii_of_string s1 ++ list_ascii_of_string s2.
Proof. induction s1 as [|c s1 IH]; simpl; [reflexivity | now rewrite IH]. Qed.

Lemma py_slice_drop_last {A} (l : list A) (x : A) :
  py_slice (l ++ [x]) 0 (-1) = l.
Proof.
  unfold py_slice, slice_index, len. rewrite length_app. simpl length.
  assert (E0 : Z.to_nat (Z.min 0 (Z.of_nat (length l + 1))) = 0%nat) by lia.
  assert (E1 : Z.to_nat (Z.max 0 (-1 + Z.of_nat (length l + 1))
                         - Z.min 0 (Z.of_nat (length l + 1))) = length l)
    by lia.
  change (0 <? 0) with false. change (-1 <? 0) with true. cbv iota.
  rewrite E0, E1, drop_0. apply take_app_length.
Qed.

Lemma str_last_snoc (s : string) (c : ascii) :
  str_last (s ++ String c "") = Ok c.
Proof.
  induction s as [|a s IH]; simpl; [reflexivity|].
  rewrite IH. destruct (s ++ String c "")%string eqn:E; [|reflexivity].
  destruct s; discriminate.
Qed.

Lemma str_drop_last_snoc (s : string) (c : ascii) :
  str_drop_last (s ++ String c "") = s.
Proof.
  unfold str_drop_last, str_slice.
  rewrite list_ascii_of_string_app. simpl.
  rewrite py_slice_drop_last. apply string_of_list_ascii_of_string.
Qed.

Lemma string_snoc_cases (s : string) :
  s = ""%string \/ exists s' c, s = (s' ++ String c "")%string.
Proof.
  induction s as [|a s IH]; [now left | right].
  destruct IH as [-> | (s' & c & ->)].
  - now exists ""%string, a.
  - now exists (String a s'), c.
Qed.

Lemma for_each_ext {A B} (f g : A -> result B) (l : list A) :
  (forall x, f x = g x) -> for_each f l = for_each g l.
Proof.
  intros H. induction l as [|x l IH]; simpl; [reflexivity|].
  now rewrite H, IH.
Qed.

End PyFacts.

(* ===================================================================== *)
(** * Facts about the question-answering pipeline *)
(* ===================================================================== *)

Module SquadFacts.
Import Py Squad PyFacts.

(** Unfolds the monad of [result]. *)
Ltac unfold_bind := unfold mbind, result_bind, mret, result_ret, bind in *.

(** ** Construction *)

Lemma assert_doc_stride_raises (ds msl mql : Z) :
  assert_doc_stride ds msl mql = Raise AssertionError <-> ds >= msl - mql.
Proof.
  unfold assert_doc_stride.
  destruct (Z.ltb_spec ds (msl - mql)); split; intros H';
    try discriminate; try lia; reflexivity.
Qed.

Lemma assert_doc_stride_passes (ds msl mql : Z) :
  ds < msl - mql -> assert_doc_stride ds msl mql = Ok tt.
Proof.
  intros H. unfold assert_doc_stride.
  destruct (Z.ltb_spec ds (msl - mql)); [reflexivity | lia].
Qed.

Lemma list_index_raises {A} `{EqDecision A} (x : A) (l : list A) (e : exn) :
  list_index x l = Raise e -> e = ValueError.
Proof.
  induction l as [|y l IH]; simpl; [congruence|].
  destruct (decide (y = x)); [discriminate|].
  destruct (list_index x l); simpl; [discriminate|].
  intros [= <-]. now apply IH.
Qed.

Lemma special_tokens_count_raises (tk : Tokenizer) (e : exn) :
  _initialize_special_tokens_count tk = Raise e -> e = ValueError.
Proof.
  unfold _initialize_special_tokens_count. unfold_bind.
  destruct (list_index (TokStr "a") _) eqn:Ea.
  - destruct (list_index (TokStr "b") _) eqn:Eb; [discriminate|].
    intros [= <-]. eapply list_index_raises, Eb.
  - intros [= <-]. eapply list_index_raises, Ea.
Qed.

Lemma init_raises_assertion (tk : Tokenizer) (msl ds mql ma : Z) :
  __init__ tk msl ds mql ma = Raise AssertionError <-> ds >= msl - mql.
Proof.
  rewrite <- assert_doc_stride_raises. unfold __init__. unfold_bind.
  destruct (assert_doc_stride ds msl mql) as [[]|e] eqn:E.
  - split; [|discriminate].
    destruct (_initialize_special_tokens_count tk) as [[[s m] x]|e'] eqn:E';
      [discriminate|].
    intros [= ->]. now apply special_tokens_count_raises in E'.
  - split; intros [= ->]; reflexivity.
Qed.

Lemma convert_qa_input_dict_body_raises (d : gmap string value) :
  convert_qa_input_dict_body d <> Raise AssertionError.
Proof.
  unfold convert_qa_input_dict_body, dict_get. unfold_bind.
  destruct (dict_has d "context" && dict_has d "qas"); [discriminate|].
  destruct (d !! "questions") as [q|]; [|discriminate].
  destruct (d !! "text"); [|discriminate].
  destruct q; simpl; discriminate.
Qed.

(** C6 (amended).  The constructor of [SquadProcessor], and
    [convert_qa_input_dict] after it, fail with the assertion error exactly
    when [doc_stride >= max_seq_len - max_query_length].  With
    [max_seq_len = 384] and [max_query_length = 64] the bound is 320: the
    strides 128 and 300 pass the assertion, the stride 320 does not. *)
Theorem init_fails_iff_doc_stride_too_large :
  (forall tk msl ds mql ma,
      __init__ tk msl ds mql ma = Raise AssertionError <-> ds >= msl - mql)
  /\ (forall self d,
      convert_qa_input_dict self d = Raise AssertionError
      <-> doc_stride self >= max_seq_len self - max_query_length self)
  /\ (forall tk ma, __init__ tk 384 128 64 ma <> Raise AssertionError)
  /\ (forall tk ma, __init__ tk 384 300 64 ma <> Raise AssertionError)
  /\ (forall tk ma, __init__ tk 384 320 64 ma = Raise AssertionError).
Proof.
  split; [exact init_raises_assertion|].
  split.
  { intros self d. rewrite <- assert_doc_stride_raises.
    unfold convert_qa_input_dict. unfold_bind.
    destruct (assert_doc_stride _ _ _) as [[]|e];
      [|split; intros [= ->]; reflexivity].
    split; [|discriminate].
    pose proof (convert_qa_input_dict_body_raises d) as Hb.
    destruct (convert_qa_input_dict_body d) as [|[]]; congruence. }
  repeat split; intros tk ma; rewrite ?init_raises_assertion; lia.
Qed.

(** C6, the claim as it stands: the stride 300 is accepted with
    [max_seq_len = 384] and [max_query_length = 64]. *)
Lemma init_accepts_doc_stride_300 :
  __init__ Demo.bert_like 384 300 64 6 = Ok (Demo.squad_processor 384 300 64 6)
  /\ __init__ Demo.bert_like 384 300 64 6 <> Raise AssertionError.
Proof. split; [reflexivity | discriminate]. Qed.

(** ** Input normalisation *)

(** C8 (amended).  A dictionary of the api format, with the keys ["text"]
    and ["questions"], that does not hold both keys ["context"] and ["qas"]
    of the internal format, is rewritten by a processor whose stride passes
    the assertion into the internal format: the text under ["context"] and
    under ["qas"] one entry for every question, with the question, the
    ["id"] of the input (or [None]), no answers and no answer type. *)
Theorem convert_qa_input_dict_api_format
    (self : SquadProcessor) (d : gmap string value) (text : value)
    (questions : list value) :
  doc_stride self < max_seq_len self - max_query_length self ->
  ~ (is_Some (d !! "context") /\ is_Some (d !! "qas")) ->
  d !! "text" = Some text ->
  d !! "questions" = Some (VList questions) ->
  convert_qa_input_dict self d
  = Ok (<["qas" :=
            VList (map (fun q =>
                     VDict (<["question" := q]>
                           (<["id" := default VNone (d !! "id")]>
                           (<["answers" := VList []]>
                           (<["answer_type" := VNone]> ∅)))))
                   questions)]>
          (<["context" := text]> ∅)).
Proof.
  intros Hstride Hshape Htext Hq.
  unfold convert_qa_input_dict. rewrite assert_doc_stride_passes by exact Hstride.
  unfold_bind. unfold convert_qa_input_dict_body, dict_has, dict_get.
  assert (bool_decide (is_Some (d !! "context"))
          && bool_decide (is_Some (d !! "qas")) = false) as ->.
  { apply andb_false_iff.
    destruct (decide (is_Some (d !! "context"))) as [Hc|Hc].
    - right. apply bool_decide_eq_false. tauto.
    - left. now apply bool_decide_eq_false. }
  rewrite Hq, Htext. reflexivity.
Qed.

(** C8 on the input of the specification. *)
Lemma convert_qa_input_dict_paris :
  convert_qa_input_dict (Demo.squad_processor 384 128 64 6) Demo.paris_api
  = Ok (<["context" := VStr "Paris is the capital of France."]>
          (<["qas" :=
               VList [VDict (<["question" := VStr "What is the capital of France?"]>
                            (<["id" := VStr "q1"]>
                            (<["answers" := VList []]>
                            (<["answer_type" := VNone]> ∅))))]]> ∅)).
Proof.
  etransitivity.
  - apply (convert_qa_input_dict_api_format
             (Demo.squad_processor 384 128 64 6) Demo.paris_api
             (VStr "Paris is the capital of France.")
             [VStr "What is the capital of France?"]).
    + simpl. lia.
    + intros [[v Hv] _]. vm_compute in Hv. discriminate.
    + reflexivity.
    + reflexivity.
  - vm_compute. reflexivity.
Defined.

(** C8, the claim as it stands: an input with the keys ["text"] and
    ["questions"] that also has the keys ["context"] and ["qas"] is
    returned as it is; its context is not its text and it has no entry
    for its question.  And a processor whose stride was set to the bound
    after its construction raises on the input of the specification. *)
Lemma convert_qa_input_dict_keeps_internal_format :
  convert_qa_input_dict (Demo.squad_processor 384 128 64 6) Demo.both_formats
  = Ok Demo.both_formats
  /\ Demo.both_formats !! "text" = Some (VStr "t")
  /\ Demo.both_formats !! "questions" = Some (VList [VStr "q"])
  /\ Demo.both_formats !! "context" = Some (VStr "c")
  /\ Demo.both_formats !! "qas" = Some (VList [])
  /\ convert_qa_input_dict (Demo.squad_processor 384 320 64 6) Demo.paris_api
     = Raise AssertionError.
Proof. repeat split; reflexivity. Qed.

(** ** The flat feature list *)

Section CreateDatasetFacts.

Context {Dataset : Type}.
Variable convert_features_to_dataset : list FeatureRow -> Dataset * list string.
Variable deref : nat -> SampleBasket.

#[local] Abbreviation complete :=
  (fun b : nat => _check_sample_features (deref b)).

Lemma check_sample_features_spec (basket : SampleBasket) :
  _check_sample_features basket = true
  <-> exists ss, samples basket = Some ss /\ ss <> []
                 /\ forall sample, In sample ss -> features sample <> None.
Proof.
  unfold _check_sample_features. destruct (samples basket) as [ss|].
  - destruct ss as [|s ss].
    + simpl. split; [discriminate | intros (? & [= <-] & H & _); now destruct H].
    + replace (len (s :: ss) =? 0) with false
        by (symmetry; apply Z.eqb_neq; unfold len; simpl; lia).
      rewrite forallb_forall. split.
      * intros H. exists (s :: ss). repeat split; [discriminate|].
        intros x Hx Hnone. apply H in Hx. rewrite Hnone in Hx.
        apply bool_decide_eq_true in Hx. now destruct Hx.
      * intros (? & [= <-] & _ & H) x Hx. apply bool_decide_eq_true.
        specialize (H x Hx). destruct (features x); [eauto | congruence].
  - split; [discriminate | intros (? & [=] & _)].
Qed.

Lemma scan_baskets_fold (baskets : list nat) (F : list FeatureRow)
    (R : list nat) :
  fold_left (scan_basket deref) baskets (F, R)
  = (F ++ flat_map (fun b => basket_rows (deref b)) (List.filter complete baskets),
     R ++ List.filter (fun b => negb (complete b)) baskets).
Proof.
  revert F R. induction baskets as [|b l IH]; intros F R; simpl.
  - now rewrite !app_nil_r.
  - destruct (_check_sample_features (deref b)); simpl; rewrite IH.
    + now rewrite <- app_assoc.
    + now rewrite <- app_assoc.
Qed.

Lemma list_remove_first_skip (x : nat) (l1 l2 : list nat) :
  ~ In x l1 -> list_remove_first x (l1 ++ x :: l2) = Ok (l1 ++ l2).
Proof.
  induction l1 as [|y l1 IH]; simpl; intros H.
  - destruct (decide (x = x)); [reflexivity | congruence].
  - destruct (decide (y = x)) as [->|_]; [tauto|].
    rewrite IH by tauto. reflexivity.
Qed.

(** Removing the incomplete baskets one by one leaves the complete ones,
    in their order. *)
Lemma remove_baskets_filter (l1 l2 : list nat) :
  (forall b, In b l1 -> complete b = true) ->
  remove_baskets (List.filter (fun b => negb (complete b)) l2) (l1 ++ l2)
  = Ok (l1 ++ List.filter complete l2).
Proof.
  revert l1. induction l2 as [|b l2 IH]; intros l1 H1; simpl.
  - reflexivity.
  - destruct (_check_sample_features (deref b)) eqn:Eb; simpl.
    + replace (l1 ++ b :: l2) with ((l1 ++ [b]) ++ l2)
        by now rewrite <- app_assoc.
      rewrite IH.
      * now rewrite <- app_assoc.
      * intros x [Hx | [<- | []]]%in_app_or; [now apply H1 | exact Eb].
    + unfold_bind. rewrite list_remove_first_skip.
      * now apply IH.
      * intros Hin. apply H1 in Hin. congruence.
Qed.

(** C4.  A basket is complete exactly when it has a list of samples that
    is not empty and none of whose samples has [features = None].  The
    flat list that [_create_dataset] hands to the dataset is the
    concatenation of the [features] of the samples of the complete
    baskets, basket by basket and sample by sample, and nothing else: a
    row is in the list if and only if it is a row of the features of a
    sample of a complete basket.  The baskets that remain in the list are
    the complete ones; hence no sample of a remaining basket, and no
    sample that gave a row, has [features = None]. *)
Theorem create_dataset_keeps_complete_baskets (baskets : list nat) :
  (forall basket,
      _check_sample_features basket = true
      <-> exists ss, samples basket = Some ss /\ ss <> []
                     /\ forall sample, In sample ss -> features sample <> None)
  /\ create_dataset_rows deref baskets
     = flat_map
         (fun b =>
            flat_map (fun sample => default [] (features sample))
              (default [] (samples (deref b))))
         (List.filter (fun b => _check_sample_features (deref b)) baskets)
  /\ (forall row,
        In row (create_dataset_rows deref baskets)
        <-> exists b ss sample rows,
              In b baskets /\ _check_sample_features (deref b) = true
              /\ samples (deref b) = Some ss /\ In sample ss
              /\ features sample = Some rows /\ In row rows)
  /\ _create_dataset Dataset convert_features_to_dataset deref baskets
     = Ok (fst (convert_features_to_dataset (create_dataset_rows deref baskets)),
           snd (convert_features_to_dataset (create_dataset_rows deref baskets)),
           List.filter complete baskets)
  /\ (forall b ss sample,
        In b (List.filter complete baskets) ->
        samples (deref b) = Some ss -> In sample ss ->
        features sample <> None).
Proof.
  assert (create_dataset_rows deref baskets
          = flat_map
              (fun b =>
                 flat_map (fun sample => default [] (features sample))
                   (default [] (samples (deref b))))
              (List.filter (fun b => _check_sample_features (deref b))
                 baskets)) as Hrows.
  { unfold create_dataset_rows. rewrite scan_baskets_fold. reflexivity. }
  split; [exact check_sample_features_spec|].
  split; [exact Hrows|].
  split.
  { intros row. rewrite Hrows, in_flat_map. split.
    - intros (b & [Hb Hc]%filter_In & Hrow).
      apply in_flat_map in Hrow as (sample & Hs & Hrow).
      pose proof Hc as Hc'.
      apply check_sample_features_spec in Hc' as (ss & Hss & _ & Hall).
      rewrite Hss in Hs. cbn [default] in Hs.
      destruct (features sample) as [rows|] eqn:Ef;
        [|now apply Hall in Hs].
      exists b, ss, sample, rows. repeat split; assumption.
    - intros (b & ss & sample & rows & Hb & Hc & Hss & Hs & Hf & Hrow).
      exists b. split; [now apply filter_In|].
      apply in_flat_map. exists sample. rewrite Hss, Hf. now split. }
  split.
  - unfold _create_dataset, create_dataset_rows.
    rewrite scan_baskets_fold. simpl. unfold_bind.
    pose proof (remove_baskets_filter [] baskets) as Hr. simpl in Hr.
    rewrite Hr by (intros ? []). simpl.
    now destruct (convert_features_to_dataset _).
  - intros b ss sample [_ Hb]%filter_In Hss Hin.
    apply check_sample_features_spec in Hb as (ss' & Hss' & _ & Hall).
    rewrite Hss in Hss'. injection Hss' as <-. now apply Hall.
Qed.

End CreateDatasetFacts.

(** ** Feature rows *)

(** An invariant of a loop with [fold_result]. *)
Lemma fold_result_inv {S A B} (body : S -> A -> result (B * S))
    (I : S -> Prop) (P : A -> Prop) (Q : B -> Prop) :
  (forall st x y st', I st -> P x -> body st x = Ok (y, st') -> I st' /\ Q y) ->
  forall l st ys st',
    I st -> (forall x, In x l -> P x) ->
    fold_result body st l = Ok (ys, st') ->
    I st' /\ (forall y, In y ys -> Q y).
Proof.
  intros Hbody. induction l as [|x l IH]; simpl; intros st ys st' HI HP.
  - intros [= <- <-]. split; [exact HI | intros ? []].
  - unfold_bind. destruct (body st x) as [[y st1]|] eqn:Ex; [|discriminate].
    destruct (fold_result body st1 l) as [[ys1 st2]|] eqn:El; [|discriminate].
    intros [= <- <-].
    destruct (Hbody st x y st1 HI (HP x (or_introl eq_refl)) Ex) as [HI1 HQ].
    destruct (IH st1 ys1 st2 HI1 (fun z Hz => HP z (or_intror Hz)) El)
      as [HI2 HQs].
    split; [exact HI2 | intros z [<- | Hz]; auto].
Qed.

Section FeatureFacts.

Variable self0 : SquadProcessor.

(** The contract of the tokenizer: joining a pair adds the special tokens
    of a pair and nothing else. *)
Hypothesis build_adds :
  forall a b,
    len (build_inputs_with_special_tokens (tokenizer self0) a b)
    = len a + len b + num_special_tokens_to_add (tokenizer self0) true.

#[local] Abbreviation row_lengths row :=
  (len (input_ids row) = max_seq_len self0
   /\ len (padding_mask row) = max_seq_len self0
   /\ len (segment_ids row) = max_seq_len self0
   /\ len (start_of_word row) = max_seq_len self0
   /\ len (span_mask row) = max_seq_len self0).

Lemma len_check_true (a : Arrays) :
  len_check a = true ->
  len (a_padding_mask a) = len (a_input_ids a)
  /\ len (a_segment_ids a) = len (a_input_ids a)
  /\ len (a_start_of_word a) = len (a_input_ids a)
  /\ len (a_span_mask a) = len (a_input_ids a).
Proof.
  unfold len_check. rewrite !andb_true_iff, !Z.eqb_eq. lia.
Qed.

(** Padding brings a joined pair that fits to the sequence length. *)
Lemma padded_input_ids_len (self : SquadProcessor) (l : Locals) :
  config_of self = config_of self0 ->
  fits self0 (lv_question_input_ids l) (lv_passage_input_ids l) ->
  len (a_input_ids (padded_arrays self l)) = max_seq_len self0.
Proof.
  intros Hcfg Hfit. unfold config_of in Hcfg.
  injection Hcfg as Htk Hmsl _ _ _ _ _ _.
  unfold padded_arrays. simpl. rewrite len_app, len_py_repeat, Htk, Hmsl.
  rewrite build_adds. unfold fits in Hfit. lia.
Qed.

Lemma bind_locals_ids (sample : Sample) (t : Tokenized) (l : Locals) :
  bind_locals sample t = Ok l ->
  lv_question_input_ids l = tk_question_tokens t
  /\ lv_passage_input_ids l = passage_tokens t.
Proof.
  unfold bind_locals. unfold_bind.
  destruct (for_each py_int _); [|discriminate].
  intros [= <-]. split; reflexivity.
Qed.

(** The body of the loop over the samples keeps the configuration and the
    fit of the local variables, and gives rows of the sequence length. *)
Lemma featurize_sample_rows (rb : bool) (st st' : SquadProcessor * option Locals)
    (sample sample' : Sample) :
  (config_of (fst st) = config_of self0
   /\ forall l, snd st = Some l ->
        fits self0 (lv_question_input_ids l) (lv_passage_input_ids l)) ->
  (forall t, tokenized sample = Some t ->
        fits self0 (tk_question_tokens t) (passage_tokens t)) ->
  featurize_sample rb st sample = Ok (sample', st') ->
  (config_of (fst st') = config_of self0
   /\ forall l, snd st' = Some l ->
        fits self0 (lv_question_input_ids l) (lv_passage_input_ids l))
  /\ (forall rows row, features sample' = Some rows -> In row rows ->
        row_lengths row).
Proof.
  destruct st as [self lv]. cbn [fst snd]. intros [Hcfg Hlv] Hfit.
  unfold featurize_sample. unfold_bind. cbv beta iota zeta.
  set (lv1 := match tokenized sample with
              | Some t => _
              | None => Ok lv
              end).
  assert (forall o, lv1 = Ok o -> forall l, o = Some l ->
            fits self0 (lv_question_input_ids l) (lv_passage_input_ids l))
    as Hlv1.
  { subst lv1. intros o. destruct (tokenized sample) as [t|] eqn:Et.
    - destruct (bind_locals sample t) as [l0|] eqn:Eb; [|discriminate].
      intros [= <-] l [= <-]. apply bind_locals_ids in Eb as [-> ->].
      now apply Hfit.
    - intros [= <-]. exact Hlv. }
  destruct lv1 as [[l|]|]; [|discriminate..].
  specialize (Hlv1 _ eq_refl _ eq_refl).
  destruct (label_check self rb sample) as [c1|]; [|discriminate].
  destruct (label_check2 rb sample) as [c2|]; [|discriminate].
  pose proof (padded_input_ids_len self l Hcfg Hlv1) as Hin.
  remember (padded_arrays self l) as arrays eqn:Earr. clear Earr.
  destruct (len_check arrays) eqn:Elen; cbn [andb].
  - destruct ((len (lv_sample_id l) =? 3) && c1 && c2).
    + destruct (tokenized sample); [|discriminate].
      intros [= <- <-]. cbn [fst snd features set_features]. split; [split|].
      * exact Hcfg.
      * now intros ? [= <-].
      * intros rows row [= <-] [<- | []].
        cbn [input_ids padding_mask segment_ids start_of_word span_mask].
        apply len_check_true in Elen. lia.
    + intros [= <- <-]. simpl. split; [split|].
      * exact Hcfg.
      * now intros ? [= <-].
      * discriminate.
  - intros [= <- <-]. simpl. split; [split|].
    + exact Hcfg.
    + now intros ? [= <-].
    + discriminate.
Qed.

(** C1.  Let the tokenizer add exactly the special tokens of a pair when
    it joins a question and a passage, and let every passage that reaches
    [_passages_to_paddle_features] keep to the budget reserved for it:
    [max_seq_len] minus the length of the question minus the special
    tokens.  Then in every sample that comes out of the stage with features
    that are not [None], the arrays [input_ids], [padding_mask],
    [segment_ids], [start_of_word] and [span_mask] of the feature row all
    have length [max_seq_len]. *)
Theorem feature_rows_have_length_max_seq_len
    (baskets baskets' : list SampleBasket) (return_baskets : bool)
    (self' : SquadProcessor) :
  (forall basket ss sample t,
      In basket baskets -> samples basket = Some ss -> In sample ss ->
      tokenized sample = Some t ->
      len (passage_tokens t)
      <= max_seq_len self0 - len (tk_question_tokens t)
         - num_special_tokens_to_add (tokenizer self0) true) ->
  _passages_to_paddle_features self0 baskets return_baskets
  = Ok (baskets', self') ->
  forall basket ss sample rows row,
    In basket baskets' -> samples basket = Some ss -> In sample ss ->
    features sample = Some rows -> In row rows ->
    len (input_ids row) = max_seq_len self0
    /\ len (padding_mask row) = max_seq_len self0
    /\ len (segment_ids row) = max_seq_len self0
    /\ len (start_of_word row) = max_seq_len self0
    /\ len (span_mask row) = max_seq_len self0.
Proof.
  intros Hbudget Hrun. unfold _passages_to_paddle_features in Hrun.
  unfold_bind.
  destruct (fold_result _ _ _) as [[bs [s1 lv1]]|] eqn:Efold; [|discriminate].
  injection Hrun as <- <-.
  pose (I := fun st : SquadProcessor * option Locals =>
    config_of (fst st) = config_of self0
    /\ forall l, snd st = Some l ->
         fits self0 (lv_question_input_ids l) (lv_passage_input_ids l)).
  pose (P := fun sample : Sample =>
    forall t, tokenized sample = Some t ->
      fits self0 (tk_question_tokens t) (passage_tokens t)).
  pose (Q := fun sample : Sample =>
    forall rows row, features sample = Some rows -> In row rows ->
      row_lengths row).
  assert (forall b, In b bs ->
            forall ss, samples b = Some ss -> forall s, In s ss -> Q s) as H.
  { refine (proj2 (fold_result_inv (featurize_basket return_baskets) I
              (fun b => forall ss, samples b = Some ss ->
                                   forall s, In s ss -> P s)
              (fun b => forall ss, samples b = Some ss ->
                                   forall s, In s ss -> Q s)
              _ baskets (self0, None) bs (s1, lv1) _ _ Efold)).
    - intros st b b1 st1 HI HP. unfold featurize_basket. unfold_bind.
      destruct (samples b) as [ss|] eqn:Ess; [|discriminate].
      destruct (fold_result _ st ss) as [[ss1 st2]|] eqn:Ess1; [|discriminate].
      intros [= <- <-].
      destruct (fold_result_inv (featurize_sample return_baskets) I P Q
                  (fun st x y st' HI HP E =>
                     featurize_sample_rows return_baskets st st' x y HI HP E)
                  ss st ss1 st2 HI (HP ss eq_refl) Ess1) as [HI2 HQ].
      split; [exact HI2|]. simpl. intros ? [= <-]. exact HQ.
    - split; [reflexivity | discriminate].
    - intros b Hb ss Hss s Hs t Ht. unfold fits.
      specialize (Hbudget b ss s t Hb Hss Hs Ht). lia. }
  intros basket ss sample rows row Hb Hss Hs Hf Hr.
  exact (H basket Hb ss Hss sample Hs rows row Hf Hr).
Qed.

End FeatureFacts.

Lemma bert_like_adds (a b : list token) :
  len (build_inputs_with_special_tokens Demo.bert_like a b)
  = len a + len b + num_special_tokens_to_add Demo.bert_like true.
Proof.
  cbn [build_inputs_with_special_tokens num_special_tokens_to_add
       Demo.bert_like].
  rewrite !len_app. unfold len. simpl. lia.
Qed.

(** C1 on the two passages of [Demo.qa_doc]: the first row has length 8
    in all five arrays. *)
Lemma feature_rows_length_demo :
  exists baskets' self' basket ss sample rows row,
    _passages_to_paddle_features Demo.qa_processor Demo.qa_passages true
    = Ok (baskets', self')
    /\ In basket baskets' /\ samples basket = Some ss /\ In sample ss
    /\ features sample = Some rows /\ In row rows
    /\ len (input_ids row) = 8
    /\ len (padding_mask row) = 8
    /\ len (segment_ids row) = 8
    /\ len (start_of_word row) = 8
    /\ len (span_mask row) = 8.
Proof.
  destruct (_passages_to_paddle_features Demo.qa_processor Demo.qa_passages
              true) as [[baskets' self']|] eqn:E;
    [|vm_compute in E; discriminate].
  pose proof E as E'. vm_compute in E'. injection E' as <- <-.
  do 7 eexists.
  split; [reflexivity|].
  split; [left; reflexivity|].
  split; [reflexivity|].
  split; [left; reflexivity|].
  split; [reflexivity|].
  split; [left; reflexivity|].
  refine (feature_rows_have_length_max_seq_len Demo.qa_processor
            bert_like_adds Demo.qa_passages _ true _ _ E _ _ _ _ _
            (or_introl eq_refl) eq_refl (or_introl eq_refl) eq_refl
            (or_introl eq_refl)).
  intros basket ss sample t [<- | []] [= <-] [<- | [<- | []]] [= <-];
    vm_compute; discriminate.
Defined.

(** The contract of [get_passage_offsets] carries over to the samples of
    [_split_docs_into_passages]: a span of at most the budget in tokens
    gives a passage that fits the budget of the stage after. *)
Lemma split_docs_passages_fit
    (get_passage_offsets :
       list Z -> Z -> Z -> string -> result (list PassageSpan))
    (self : SquadProcessor) (baskets : list SampleBasket) :
  (forall offsets stride budget doc spans span,
      get_passage_offsets offsets stride budget doc = Ok spans ->
      In span spans ->
      0 <= span_passage_start_t span <= span_passage_end_t span
      /\ span_passage_end_t span - span_passage_start_t span <= budget) ->
  forall basket ss sample t,
    In basket (_split_docs_into_passages get_passage_offsets self baskets) ->
    document_text (raw basket) <> ""%string ->
    samples basket = Some ss -> In sample ss ->
    tokenized sample = Some t ->
    len (passage_tokens t)
    <= max_seq_len self - len (tk_question_tokens t)
       - num_special_tokens_to_add (tokenizer self) true.
Proof.
  intros Hspans basket ss sample t Hin Hdoc Hss Hs Ht.
  unfold _split_docs_into_passages in Hin.
  apply in_map_iff in Hin as (b0 & <- & _).
  unfold split_basket in *.
  destruct (String.eqb_spec (document_text (raw b0)) ""); [contradiction|].
  simpl in Hss. injection Hss as <-.
  apply in_map_iff in Hs as (span & <- & Hspan).
  simpl in Ht. injection Ht as <-. simpl.
  destruct (get_passage_offsets _ _ _ _) as [spans|] eqn:E; [|destruct Hspan].
  destruct (Hspans _ _ _ _ _ _ E Hspan) as [Hrange Hlen].
  pose proof (len_py_slice_le (document_tokens (raw b0)) _ _ Hrange).
  unfold passage_budget in Hlen. lia.
Qed.

(** ** Answers *)

Lemma set_row_spec (L L' : list (Z * Z)) (i : nat) (v w : Z) :
  set_row L i v w = Ok L' ->
  length L' = length L /\ L' !! i = Some (v, w)
  /\ forall j, j <> i -> L' !! j = L !! j.
Proof.
  unfold set_row, set_cell. unfold_bind.
  destruct (L !! i) as [[s e]|] eqn:Ei; [|discriminate].
  assert (i < length L)%nat as Hi by (eapply lookup_lt_Some, Ei).
  rewrite list_lookup_insert_eq by exact Hi.
  intros [= <-]. rewrite list_insert_insert_eq.
  split; [now rewrite length_insert|].
  split; [now rewrite list_lookup_insert_eq|].
  intros j Hj. now rewrite list_lookup_insert_ne.
Qed.

Section AnswerFacts.

Variable offset_to_token_idx_vecorized : list Z -> Z -> Z.
Variable self : SquadProcessor.
Variable r : BasketRaw.
Variable t : Tokenized.

#[local] Abbreviation start_t a :=
  (answer_start_t_rel offset_to_token_idx_vecorized r t a).
#[local] Abbreviation end_t a :=
  (answer_end_t_rel offset_to_token_idx_vecorized r t a).
#[local] Abbreviation passage_len_t := (len (passage_tokens t)).
#[local] Abbreviation shift :=
  (sp_toks_start self + len (tk_question_tokens t) + sp_toks_mid self).

(** The answer check applies to the answer, and fails. *)
#[local] Abbreviation flagged a :=
  (0 <= start_t a /\ end_t a < passage_len_t /\ answer_mismatch r a).

(** The answer lies in the passage, as the test before the assignment of
    the labels has it. *)
#[local] Abbreviation contained a :=
  (0 <= start_t a < passage_len_t /\ 0 <= end_t a <= passage_len_t).

Lemma mismatch_test (a : Answer) :
  let answer_end_c := answer_start a + str_len (text a) - 1 in
  negb (str_contains (text a) (document_text r))
  || negb (String.eqb
             (str_strip (str_slice (document_text r) (answer_start a)
                           (answer_end_c + 1)))
             (str_strip (text a))) = true
  <-> answer_mismatch r a.
Proof.
  unfold answer_mismatch. cbv zeta.
  destruct (str_contains _ _); simpl.
  - destruct (String.eqb_spec
                (str_strip (str_slice (document_text r) (answer_start a)
                              (answer_start a + str_len (text a) - 1 + 1)))
                (str_strip (text a))) as [E|E]; simpl.
    + split; [discriminate | intros [H|H]; [discriminate | contradiction]].
    + split; [now right | reflexivity].
  - split; [now left | reflexivity].
Qed.

(** One round of the loop over the answers. *)
Lemma convert_answer_spec (i : nat) (a : Answer) (L : list (Z * Z))
    (o : answer_outcome) :
  convert_answer offset_to_token_idx_vecorized self r t i a L = Ok o ->
  exists L',
    length L' = length L
    /\ (forall j, j <> i -> L' !! j = L !! j)
    /\ ((flagged a /\ o = Break L' /\ L' !! i = Some (-100, -100))
        \/ (~ flagged a /\ o = Continue L'
            /\ (contained a ->
                L' !! i = Some (shift + start_t a, shift + end_t a))
            /\ (~ contained a -> L' !! i = Some (0, 0)))).
Proof.
  unfold convert_answer. unfold_bind. cbv zeta.
  set (inside := (passage_len_t >? start_t a) && (start_t a >=? 0)
                 && (passage_len_t >=? end_t a) && (end_t a >=? 0)).
  assert (inside = true <-> contained a) as Hinside.
  { subst inside. rewrite !andb_true_iff. lia. }
  set (first := if inside then _ else _).
  destruct first as [L1|] eqn:E1; [|discriminate]. subst first.
  assert (length L1 = length L /\ (forall j, j <> i -> L1 !! j = L !! j)
          /\ (contained a ->
              L1 !! i = Some (shift + start_t a, shift + end_t a))
          /\ (~ contained a -> L1 !! i = Some (0, 0))) as (Hlen & Hoth & Hin & Hout).
  { destruct inside; apply set_row_spec in E1 as (H & H0 & H1);
      (split; [exact H|]); (split; [exact H1|]).
    - split; [intros _; exact H0|].
      intros Hc. exfalso. now apply Hc, Hinside.
    - split; [|intros _; exact H0].
      intros Hc. apply Hinside in Hc. discriminate. }
  destruct ((start_t a <? 0) || (end_t a >=? passage_len_t)) eqn:Eskip.
  - intros [= <-]. exists L1. repeat split; try assumption.
    right. repeat split; try assumption.
    intros (H1 & H2 & _). apply orb_true_iff in Eskip. lia.
  - apply orb_false_iff in Eskip as [Es Ee].
    pose proof (mismatch_test a) as Hmis. cbv zeta in Hmis.
    destruct (negb (str_contains (text a) (document_text r))) eqn:Ec.
    + destruct (set_row L1 i (-100) (-100)) as [L2|] eqn:E2; [|discriminate].
      intros [= <-]. apply set_row_spec in E2 as (Hlen2 & Hi2 & Hoth2).
      exists L2. split; [congruence|].
      split; [intros j Hj; rewrite Hoth2 by exact Hj; now apply Hoth|].
      left. repeat split; try assumption; try lia. now apply Hmis.
    + simpl in Hmis.
      destruct (negb (String.eqb _ _)) eqn:Em.
      * destruct (set_row L1 i (-100) (-100)) as [L2|] eqn:E2; [|discriminate].
        intros [= <-]. apply set_row_spec in E2 as (Hlen2 & Hi2 & Hoth2).
        exists L2. split; [congruence|].
        split; [intros j Hj; rewrite Hoth2 by exact Hj; now apply Hoth|].
        left. repeat split; try assumption; try lia. now apply Hmis.
      * intros [= <-]. exists L1. repeat split; try assumption.
        right. repeat split; try assumption.
        intros (_ & _ & Hm). apply Hmis in Hm. discriminate.
Qed.

(** The loop over the answers from index [k] on: the rows below [k] are
    left alone; as long as no answer is flagged every answer gets the row
    of its containment test; the first flagged answer gets the row of the
    sentinel, ends the loop, and leaves the rows after it alone. *)
Lemma convert_answers_loop_spec (answers : list Answer) :
  forall (k : nat) (L L' : list (Z * Z)) (broke : bool),
    convert_answers_loop offset_to_token_idx_vecorized self r t k answers L
    = Ok (L', broke) ->
    length L' = length L
    /\ (forall j, (j < k)%nat -> L' !! j = L !! j)
    /\ forall n a,
        answers !! n = Some a ->
        (forall m b, (m < n)%nat -> answers !! m = Some b -> ~ flagged b) ->
        (~ flagged a ->
           (contained a ->
              L' !! (k + n)%nat = Some (shift + start_t a, shift + end_t a))
           /\ (~ contained a -> L' !! (k + n)%nat = Some (0, 0)))
        /\ (flagged a ->
             L' !! (k + n)%nat = Some (-100, -100) /\ broke = true
             /\ forall j, (k + n < j)%nat -> L' !! j = L !! j).
Proof.
  induction answers as [|a0 rest IH]; intros k L L' broke; simpl.
  - intros [= <- <-]. repeat split; try reflexivity. all: intros; discriminate.
  - unfold_bind.
    destruct (convert_answer _ self r t k a0 L) as [o|] eqn:Eo; [|discriminate].
    apply convert_answer_spec in Eo
      as (L1 & Hlen1 & Hoth1 & [(Hfl & -> & Hk) | (Hnfl & -> & Hin & Hout)]).
    + intros [= <- <-]. split; [exact Hlen1|].
      split; [intros j Hj; apply Hoth1; lia|].
      intros [|n] a Ha Hprev.
      * injection Ha as <-. rewrite Nat.add_0_r. split; [tauto|].
        intros _. repeat split; [exact Hk|]. intros j Hj. apply Hoth1. lia.
      * exfalso. apply (Hprev 0%nat a0); [lia | reflexivity | exact Hfl].
    + intros Hloop. apply IH in Hloop as (Hlen & Hlow & Hrest).
      split; [congruence|].
      split; [intros j Hj; rewrite Hlow by lia; apply Hoth1; lia|].
      intros [|n] a Ha Hprev.
      * injection Ha as <-. rewrite Nat.add_0_r.
        rewrite (Hlow k) by lia. split; [intros _; split; assumption | tauto].
      * replace (k + S n)%nat with (S k + n)%nat by lia.
        destruct (Hrest n a Ha) as [H1 H2].
        { intros m b Hm Hb. apply (Hprev (S m) b); [lia | exact Hb]. }
        split; [exact H1|].
        intros Hfl. destruct (H2 Hfl) as (Hrow & Hbroke & Hafter).
        repeat split; [exact Hrow | exact Hbroke|].
        intros j Hj. rewrite Hafter by lia. apply Hoth1. lia.
Qed.

Lemma sample_labels_loop (sample : Sample) (labels : list (Z * Z))
    (err : bool) (i : nat) (a : Answer) :
  tokenized sample = Some t ->
  sample_labels offset_to_token_idx_vecorized self r false sample
  = Ok (labels, err) ->
  answers r !! i = Some a ->
  exists broke,
    err = broke
    /\ convert_answers_loop offset_to_token_idx_vecorized self r t 0
         (answers r) (replicate (Z.to_nat (max_answers self)) (-1, -1))
       = Ok (labels, broke).
Proof.
  intros Ht. unfold sample_labels, np_full_labels. unfold_bind.
  destruct (max_answers self <? 0); [discriminate|].
  intros H Ha.
  assert ((len (answers r) =? 0) = false) as E.
  { apply Z.eqb_neq. apply lookup_lt_Some in Ha. unfold len. lia. }
  rewrite E, Ht in H. simpl in H.
  destruct (convert_answers_loop _ _ _ _ _ _ _) as [[l b]|]; [|discriminate].
  injection H as <- <-. now exists b.
Qed.

(** C2 (amended).  Take a sample that the loop over the samples reaches
    with [error_in_answer = False], and an answer of its basket such that
    neither it nor an answer before it is marked by the answer check (the
    case of C3).  Its character span is mapped to token indices of the
    document and shifted by [passage_start_t]; if the start lies in
    [[0, passage_len)] and the end in [[0, passage_len]] (the bound of the
    end is inclusive), the row of the labels is the two shifted indices
    plus [sp_toks_start + question_len + sp_toks_mid]; otherwise the row is
    [(0, 0)]. *)
Theorem convert_answers_label_row (sample : Sample) (labels : list (Z * Z))
    (err : bool) (i : nat) (answer : Answer) :
  tokenized sample = Some t ->
  sample_labels offset_to_token_idx_vecorized self r false sample
  = Ok (labels, err) ->
  answers r !! i = Some answer ->
  (forall j a, (j <= i)%nat -> answers r !! j = Some a ->
     ~ (0 <= start_t a /\ end_t a < passage_len_t /\ answer_mismatch r a)) ->
  (0 <= start_t answer < passage_len_t /\ 0 <= end_t answer <= passage_len_t ->
     labels !! i = Some (shift + start_t answer, shift + end_t answer))
  /\ (~ (0 <= start_t answer < passage_len_t
         /\ 0 <= end_t answer <= passage_len_t) ->
      labels !! i = Some (0, 0)).
Proof.
  intros Ht Hrun Ha Hclean.
  destruct (sample_labels_loop sample labels err i answer Ht Hrun Ha)
    as (broke & _ & Hloop).
  apply convert_answers_loop_spec in Hloop as (_ & _ & Hrows).
  destruct (Hrows i answer Ha) as [H _].
  - intros m b Hm Hb. apply (Hclean m b); [lia | exact Hb].
  - apply H. apply (Hclean i answer); [lia | exact Ha].
Qed.

(** The loop over the answers of a sample that is reached with
    [error_in_answer = False] and has a first answer that fails the answer
    check. *)
Lemma sample_labels_mismatch (sample : Sample)
    (labels : list (Z * Z)) (err : bool) (i : nat) (answer : Answer) :
  tokenized sample = Some t ->
  sample_labels offset_to_token_idx_vecorized self r false sample
  = Ok (labels, err) ->
  answers r !! i = Some answer ->
  (forall j a, (j < i)%nat -> answers r !! j = Some a ->
     ~ (0 <= start_t a /\ end_t a < passage_len_t /\ answer_mismatch r a)) ->
  0 <= start_t answer -> end_t answer < passage_len_t ->
  answer_mismatch r answer ->
  labels !! i = Some (-100, -100)
  /\ err = true
  /\ forall j, (i < j)%nat -> Z.of_nat j < max_answers self ->
       labels !! j = Some (-1, -1).
Proof.
  intros Ht Hrun Ha Hclean Hs He Hm.
  destruct (sample_labels_loop sample labels err i answer Ht Hrun Ha)
    as (broke & -> & Hloop).
  apply convert_answers_loop_spec in Hloop as (_ & _ & Hrows).
  destruct (Hrows i answer Ha Hclean) as [_ H].
  destruct H as (Hrow & Hbroke & Hafter); [tauto|].
  repeat split; [exact Hrow | exact Hbroke|].
  intros j Hj Hlt. rewrite Hafter by lia.
  apply lookup_replicate_2. lia.
Qed.

(** Once [error_in_answer] is set, the later samples of the basket get
    the label of a passage without answer. *)
Lemma sample_labels_after_error (sample : Sample) (labels : list (Z * Z))
    (err : bool) :
  sample_labels offset_to_token_idx_vecorized self r true sample
  = Ok (labels, err) ->
  err = true /\ labels !! 0%nat = Some (0, 0)
  /\ forall j, (0 < j)%nat -> Z.of_nat j < max_answers self ->
       labels !! j = Some (-1, -1).
Proof.
  unfold sample_labels, np_full_labels. unfold_bind.
  destruct (max_answers self <? 0); [discriminate|]. simpl.
  destruct (set_row _ 0 0 0) as [l|] eqn:E; [|discriminate].
  intros [= <- <-]. apply set_row_spec in E as (_ & H0 & Hoth).
  repeat split; [exact H0|].
  intros j Hj Hlt. rewrite Hoth by lia. apply lookup_replicate_2. lia.
Qed.

(** The samples before the first one that sets [error_in_answer]: the
    loop over the samples passes them and reaches the rest of the list
    with the flag unset. *)
Lemma convert_samples_prefix (before rest out : list Sample) :
  Forall
    (fun s =>
       exists L,
         sample_labels offset_to_token_idx_vecorized self r false s
         = Ok (L, false))
    before ->
  convert_samples offset_to_token_idx_vecorized self r false (before ++ rest)
  = Ok out ->
  exists before' rest',
    out = before' ++ rest' /\ length before' = length before
    /\ convert_samples offset_to_token_idx_vecorized self r false rest
       = Ok rest'.
Proof.
  intros H. revert out.
  induction H as [|s before [L HL] _ IH]; intros out; simpl.
  - intros Hrun. exists [], out. repeat split. exact Hrun.
  - rewrite HL. unfold_bind.
    destruct (tokenized s) as [ts|]; [|discriminate].
    destruct (convert_samples _ self r false (before ++ rest)) as [out1|]
      eqn:E1; [|discriminate].
    intros [= <-].
    destruct (IH out1 eq_refl) as (before' & rest' & -> & Hlen & Hrest).
    exists (set_tokenized s (set_labels ts L) :: before'), rest'.
    repeat split; [simpl; now rewrite Hlen | exact Hrest].
Qed.

(** The samples after the one that sets [error_in_answer]: each of them
    gets the row [(0, 0)] and keeps the initial [(-1, -1)] below it. *)
Lemma convert_samples_after_error (later later' : list Sample) :
  convert_samples offset_to_token_idx_vecorized self r true later
  = Ok later' ->
  Forall2
    (fun s s' =>
       exists t' L',
         tokenized s = Some t' /\ s' = set_tokenized s (set_labels t' L')
         /\ L' !! 0%nat = Some (0, 0)
         /\ forall j, (0 < j)%nat -> Z.of_nat j < max_answers self ->
              L' !! j = Some (-1, -1))
    later later'.
Proof.
  revert later'. induction later as [|s later IH]; simpl; intros later'.
  - intros [= <-]. constructor.
  - unfold_bind.
    destruct (sample_labels _ self r true s) as [[L e]|] eqn:EL;
      [|discriminate].
    apply sample_labels_after_error in EL as (-> & H0 & Hrest).
    destruct (tokenized s) as [ts|] eqn:Ets; [|discriminate].
    destruct (convert_samples _ self r true later) as [out|] eqn:E;
      [|discriminate].
    intros [= <-]. constructor; [|now apply IH].
    exists ts, L. repeat split; assumption.
Qed.

(** C3 (amended).  Take a basket and one of its samples that the loop over
    the samples reaches with [error_in_answer = False]: every sample
    before it ends its own loop over the answers with the flag unset.  The
    first answer that lies in the passage of this sample (start at or
    after 0, end before [passage_len]) and whose text is not found in the
    document, or differs, once stripped, from the text at its offsets,
    gets the row [(-100, -100)]; the loop over the answers stops there
    with [error_in_answer = True]; the rows of the answers after it keep
    the initial [(-1, -1)]; and every later sample of the basket gets the
    row [(0, 0)] of a passage without answer, with [(-1, -1)] below it. *)
Theorem convert_answers_mismatch_marks_answer (basket basket' : SampleBasket)
    (before later : list Sample) (sample : Sample) (i : nat)
    (answer : Answer) :
  raw basket = r ->
  samples basket = Some (before ++ sample :: later) ->
  Forall
    (fun s =>
       exists L,
         sample_labels offset_to_token_idx_vecorized self r false s
         = Ok (L, false))
    before ->
  tokenized sample = Some t ->
  answers r !! i = Some answer ->
  (forall j a, (j < i)%nat -> answers r !! j = Some a ->
     ~ (0 <= start_t a /\ end_t a < passage_len_t /\ answer_mismatch r a)) ->
  0 <= start_t answer -> end_t answer < passage_len_t ->
  answer_mismatch r answer ->
  convert_basket_answers offset_to_token_idx_vecorized self basket
  = Ok basket' ->
  exists before' labels later',
    samples basket'
    = Some (before' ++ set_tokenized sample (set_labels t labels) :: later')
    /\ length before' = length before
    /\ sample_labels offset_to_token_idx_vecorized self r false sample
       = Ok (labels, true)
    /\ labels !! i = Some (-100, -100)
    /\ (forall j, (i < j)%nat -> Z.of_nat j < max_answers self ->
          labels !! j = Some (-1, -1))
    /\ Forall2
         (fun s s' =>
            exists t' L',
              tokenized s = Some t'
              /\ s' = set_tokenized s (set_labels t' L')
              /\ L' !! 0%nat = Some (0, 0)
              /\ forall j, (0 < j)%nat -> Z.of_nat j < max_answers self ->
                   L' !! j = Some (-1, -1))
         later later'.
Proof.
  intros Hraw Hsamples Hbefore Ht Ha Hclean Hs He Hm.
  unfold convert_basket_answers. rewrite Hsamples, Hraw. unfold_bind.
  destruct (convert_samples _ self r false (before ++ sample :: later))
    as [out|] eqn:E; [|discriminate].
  intros [= <-]. cbn [samples set_samples].
  destruct (convert_samples_prefix before (sample :: later) out Hbefore E)
    as (before' & rest' & -> & Hlen & Hrest).
  simpl in Hrest. unfold_bind.
  destruct (sample_labels _ self r false sample) as [[labels err]|] eqn:EL;
    [|discriminate].
  rewrite Ht in Hrest.
  destruct (sample_labels_mismatch sample labels err i answer Ht EL Ha Hclean
              Hs He Hm) as (Hrow & -> & Hafter).
  destruct (convert_samples _ self r true later) as [later'|] eqn:El;
    [|discriminate].
  injection Hrest as <-.
  exists before', labels, later'.
  repeat split; try assumption.
  now apply convert_samples_after_error.
Qed.

End AnswerFacts.

(** The basket of the examples below is what the windowing stage makes of
    its document. *)
Lemma span_basket_is_split (answers : list Answer) :
  _split_docs_into_passages Demo.get_passage_offsets Demo.span_processor
    [{| id_internal := "0-0"; id_external := None;
        raw := Demo.span_raw answers; samples := None |}]
  = [Demo.span_basket answers].
Proof. reflexivity. Qed.

(** C2, the claim as it stands: the answer ["bb cc"] ends at token 2 of
    the first window, which has the tokens 0 and 1; the end is outside of
    [[0, 2)], and yet the row is not [(0, 0)] but the shifted span
    [(4, 5)], whose end is the position of the closing special token. *)
Lemma convert_answers_end_at_passage_len :
  exists baskets',
    _convert_answers Demo.offset_to_token_idx Demo.span_processor
      [Demo.span_basket [Demo.answer_bb_cc]] = Ok baskets'
    /\ map Demo.labels_of baskets'
       = [[Some [(4, 5); (-1, -1); (-1, -1)];
           Some [(3, 4); (-1, -1); (-1, -1)];
           Some [(0, 0); (-1, -1); (-1, -1)]]]
    /\ answer_start_t_rel Demo.offset_to_token_idx
         (Demo.span_raw [Demo.answer_bb_cc])
         (Demo.window_tokenized 0 0 ["aa"; "bb"]) Demo.answer_bb_cc = 1
    /\ answer_end_t_rel Demo.offset_to_token_idx
         (Demo.span_raw [Demo.answer_bb_cc])
         (Demo.window_tokenized 0 0 ["aa"; "bb"]) Demo.answer_bb_cc = 2
    /\ len (passage_tokens (Demo.window_tokenized 0 0 ["aa"; "bb"])) = 2.
Proof.
  eexists. split; [vm_compute; reflexivity|]. repeat split.
Qed.

(** C2 on the second window of the same basket, which holds the answer. *)
Lemma convert_answers_label_row_demo :
  sample_labels Demo.offset_to_token_idx Demo.span_processor
    (Demo.span_raw [Demo.answer_bb_cc]) false
    (Demo.window 1 1 3 "bb cc " ["bb"; "cc"])
  = Ok ([(3, 4); (-1, -1); (-1, -1)], false)
  /\ [(3, 4); (-1, -1); (-1, -1)] !! 0%nat = Some (3 + 0, 3 + 1).
Proof.
  split; [reflexivity|].
  refine (proj1 (convert_answers_label_row Demo.offset_to_token_idx
                   Demo.span_processor (Demo.span_raw [Demo.answer_bb_cc])
                   (Demo.window_tokenized 1 3 ["bb"; "cc"])
                   (Demo.window 1 1 3 "bb cc " ["bb"; "cc"])
                   [(3, 4); (-1, -1); (-1, -1)] false 0 Demo.answer_bb_cc
                   eq_refl eq_refl eq_refl _) _).
  - intros j a Hj Ha. destruct j; [|lia]. injection Ha as <-.
    intros (_ & _ & [H | H]); [vm_compute in H; discriminate H|].
    apply H. reflexivity.
  - vm_compute. repeat split; discriminate.
Defined.

(** C3, the claim as it stands: the text of the first answer is not in
    the document; its row is marked, the row of the answer after it is
    not: it keeps [(-1, -1)]. *)
Lemma convert_answers_later_rows_unmarked :
  exists baskets',
    _convert_answers Demo.offset_to_token_idx Demo.span_processor
      [Demo.span_basket [Demo.answer_bx; Demo.answer_aa]] = Ok baskets'
    /\ map Demo.labels_of baskets'
       = [[Some [(-100, -100); (-1, -1); (-1, -1)];
           Some [(0, 0); (-1, -1); (-1, -1)];
           Some [(0, 0); (-1, -1); (-1, -1)]]].
Proof. eexists. split; vm_compute; reflexivity. Qed.

(** C3 on a basket whose answer lies in the second window: the first
    window passes with the flag unset, the second one marks the answer,
    and the third one gets the row of a passage without answer. *)
Lemma convert_answers_mismatch_demo :
  exists basket',
    convert_basket_answers Demo.offset_to_token_idx Demo.span_processor
      (Demo.span_basket [Demo.answer_cx]) = Ok basket'
    /\ Demo.labels_of basket'
       = [Some [(0, 0); (-1, -1); (-1, -1)];
          Some [(-100, -100); (-1, -1); (-1, -1)];
          Some [(0, 0); (-1, -1); (-1, -1)]]
    /\ exists before' labels later',
        samples basket'
        = Some (before'
                ++ set_tokenized (Demo.window 1 1 3 "bb cc " ["bb"; "cc"])
                     (set_labels (Demo.window_tokenized 1 3 ["bb"; "cc"])
                        labels)
                   :: later')
        /\ length before' = length [Demo.window 0 0 0 "aa bb " ["aa"; "bb"]]
        /\ sample_labels Demo.offset_to_token_idx Demo.span_processor
             (Demo.span_raw [Demo.answer_cx]) false
             (Demo.window 1 1 3 "bb cc " ["bb"; "cc"])
           = Ok (labels, true)
        /\ labels !! 0%nat = Some (-100, -100)
        /\ (forall j, (0 < j)%nat ->
              Z.of_nat j < max_answers Demo.span_processor ->
              labels !! j = Some (-1, -1))
        /\ Forall2
             (fun s s' =>
                exists t' L',
                  tokenized s = Some t'
                  /\ s' = set_tokenized s (set_labels t' L')
                  /\ L' !! 0%nat = Some (0, 0)
                  /\ forall j, (0 < j)%nat ->
                       Z.of_nat j < max_answers Demo.span_processor ->
                       L' !! j = Some (-1, -1))
             [Demo.window 2 2 6 "cc dd" ["cc"; "dd"]] later'.
Proof.
  destruct (convert_basket_answers Demo.offset_to_token_idx
              Demo.span_processor (Demo.span_basket [Demo.answer_cx]))
    as [basket'|] eqn:E; [|vm_compute in E; discriminate].
  exists basket'. split; [reflexivity|]. split.
  { vm_compute in E. injection E as <-. reflexivity. }
  refine (convert_answers_mismatch_marks_answer Demo.offset_to_token_idx
            Demo.span_processor (Demo.span_raw [Demo.answer_cx])
            (Demo.window_tokenized 1 3 ["bb"; "cc"])
            (Demo.span_basket [Demo.answer_cx]) basket'
            [Demo.window 0 0 0 "aa bb " ["aa"; "bb"]]
            [Demo.window 2 2 6 "cc dd" ["cc"; "dd"]]
            (Demo.window 1 1 3 "bb cc " ["bb"; "cc"]) 0 Demo.answer_cx
            eq_refl eq_refl _ eq_refl eq_refl _ _ _ _ E).
  - constructor; [|constructor].
    exists [(0, 0); (-1, -1); (-1, -1)]. reflexivity.
  - intros j a Hj. lia.
  - vm_compute. discriminate.
  - reflexivity.
  - left. reflexivity.
Defined.

(** ** Determinism of the pipeline *)

(** Two loops whose bodies agree on related states agree. *)
Lemma fold_result_agree {S A B} (R : S -> S -> Prop)
    (body : S -> A -> result (B * S)) :
  (forall st1 st2 x, R st1 st2 -> agree R (body st1 x) (body st2 x)) ->
  forall l st1 st2,
    R st1 st2 -> agree R (fold_result body st1 l) (fold_result body st2 l).
Proof.
  intros Hbody. induction l as [|x l IH]; intros st1 st2 HR; simpl.
  - split; [reflexivity | exact HR].
  - unfold_bind. specialize (Hbody st1 st2 x HR). unfold agree in Hbody.
    destruct (body st1 x) as [[y1 s1]|e1], (body st2 x) as [[y2 s2]|e2];
      try contradiction; [|exact Hbody].
    destruct Hbody as [<- HR1]. specialize (IH s1 s2 HR1). unfold agree in IH.
    destruct (fold_result body s1 l) as [[ys1 s1']|],
             (fold_result body s2 l) as [[ys2 s2']|];
      try contradiction; [|exact IH].
    destruct IH as [<- HR2]. split; [reflexivity | exact HR2].
Qed.

Section Determinism.

Variable get_passage_offsets :
  list Z -> Z -> Z -> string -> result (list PassageSpan).
Variable offset_to_token_idx_vecorized : list Z -> Z -> Z.
Variable tokenize_batch_question_answering :
  list (gmap string value) -> Tokenizer -> option (list Z) ->
  result (list SampleBasket).
Variable Dataset : Type.
Variable convert_features_to_dataset : list FeatureRow -> Dataset * list string.

Variables s1 s2 : SquadProcessor.
Hypothesis same_config : config_of s1 = config_of s2.

Lemma same_fields :
  tokenizer s1 = tokenizer s2 /\ max_seq_len s1 = max_seq_len s2
  /\ doc_stride s1 = doc_stride s2
  /\ max_query_length s1 = max_query_length s2
  /\ max_answers s1 = max_answers s2
  /\ sp_toks_start s1 = sp_toks_start s2
  /\ sp_toks_mid s1 = sp_toks_mid s2 /\ sp_toks_end s1 = sp_toks_end s2.
Proof.
  pose proof same_config as H. unfold config_of in H.
  injection H as -> -> -> -> -> -> -> ->. repeat split.
Qed.

Lemma convert_qa_input_dict_config (d : gmap string value) :
  convert_qa_input_dict s1 d = convert_qa_input_dict s2 d.
Proof.
  destruct same_fields as (_ & Hm & Hd & Hq & _).
  unfold convert_qa_input_dict. now rewrite Hm, Hd, Hq.
Qed.

Lemma split_docs_config (baskets : list SampleBasket) :
  _split_docs_into_passages get_passage_offsets s1 baskets
  = _split_docs_into_passages get_passage_offsets s2 baskets.
Proof.
  destruct same_fields as (Ht & Hm & Hd & Hq & _).
  unfold _split_docs_into_passages. apply map_ext. intros b.
  unfold split_basket, passage_budget. rewrite Ht, Hm, Hd, Hq.
  destruct (String.eqb _ _); [reflexivity|]. f_equal.
  apply map_ext. intros span. unfold sample_of_span. now rewrite Hq.
Qed.

Lemma convert_answers_loop_config (r : BasketRaw) (t : Tokenized)
    (answers : list Answer) :
  forall i L,
    convert_answers_loop offset_to_token_idx_vecorized s1 r t i answers L
    = convert_answers_loop offset_to_token_idx_vecorized s2 r t i answers L.
Proof.
  destruct same_fields as (_ & _ & _ & _ & _ & Hs & Hm & _).
  assert (forall i a L,
             convert_answer offset_to_token_idx_vecorized s1 r t i a L
             = convert_answer offset_to_token_idx_vecorized s2 r t i a L)
    as Hbody.
  { intros i a L. unfold convert_answer. now rewrite Hs, Hm. }
  induction answers as [|a rest IH]; intros i L; simpl; [reflexivity|].
  rewrite Hbody. unfold_bind.
  destruct (convert_answer _ s2 r t i a L) as [[L1|L1]|];
    [apply IH | reflexivity | reflexivity].
Qed.

Lemma convert_samples_config (r : BasketRaw) (ss : list Sample) :
  forall err,
    convert_samples offset_to_token_idx_vecorized s1 r err ss
    = convert_samples offset_to_token_idx_vecorized s2 r err ss.
Proof.
  destruct same_fields as (_ & _ & _ & _ & Ha & _).
  induction ss as [|x rest IH]; intros err; simpl; [reflexivity|].
  unfold sample_labels. rewrite Ha. unfold_bind.
  destruct (np_full_labels _) as [L|]; [|reflexivity].
  destruct (err || _).
  - destruct (set_row L 0 0 0); [|reflexivity].
    destruct (tokenized x); [|reflexivity]. now rewrite IH.
  - destruct (tokenized x) as [t|]; [|reflexivity].
    rewrite convert_answers_loop_config.
    destruct (convert_answers_loop _ s2 r t 0 _ L) as [[l b]|]; [|reflexivity].
    now rewrite IH.
Qed.

Lemma convert_answers_config (baskets : list SampleBasket) :
  _convert_answers offset_to_token_idx_vecorized s1 baskets
  = _convert_answers offset_to_token_idx_vecorized s2 baskets.
Proof.
  unfold _convert_answers. apply for_each_ext. intros b.
  unfold convert_basket_answers.
  destruct (samples b); [|reflexivity]. now rewrite convert_samples_config.
Qed.

End Determinism.

(** The relation between the states of two runs of
    [_passages_to_paddle_features]: the same configuration and the same
    local variables. *)
#[local] Abbreviation same_state :=
  (fun st1 st2 : SquadProcessor * option Locals =>
     config_of (fst st1) = config_of (fst st2) /\ snd st1 = snd st2).

Lemma featurize_sample_agree (rb : bool)
    (st1 st2 : SquadProcessor * option Locals) (x : Sample) :
  same_state st1 st2 ->
  agree same_state (featurize_sample rb st1 x) (featurize_sample rb st2 x).
Proof.
  destruct st1 as [s1 lv], st2 as [s2 lv']. cbn [fst snd]. intros [H <-].
  destruct (same_fields s1 s2 H) as (Ht & Hm & _ & _ & Ha & Hs & Hmid & He).
  assert (forall l, padded_arrays s1 l = padded_arrays s2 l) as Harr.
  { intros l. unfold padded_arrays. now rewrite Ht, Hm, Hs, Hmid, He. }
  assert (label_check s1 rb x = label_check s2 rb x) as Hlc.
  { unfold label_check. now rewrite Ha. }
  unfold featurize_sample. unfold_bind. cbv beta iota zeta.
  destruct (match tokenized x with Some t => _ | None => Ok lv end)
    as [[l|]|e]; [|reflexivity..].
  rewrite Harr, Hlc, Hs, Hmid.
  destruct (label_check s2 rb x) as [c1|]; [|reflexivity].
  destruct (label_check2 rb x) as [c2|]; [|reflexivity].
  destruct (_ && _ && _ && _).
  - destruct (tokenized x); [|reflexivity].
    split; [reflexivity|]. split; [exact H | reflexivity].
  - split; [reflexivity|]. split; [exact H | reflexivity].
Qed.

Lemma featurize_basket_agree (rb : bool)
    (st1 st2 : SquadProcessor * option Locals) (b : SampleBasket) :
  same_state st1 st2 ->
  agree same_state (featurize_basket rb st1 b) (featurize_basket rb st2 b).
Proof.
  intros HR. unfold featurize_basket. unfold_bind.
  destruct (samples b) as [ss|]; [|reflexivity].
  pose proof (fold_result_agree same_state (featurize_sample rb)
                (featurize_sample_agree rb) ss st1 st2 HR) as H.
  unfold agree in H.
  destruct (fold_result _ st1 ss) as [[ss1 st1']|],
           (fold_result _ st2 ss) as [[ss2 st2']|];
    try contradiction; [|exact H].
  destruct H as [<- H]. split; [reflexivity | exact H].
Qed.

(** The baskets that [_passages_to_paddle_features] returns, and the
    exception that it raises, do not depend on [problematic_sample_ids]. *)
Lemma passages_to_features_agree (s1 s2 : SquadProcessor)
    (baskets : list SampleBasket) (rb : bool) :
  config_of s1 = config_of s2 ->
  agree (fun s1' s2' => config_of s1' = config_of s2')
    (_passages_to_paddle_features s1 baskets rb)
    (_passages_to_paddle_features s2 baskets rb).
Proof.
  intros H. unfold _passages_to_paddle_features. unfold_bind.
  pose proof (fold_result_agree same_state (featurize_basket rb)
                (featurize_basket_agree rb) baskets (s1, None) (s2, None)
                (conj H eq_refl)) as Hf.
  unfold agree in Hf.
  destruct (fold_result _ (s1, None) baskets) as [[bs1 [s1' lv1]]|],
           (fold_result _ (s2, None) baskets) as [[bs2 [s2' lv2]]|];
    try contradiction; [|exact Hf].
  destruct Hf as [<- [Hc _]]. split; [reflexivity | exact Hc].
Qed.

(** The stage changes no attribute but [problematic_sample_ids]. *)
Lemma passages_to_features_config (self self' : SquadProcessor)
    (baskets baskets' : list SampleBasket) (rb : bool) :
  _passages_to_paddle_features self baskets rb = Ok (baskets', self') ->
  config_of self' = config_of self.
Proof.
  unfold _passages_to_paddle_features. unfold_bind.
  destruct (fold_result _ _ _) as [[bs [s lv]]|] eqn:E; [|discriminate].
  intros [= <- <-].
  pose (I := fun st : SquadProcessor * option Locals =>
               config_of (fst st) = config_of self).
  refine (proj1 (fold_result_inv (featurize_basket rb) I (fun _ => True)
                   (fun _ => True) _ baskets (self, None) bs (s, lv)
                   eq_refl (fun _ _ => Logic.I) E)).
  intros st b b' st' HI _. unfold featurize_basket. unfold_bind.
  destruct (samples b) as [ss|]; [|discriminate].
  destruct (fold_result _ st ss) as [[ss1 st1]|] eqn:Es; [|discriminate].
  intros [= <- <-]. split; [|exact Logic.I].
  refine (proj1 (fold_result_inv (featurize_sample rb) I (fun _ => True)
                   (fun _ => True) _ ss st ss1 st1 HI
                   (fun _ _ => Logic.I) Es)).
  clear. intros [s0 lv0] x y [s0' lv0'] HI _. unfold I in *. cbn [fst] in *.
  unfold featurize_sample. unfold_bind. cbv beta iota zeta.
  destruct (match tokenized x with Some t => _ | None => Ok lv0 end)
    as [[l|]|]; [|discriminate..].
  destruct (label_check s0 rb x); [|discriminate].
  destruct (label_check2 rb x); [|discriminate].
  destruct (_ && _ && _ && _).
  - destruct (tokenized x); [|discriminate].
    intros [= <- <- <-]. split; [exact HI | exact Logic.I].
  - intros [= <- <- <-]. split; [exact HI | exact Logic.I].
Qed.

Section PipelineDeterminism.

Variable get_passage_offsets :
  list Z -> Z -> Z -> string -> result (list PassageSpan).
Variable offset_to_token_idx_vecorized : list Z -> Z -> Z.
Variable tokenize_batch_question_answering :
  list (gmap string value) -> Tokenizer -> option (list Z) ->
  result (list SampleBasket).
Variable Dataset : Type.
Variable convert_features_to_dataset : list FeatureRow -> Dataset * list string.

#[local] Abbreviation run :=
  (dataset_from_dicts get_passage_offsets offset_to_token_idx_vecorized
     tokenize_batch_question_answering Dataset convert_features_to_dataset).

(** What [dataset_from_dicts] returns, but for the set of problematic
    ids, and what it raises, depend on the configuration of the processor
    only. *)
Lemma dataset_from_dicts_config (s1 s2 : SquadProcessor)
    (dicts : list (gmap string value)) (indices : option (list Z))
    (rb : bool) :
  config_of s1 = config_of s2 ->
  match run s1 dicts indices rb, run s2 dicts indices rb with
  | Ok (o1, s1'), Ok (o2, s2') =>
      out_dataset o1 = out_dataset o2
      /\ out_tensor_names o1 = out_tensor_names o2
      /\ out_baskets o1 = out_baskets o2
      /\ config_of s1' = config_of s2'
  | Raise e1, Raise e2 => e1 = e2
  | _, _ => False
  end.
Proof.
  intros H. unfold dataset_from_dicts.
  rewrite (for_each_ext _ _ dicts (convert_qa_input_dict_config s1 s2 H)).
  destruct (same_fields s1 s2 H) as (Ht & _). rewrite Ht. unfold_bind.
  destruct (for_each (convert_qa_input_dict s2) dicts) as [pre|];
    [|reflexivity].
  destruct (tokenize_batch_question_answering pre (tokenizer s2) indices)
    as [bs|]; [|reflexivity].
  cbv zeta. rewrite (split_docs_config get_passage_offsets s1 s2 H).
  rewrite (convert_answers_config offset_to_token_idx_vecorized s1 s2 H).
  destruct (if rb then _ else _) as [bs1|]; [|reflexivity].
  pose proof (passages_to_features_agree s1 s2 bs1 rb H) as Hf.
  unfold agree in Hf.
  destruct (_passages_to_paddle_features s1 bs1 rb) as [[bs2 s1']|],
           (_passages_to_paddle_features s2 bs1 rb) as [[bs2' s2']|];
    try contradiction; [|exact Hf].
  destruct Hf as [<- Hc].
  destruct (_create_dataset _ _ _ _) as [[[ds names] refs]|]; [|reflexivity].
  simpl. repeat split. exact Hc.
Qed.

Lemma dataset_from_dicts_keeps_config (self self' : SquadProcessor)
    (dicts : list (gmap string value)) (indices : option (list Z))
    (rb : bool) (out : Output Dataset) :
  run self dicts indices rb = Ok (out, self') ->
  config_of self' = config_of self.
Proof.
  unfold dataset_from_dicts. unfold_bind.
  destruct (for_each _ dicts) as [pre|]; [|discriminate].
  destruct (tokenize_batch_question_answering _ _ _) as [bs|]; [|discriminate].
  cbv zeta.
  destruct (if rb then _ else _) as [bs1|]; [|discriminate].
  destruct (_passages_to_paddle_features self bs1 rb) as [[bs2 s]|] eqn:E;
    [|discriminate].
  destruct (_create_dataset _ _ _ _) as [[[ds names] refs]|]; [|discriminate].
  intros [= _ <-]. eapply passages_to_features_config, E.
Qed.

(** C9.  With the same tokenizer, offset utilities and dataset
    constructor, a second run of [dataset_from_dicts] on the same
    dictionaries, with the same indices and on the processor as the first
    run left it, returns the same dataset (the same feature rows), the same
    tensor names and the same baskets. *)
Theorem dataset_from_dicts_deterministic (self self1 : SquadProcessor)
    (dicts : list (gmap string value)) (indices : option (list Z))
    (return_baskets : bool) (out1 : Output Dataset) :
  run self dicts indices return_baskets = Ok (out1, self1) ->
  exists out2 self2,
    run self1 dicts indices return_baskets = Ok (out2, self2)
    /\ out_dataset out2 = out_dataset out1
    /\ out_tensor_names out2 = out_tensor_names out1
    /\ out_baskets out2 = out_baskets out1.
Proof.
  intros Hrun.
  pose proof (dataset_from_dicts_keeps_config _ _ _ _ _ _ Hrun) as Hc.
  pose proof (dataset_from_dicts_config self1 self dicts indices
                return_baskets Hc) as H.
  rewrite Hrun in H.
  destruct (run self1 dicts indices return_baskets) as [[out2 self2]|];
    [|contradiction].
  destruct H as (Hd & Hn & Hb & _). exists out2, self2. now repeat split.
Qed.

End PipelineDeterminism.

(** C9 on two documents, of which the second leaves a problematic sample
    behind: the second run starts from another set of problematic ids and
    returns the same rows. *)
Lemma dataset_from_dicts_twice_demo :
  exists out1 self1 out2 self2,
    dataset_from_dicts Demo.get_passage_offsets Demo.offset_to_token_idx
      Demo.tokenize_batch_question_answering _
      Demo.convert_features_to_dataset Demo.qa_processor
      [Demo.qa_doc; Demo.bad_doc] None false = Ok (out1, self1)
    /\ problematic_sample_ids self1 <> problematic_sample_ids Demo.qa_processor
    /\ dataset_from_dicts Demo.get_passage_offsets Demo.offset_to_token_idx
         Demo.tokenize_batch_question_answering _
         Demo.convert_features_to_dataset self1
         [Demo.qa_doc; Demo.bad_doc] None false = Ok (out2, self2)
    /\ out_dataset out2 = out_dataset out1
    /\ out_tensor_names out2 = out_tensor_names out1
    /\ out_baskets out2 = out_baskets out1.
Proof.
  destruct (dataset_from_dicts Demo.get_passage_offsets
              Demo.offset_to_token_idx Demo.tokenize_batch_question_answering
              _ Demo.convert_features_to_dataset Demo.qa_processor
              [Demo.qa_doc; Demo.bad_doc] None false)
    as [[out1 self1]|] eqn:E; [|vm_compute in E; discriminate].
  destruct (dataset_from_dicts_deterministic _ _ _ _ _ _ _ _ _ _ _ E)
    as (out2 & self2 & H2 & Hrows).
  exists out1, self1, out2, self2.
  split; [reflexivity|]. split; [|split; [exact H2 | exact Hrows]].
  vm_compute in E. injection E as _ <-. vm_compute. discriminate.
Defined.

End SquadFacts.

(* ===================================================================== *)
(** * Facts about the retrieval pipeline *)
(* ===================================================================== *)

Module TextSimilarityFacts.
Import Py TextSimilarity PyFacts.

(** ** Queries *)

(** C10.  [_normalize_question] returns for every string that is not
    empty: the string without its last character when that is ['?'], the
    string itself otherwise.  On the empty string it raises [IndexError]. *)
Theorem normalize_question_total_on_nonempty (question : string) :
  (question = ""%string /\ _normalize_question question = Raise IndexError)
  \/ (exists s c,
        question = (s ++ String c "")%string
        /\ _normalize_question question
           = Ok (if Ascii.eqb c "?" then s else question)).
Proof.
  destruct (string_snoc_cases question) as [-> | (s & c & ->)].
  - left. split; reflexivity.
  - right. exists s, c. split; [reflexivity|].
    unfold _normalize_question, mbind, result_bind, bind.
    rewrite str_last_snoc.
    destruct (Ascii.eqb c "?"); [|reflexivity].
    now rewrite str_drop_last_snoc.
Qed.

(** The two questions of the specification. *)
Lemma normalize_question_examples :
  _normalize_question "What time is it?" = Ok "What time is it"%string
  /\ _normalize_question "Hello" = Ok "Hello"%string
  /\ _normalize_question "" = Raise IndexError.
Proof. repeat split. Qed.

(** A query whose tokenization gives no token makes the body of the loop
    leave the function. *)
Lemma convert_query_zero_tokens (self : TextSimilarityProcessor)
    (basket : SampleBasket) (q query tokens : value)
    (query_inputs : gmap string value) :
  raw basket !! "query" = Some q ->
  tokenize_query self q = Ok (query, query_inputs, tokens, 0) ->
  convert_query self basket = ReturnNone.
Proof. intros Hq Ht. unfold convert_query. now rewrite Hq, Ht. Qed.

(** C7, what the code does: a basket whose query tokenizes to zero tokens
    makes [_convert_queries] return [None] in place of the list of
    baskets, and that basket and all the baskets after it in the list are
    left as they were: none of them is converted. *)
Theorem convert_queries_zero_tokens_aborts_call
    (self : TextSimilarityProcessor) (before after : list SampleBasket)
    (basket : SampleBasket) (q query tokens : value)
    (query_inputs : gmap string value) :
  raw basket !! "query" = Some q ->
  tokenize_query self q = Ok (query, query_inputs, tokens, 0) ->
  _convert_queries self (before ++ basket :: after) = None
  /\ drop (length before)
       (baskets_after_convert_queries self (before ++ basket :: after))
     = basket :: after.
Proof.
  intros Hq Ht.
  pose proof (convert_query_zero_tokens self basket q query tokens
                query_inputs Hq Ht) as Hb.
  unfold _convert_queries, baskets_after_convert_queries.
  induction before as [|b before IH]; simpl.
  - rewrite Hb. split; reflexivity.
  - destruct (convert_query self b) as [sample|].
    + destruct (convert_queries_loop self (before ++ basket :: after))
        as [rest returned].
      simpl in *. destruct IH as [Hret Hdrop].
      split; [|exact Hdrop]. now destruct returned.
    + split; [reflexivity|]. simpl. apply drop_app_length.
Qed.

(** C7 on three baskets: the query of the second one is a lone question
    mark, which leaves no token. *)
Lemma convert_queries_zero_tokens_demo :
  _convert_queries (Demo.retrieval_processor 1 2)
    ([Demo.query_basket 0 "hello" []]
     ++ Demo.query_basket 1 "?" [] :: [Demo.query_basket 2 "world" []])
  = None
  /\ drop (length [Demo.query_basket 0 "hello" []])
       (baskets_after_convert_queries (Demo.retrieval_processor 1 2)
          ([Demo.query_basket 0 "hello" []]
           ++ Demo.query_basket 1 "?" [] :: [Demo.query_basket 2 "world" []]))
     = Demo.query_basket 1 "?" [] :: [Demo.query_basket 2 "world" []].
Proof.
  apply (convert_queries_zero_tokens_aborts_call
           (Demo.retrieval_processor 1 2) [Demo.query_basket 0 "hello" []]
           [Demo.query_basket 2 "world" []] (Demo.query_basket 1 "?" [])
           (VStr "?") (VStr "")
           (VList [])
           (<["token_type_ids" := VList []]> (<["input_ids" := VList []]> ∅))).
  - reflexivity.
  - vm_compute. reflexivity.
Defined.

(** The sibling path of C7: a query that makes the tokenization raise
    (here the empty query, on which [_normalize_question] raises) costs
    its own basket its features, and the baskets after it are converted. *)
Lemma convert_queries_exception_is_local :
  exists b0 b1 s0 s1,
    _convert_queries (Demo.retrieval_processor 1 2)
      [Demo.query_basket 0 "" []; Demo.query_basket 1 "world" []]
    = Some [b0; b1]
    /\ samples b0 = Some [s0] /\ features s0 = None
    /\ samples b1 = Some [s1] /\ features s1 <> None.
Proof.
  do 4 eexists. split; [vm_compute; reflexivity|].
  repeat split. discriminate.
Qed.

(** ** Contexts *)

(** The tokenizer of the passages sees the first entry of [all_ctx] and no
    other. *)
Lemma tokenize_contexts_first_only (self : TextSimilarityProcessor)
    (c : value) (rest rest' : list value) :
  tokenize_contexts self (c :: rest) = tokenize_contexts self (c :: rest').
Proof. reflexivity. Qed.

(** C5, what the code does on three positive and five hard negative
    passages with [num_positives = 1] and [num_hard_negatives = 2]: the
    list [all_ctx] has the three entries positive, hard negative, hard
    negative, in this order; the tokenizer is called on its first entry
    alone, so that [passage_input_ids] holds the two sequences that the
    tokenizer makes of the title and the text of the positive passage, and
    nothing for the hard negative ones. *)
Theorem convert_contexts_tokenizes_first_entry_only :
  all_ctx (Demo.retrieval_processor 1 2)
    [Demo.passage "t1" "p1" "positive"]
    [Demo.passage "u1" "n1" "hard_negative";
     Demo.passage "u2" "n2" "hard_negative"]
  = Ok [VTuple [VStr "t1"; VStr "p1"]; VTuple [VStr "u1"; VStr "n1"];
        VTuple [VStr "u2"; VStr "n2"]]
  /\ (forall self c rest rest',
        tokenize_contexts self (c :: rest) = tokenize_contexts self (c :: rest'))
  /\ exists basket',
      _convert_contexts unit Demo.no_shuffle (Demo.retrieval_processor 1 2) tt
        (baskets_after_convert_queries (Demo.retrieval_processor 1 2)
           [Demo.retrieval_basket])
      = (Ok [basket'], tt)
      /\ Demo.passage_input_ids_of basket'
         = Some (VList [VList [VInt 116; VInt 49]; VList [VInt 112; VInt 49]]).
Proof.
  split; [vm_compute; reflexivity|].
  split; [intros; reflexivity|].
  eexists. split; vm_compute; reflexivity.
Qed.

End TextSimilarityFacts.

(* ===================================================================== *)
(** * More on the stages of the question-answering pipeline *)
(* ===================================================================== *)

Module SquadStageFacts.
Import Py Squad PyFacts SquadFacts.

#[local] Set Warnings "-clear-no-such-hyp".

(** ** Loops *)

Lemma for_each_Forall2 {A B} (f : A -> result B) (l : list A) (l' : list B) :
  for_each f l = Ok l' -> Forall2 (fun x y => f x = Ok y) l l'.
Proof.
  revert l'. induction l as [|x l IH]; simpl; intros l'.
  - intros [= <-]. constructor.
  - unfold_bind. destruct (f x) as [y|] eqn:Ex; [|discriminate].
    destruct (for_each f l) as [ys|]; [|discriminate].
    intros [= <-]. constructor; [exact Ex | now apply IH].
Qed.

Lemma for_each_raises {A B} (f : A -> result B) (l : list A) (x : A) :
  In x l -> (forall y, f x <> Ok y) -> forall l', for_each f l <> Ok l'.
Proof.
  intros Hin Hx l' H. apply for_each_Forall2 in H.
  apply list_elem_of_In, list_elem_of_lookup in Hin as [i Hi].
  destruct (Forall2_lookup_l _ _ _ i x H Hi) as (y & _ & Hy).
  now apply (Hx y).
Qed.

(** A loop with [fold_result] relates inputs and outputs pairwise, under an
    invariant of the state. *)
Lemma fold_result_Forall2 {S A B} (body : S -> A -> result (B * S))
    (I : S -> Prop) (Q : A -> B -> Prop) :
  (forall st x y st', I st -> body st x = Ok (y, st') -> I st' /\ Q x y) ->
  forall l st ys st',
    I st -> fold_result body st l = Ok (ys, st') ->
    I st' /\ Forall2 Q l ys.
Proof.
  intros Hbody. induction l as [|x l IH]; simpl; intros st ys st' HI.
  - intros [= <- <-]. split; [exact HI | constructor].
  - unfold_bind. destruct (body st x) as [[y st1]|] eqn:Ex; [|discriminate].
    destruct (fold_result body st1 l) as [[ys1 st2]|] eqn:El; [|discriminate].
    intros [= <- <-].
    destruct (Hbody st x y st1 HI Ex) as [HI1 HQ].
    destruct (IH st1 ys1 st2 HI1 El) as [HI2 HQs].
    split; [exact HI2 | now constructor].
Qed.

(** ** The feature stage, sample by sample *)

(** The feature row that the stage builds from the local variables [l] of
    a sample with the tokenized form [t]. *)
#[local] Abbreviation row_of self l t :=
  {| input_ids := a_input_ids (padded_arrays self l);
     padding_mask := a_padding_mask (padded_arrays self l);
     segment_ids := a_segment_ids (padded_arrays self l);
     row_passage_start_t := lv_passage_start_t l;
     start_of_word := a_start_of_word (padded_arrays self l);
     row_labels := default [] (labels t);
     row_id := lv_sample_id l;
     seq_2_start_t := sp_toks_start self + lv_question_len_t l + sp_toks_mid self;
     span_mask := a_span_mask (padded_arrays self l) |}.

(** What the checks of the labels mean when they pass. *)
Lemma label_checks_pass (self : SquadProcessor) (s : Sample) (t : Tokenized)
    (c1 c2 : bool) :
  tokenized s = Some t ->
  label_check self false s = Ok c1 -> label_check2 false s = Ok c2 ->
  c1 && c2 = true ->
  exists L, labels t = Some L /\ len L = max_answers self
            /\ forall row, In row L -> fst row > -99 /\ snd row > -99.
Proof.
  intros Ht. unfold label_check, label_check2. rewrite Ht.
  destruct (labels t) as [L|]; [|discriminate]. simpl.
  intros [= <-] [= <-] [H1 H2]%andb_true_iff.
  exists L. split; [reflexivity|]. split; [now apply Z.eqb_eq|].
  intros row Hrow. rewrite forallb_forall in H2. specialize (H2 row Hrow).
  apply andb_true_iff in H2. lia.
Qed.

(** One round of the loop over the samples: the sample keeps its id and
    its tokenized form; either it gets no features and its id joins the
    problematic ones, or it gets one row, built from its own tokenized
    form, that passed the checks. *)
Lemma featurize_sample_post (rb : bool) (self self' : SquadProcessor)
    (lv lv' : option Locals) (s s' : Sample) :
  featurize_sample rb (self, lv) s = Ok (s', (self', lv')) ->
  sample_id s' = sample_id s /\ tokenized s' = tokenized s
  /\ clear_text s' = clear_text s /\ config_of self' = config_of self
  /\ ((features s' = None
       /\ problematic_sample_ids self'
          = {[ sample_id s ]} ∪ problematic_sample_ids self)
      \/ (exists t l,
            tokenized s = Some t /\ bind_locals s t = Ok l /\ self' = self
            /\ features s' = Some [row_of self l t]
            /\ len_check (padded_arrays self l) = true
            /\ len (lv_sample_id l) = 3
            /\ (rb = false ->
                exists L, labels t = Some L /\ len L = max_answers self
                  /\ forall row, In row L -> fst row > -99 /\ snd row > -99))).
Proof.
  intros H. unfold featurize_sample in H. unfold_bind.
  cbv beta iota zeta in H.
  destruct (tokenized s) as [t|] eqn:Et.
  - destruct (bind_locals s t) as [l|] eqn:Eb; [|discriminate].
    destruct (label_check self rb s) as [c1|] eqn:E1; [|discriminate].
    destruct (label_check2 rb s) as [c2|] eqn:E2; [|discriminate].
    destruct (len_check (padded_arrays self l)
              && (len (lv_sample_id l) =? 3) && c1 && c2) eqn:Echecks.
    + injection H as <- <- <-. cbn [set_features sample_id tokenized
                                      clear_text features].
      repeat (split; [first [reflexivity | exact Et]|]).
      right. exists t, l.
      rewrite !andb_true_iff in Echecks.
      destruct Echecks as [[[Hlen Hid] Hc1] Hc2].
      repeat (split; [first [reflexivity | assumption | now apply Z.eqb_eq]|]).
      intros ->. eapply label_checks_pass; eauto. now rewrite Hc1, Hc2.
    + injection H as <- <- <-. cbn [set_features sample_id tokenized
                                      clear_text features].
      repeat (split; [first [reflexivity | exact Et]|]).
      left. split; reflexivity.
  - destruct lv as [l|]; [|discriminate].
    destruct (label_check self rb s) as [c1|] eqn:E1; [|discriminate].
    destruct (label_check2 rb s) as [c2|] eqn:E2; [|discriminate].
    destruct (len_check (padded_arrays self l)
              && (len (lv_sample_id l) =? 3) && c1 && c2).
    + discriminate.
    + injection H as <- <- <-. cbn [set_features sample_id tokenized
                                      clear_text features].
      repeat (split; [first [reflexivity | exact Et]|]).
      left. split; reflexivity.
Qed.

Lemma padded_arrays_config (s1 s2 : SquadProcessor) (l : Locals) :
  config_of s1 = config_of s2 -> padded_arrays s1 l = padded_arrays s2 l.
Proof.
  intros H.
  destruct (same_fields s1 s2 H) as (Ht & Hm & _ & _ & _ & Hs & Hmid & He).
  unfold padded_arrays. now rewrite Ht, Hm, Hs, Hmid, He.
Qed.

(** What the stage does to one sample, in terms of the processor [self]
    that entered the stage. *)
#[local] Abbreviation sample_post self rb :=
  (fun s s' : Sample =>
     sample_id s' = sample_id s /\ tokenized s' = tokenized s
     /\ clear_text s' = clear_text s
     /\ (features s' = None
         \/ exists t l,
             tokenized s = Some t /\ bind_locals s t = Ok l
             /\ features s' = Some [row_of self l t]
             /\ len_check (padded_arrays self l) = true
             /\ len (lv_sample_id l) = 3
             /\ (rb = false ->
                 exists L, labels t = Some L /\ len L = max_answers self
                   /\ forall row, In row L -> fst row > -99 /\ snd row > -99))).

#[local] Abbreviation basket_post self rb :=
  (fun b b' : SampleBasket =>
     id_internal b' = id_internal b /\ id_external b' = id_external b
     /\ raw b' = raw b
     /\ exists ss ss',
         samples b = Some ss /\ samples b' = Some ss'
         /\ Forall2 (sample_post self rb) ss ss').

Lemma passages_post (self self' : SquadProcessor)
    (baskets baskets' : list SampleBasket) (rb : bool) :
  _passages_to_paddle_features self baskets rb = Ok (baskets', self') ->
  Forall2 (basket_post self rb) baskets baskets'.
Proof.
  unfold _passages_to_paddle_features. unfold_bind.
  destruct (fold_result _ _ _) as [[bs [s1 lv1]]|] eqn:Efold; [|discriminate].
  intros [= <- <-].
  pose (I := fun st : SquadProcessor * option Locals =>
               config_of (fst st) = config_of self).
  refine (proj2 (fold_result_Forall2 (featurize_basket rb) I
                   (basket_post self rb) _ baskets (self, None) bs (s1, lv1)
                   eq_refl Efold)).
  clear. intros st b b' st' HI. unfold featurize_basket. unfold_bind.
  destruct (samples b) as [ss|] eqn:Ess; [|discriminate].
  destruct (fold_result _ st ss) as [[ss1 st1]|] eqn:Es; [|discriminate].
  intros [= <- <-].
  destruct (fold_result_Forall2 (featurize_sample rb) I (sample_post self rb))
    with (l := ss) (st := st) (ys := ss1) (st' := st1) as [HI1 HQ];
    [|exact HI|exact Es|].
  - clear. intros [s0 lv0] x y [s0' lv0'] HI0 Hx. unfold I in *. cbn [fst] in *.
    apply featurize_sample_post in Hx
      as (Hid & Htok & Hct & Hcfg & [[Hf _] | (t & l & Ht & Hl & -> & Hf & Hrest)]).
    + split; [congruence|]. repeat (split; [assumption|]). now left.
    + split; [exact HI0|]. repeat (split; [assumption|]). right.
      exists t, l. rewrite <- (padded_arrays_config s0 self l HI0).
      destruct (same_fields s0 self HI0) as (_ & _ & _ & _ & Ha & Hs & Hm & _).
      rewrite <- Ha, <- Hs, <- Hm. repeat (split; [assumption|]).
      exact Hrest.
  - split; [exact HI1|]. cbn [set_samples id_internal id_external raw samples].
    repeat (split; [reflexivity|]). exists ss, ss1. now repeat split.
Qed.

(** ** The problematic ids *)

#[local] Abbreviation failed_of_samples :=
  (flat_map (fun sample : Sample =>
               match features sample with
               | None => [sample_id sample]
               | Some _ => []
               end)).

Lemma featurize_samples_problematic (rb : bool) (ss : list Sample) :
  forall st ss' st',
    fold_result (featurize_sample rb) st ss = Ok (ss', st') ->
    problematic_sample_ids (fst st')
    = list_to_set (failed_of_samples ss') ∪ problematic_sample_ids (fst st).
Proof.
  induction ss as [|x ss IH]; simpl; intros st ss' st'.
  - intros [= <- <-]. simpl. set_solver.
  - unfold_bind.
    destruct (featurize_sample rb st x) as [[y st1]|] eqn:Ex; [|discriminate].
    destruct (fold_result _ st1 ss) as [[ys st2]|] eqn:Es; [|discriminate].
    intros [= <- <-]. apply IH in Es. rewrite Es. clear Es IH.
    destruct st as [s0 lv0], st1 as [s1 lv1]. cbn [fst].
    apply featurize_sample_post in Ex
      as (Hid & _ & _ & _ & [[Hf Hp] | (t & l & _ & _ & -> & Hf & _)]).
    + simpl. rewrite Hf, Hp, Hid. set_solver.
    + simpl. rewrite Hf. set_solver.
Qed.

Lemma featurize_baskets_problematic (rb : bool) (baskets : list SampleBasket) :
  forall st baskets' st',
    fold_result (featurize_basket rb) st baskets = Ok (baskets', st') ->
    problematic_sample_ids (fst st')
    = list_to_set (failed_sample_ids baskets') ∪ problematic_sample_ids (fst st).
Proof.
  induction baskets as [|b bs IH]; simpl; intros st baskets' st'.
  - intros [= <- <-]. simpl. set_solver.
  - unfold_bind.
    destruct (featurize_basket rb st b) as [[b' st1]|] eqn:Eb; [|discriminate].
    destruct (fold_result _ st1 bs) as [[bs' st2]|] eqn:Es; [|discriminate].
    intros [= <- <-]. apply IH in Es. rewrite Es. clear Es IH.
    unfold featurize_basket in Eb. unfold_bind.
    destruct (samples b) as [ss|]; [|discriminate].
    destruct (fold_result _ st ss) as [[ss1 st3]|] eqn:Ess; [|discriminate].
    injection Eb as <- <-. apply featurize_samples_problematic in Ess.
    rewrite Ess. unfold failed_sample_ids. simpl.
    rewrite list_to_set_app_L. set_solver.
Qed.

(** After [_passages_to_paddle_features] the problematic ids of the
    processor are those it had before and the ids of the samples that came
    out of the stage with [features = None], and no other. *)
Theorem passages_problematic_ids (self self' : SquadProcessor)
    (baskets baskets' : list SampleBasket) (return_baskets : bool) :
  _passages_to_paddle_features self baskets return_baskets
  = Ok (baskets', self') ->
  problematic_sample_ids self'
  = list_to_set (failed_sample_ids baskets') ∪ problematic_sample_ids self.
Proof.
  unfold _passages_to_paddle_features. unfold_bind.
  destruct (fold_result _ _ _) as [[bs [s1 lv1]]|] eqn:Efold; [|discriminate].
  intros [= <- <-]. now apply featurize_baskets_problematic in Efold.
Qed.

Lemma passages_problematic_ids_demo :
  exists baskets' self',
    _passages_to_paddle_features Demo.span_processor Demo.bx_labelled false
    = Ok (baskets', self')
    /\ failed_sample_ids baskets' = ["0-0-0"%string]
    /\ problematic_sample_ids self'
       = list_to_set (failed_sample_ids baskets')
         ∪ problematic_sample_ids Demo.span_processor.
Proof.
  destruct (_passages_to_paddle_features Demo.span_processor Demo.bx_labelled
              false) as [[baskets' self']|] eqn:E;
    [|vm_compute in E; discriminate].
  exists baskets', self'. split; [reflexivity|].
  split; [|exact (passages_problematic_ids _ _ _ _ _ E)].
  vm_compute in E. injection E as <- _. reflexivity.
Defined.

(** [_passages_to_paddle_features] keeps the baskets and their samples in
    number and order, with their ids, raw input, tokenized form and clear
    text; it changes the features alone, which become [None] or a list of
    exactly one row. *)
Theorem passages_change_features_only (self self' : SquadProcessor)
    (baskets baskets' : list SampleBasket) (return_baskets : bool) :
  _passages_to_paddle_features self baskets return_baskets
  = Ok (baskets', self') ->
  Forall2
    (fun b b' =>
       id_internal b' = id_internal b /\ id_external b' = id_external b
       /\ raw b' = raw b
       /\ exists ss ss',
           samples b = Some ss /\ samples b' = Some ss'
           /\ Forall2
                (fun s s' =>
                   sample_id s' = sample_id s /\ tokenized s' = tokenized s
                   /\ clear_text s' = clear_text s
                   /\ (features s' = None
                       \/ exists row, features s' = Some [row]))
                ss ss')
    baskets baskets'.
Proof.
  intros H. apply passages_post in H.
  eapply Forall2_impl; [exact H|]. clear.
  intros b b' (Hi & He & Hr & ss & ss' & Hs & Hs' & Hss).
  repeat (split; [assumption|]). exists ss, ss'. repeat (split; [assumption|]).
  eapply Forall2_impl; [exact Hss|]. clear.
  intros s s' (Hi & Ht & Hc & [Hf | (t & l & _ & _ & Hf & _)]).
  - repeat (split; [assumption|]). now left.
  - repeat (split; [assumption|]). right. eauto.
Qed.

Lemma passages_change_features_only_demo :
  exists baskets' self',
    _passages_to_paddle_features Demo.span_processor Demo.bx_labelled false
    = Ok (baskets', self')
    /\ Forall2
         (fun b b' =>
            id_internal b' = id_internal b /\ id_external b' = id_external b
            /\ raw b' = raw b
            /\ exists ss ss',
                samples b = Some ss /\ samples b' = Some ss'
                /\ Forall2
                     (fun s s' =>
                        sample_id s' = sample_id s
                        /\ tokenized s' = tokenized s
                        /\ clear_text s' = clear_text s
                        /\ (features s' = None
                            \/ exists row, features s' = Some [row]))
                     ss ss')
         Demo.bx_labelled baskets'.
Proof.
  destruct (_passages_to_paddle_features Demo.span_processor Demo.bx_labelled
              false) as [[baskets' self']|] eqn:E;
    [|vm_compute in E; discriminate].
  exists baskets', self'. split; [reflexivity|].
  exact (passages_change_features_only _ _ _ _ _ E).
Defined.

Lemma bind_locals_spec (s : Sample) (t : Tokenized) (l : Locals) :
  bind_locals s t = Ok l ->
  for_each py_int (str_split "-" (sample_id s)) = Ok (lv_sample_id l)
  /\ lv_question_len_t l = len (tk_question_tokens t)
  /\ lv_passage_len_t l = len (passage_tokens t)
  /\ lv_passage_start_t l = passage_start_t t
  /\ lv_question_input_ids l = tk_question_tokens t
  /\ lv_passage_input_ids l = passage_tokens t
  /\ lv_question_start_of_word l = tk_question_start_of_word t
  /\ lv_passage_start_of_word l = passage_start_of_word t.
Proof.
  unfold bind_locals. unfold_bind.
  destruct (for_each py_int _) as [ids|]; [|discriminate].
  intros [= <-]. repeat split.
Qed.

(** Membership in the output of a stage that relates input and output
    pairwise. *)
Lemma Forall2_In_r {A B} (R : A -> B -> Prop) (l : list A) (l' : list B)
    (y : B) :
  Forall2 R l l' -> In y l' -> exists x, In x l /\ R x y.
Proof.
  intros H Hy. apply list_elem_of_In, list_elem_of_lookup in Hy as [i Hi].
  destruct (Forall2_lookup_r _ _ _ i y H Hi) as (x & Hx & HR).
  exists x. split; [|exact HR].
  apply list_elem_of_In, list_elem_of_lookup. eauto.
Qed.

(** A sample leaves [_passages_to_paddle_features] with features only if
    it passed the checks of the stage: its id splits at ["-"] into three
    integers, which are the id of the row; the row carries the start of
    the passage and the position where the passage begins in the joined
    sequence; and, unless the baskets are made for inference, its labels
    have [max_answers] rows and no entry at or below [-99]. *)
Theorem rows_passed_validation (self self' : SquadProcessor)
    (baskets baskets' : list SampleBasket) (return_baskets : bool)
    (basket : SampleBasket) (ss : list Sample) (sample : Sample)
    (rows : list FeatureRow) :
  _passages_to_paddle_features self baskets return_baskets
  = Ok (baskets', self') ->
  In basket baskets' -> samples basket = Some ss -> In sample ss ->
  features sample = Some rows ->
  exists row t,
    rows = [row] /\ tokenized sample = Some t
    /\ for_each py_int (str_split "-" (sample_id sample)) = Ok (row_id row)
    /\ len (row_id row) = 3
    /\ row_passage_start_t row = passage_start_t t
    /\ seq_2_start_t row
       = sp_toks_start self + len (tk_question_tokens t) + sp_toks_mid self
    /\ (return_baskets = false ->
        labels t = Some (row_labels row)
        /\ len (row_labels row) = max_answers self
        /\ forall r, In r (row_labels row) -> fst r > -99 /\ snd r > -99).
Proof.
  intros H Hb Hss Hs Hf. apply passages_post in H.
  destruct (Forall2_In_r _ _ _ _ H Hb)
    as (b0 & _ & _ & _ & _ & ss0 & ss' & _ & Hss' & Hsamples).
  rewrite Hss in Hss'. injection Hss' as <-.
  destruct (Forall2_In_r _ _ _ _ Hsamples Hs)
    as (s0 & _ & Hid & Htok & _ & [Hnone | (t & l & Ht & Hl & Hrow & _ & Hid3 & Hlab)]).
  { congruence. }
  rewrite Hf in Hrow. injection Hrow as ->.
  apply bind_locals_spec in Hl as (Hids & Hq & _ & Hp & _).
  eexists _, t. split; [reflexivity|]. cbn.
  split; [congruence|]. split; [now rewrite Hid|].
  split; [exact Hid3|]. split; [exact Hp|]. split; [now rewrite Hq|].
  intros Hrb. destruct (Hlab Hrb) as (L & HL & Hlen & Hall).
  rewrite HL. cbn. repeat split; try assumption; now apply Hall.
Qed.

Lemma rows_passed_validation_demo :
  exists baskets' self' basket ss s0 s1 rows,
    _passages_to_paddle_features Demo.span_processor Demo.bx_labelled false
    = Ok (baskets', self')
    /\ In basket baskets' /\ samples basket = Some ss
    /\ ss !! 1%nat = Some s1 /\ features s1 = Some rows
    /\ ss !! 0%nat = Some s0 /\ features s0 = None
    /\ exists row t,
        rows = [row] /\ tokenized s1 = Some t
        /\ for_each py_int (str_split "-" (sample_id s1)) = Ok (row_id row)
        /\ len (row_id row) = 3
        /\ row_passage_start_t row = passage_start_t t
        /\ seq_2_start_t row = 1 + len (tk_question_tokens t) + 1
        /\ (false = false ->
            labels t = Some (row_labels row)
            /\ len (row_labels row) = 3
            /\ forall r, In r (row_labels row) -> fst r > -99 /\ snd r > -99).
Proof.
  destruct (_passages_to_paddle_features Demo.span_processor Demo.bx_labelled
              false) as [[baskets' self']|] eqn:E;
    [|vm_compute in E; discriminate].
  pose proof E as E'. vm_compute in E'. injection E' as <- <-.
  do 7 eexists.
  split; [reflexivity|].
  split; [left; reflexivity|].
  split; [reflexivity|].
  split; [reflexivity|].
  split; [reflexivity|].
  split; [reflexivity|].
  split; [reflexivity|].
  refine (rows_passed_validation Demo.span_processor _ Demo.bx_labelled _
            false _ _ _ _ E (or_introl eq_refl) eq_refl
            (or_intror (or_introl eq_refl)) eq_refl).
Defined.

(** ** The windowing stage *)

Lemma first_window_contract (offsets : list Z) (stride budget : Z)
    (doc : string) (spans : list PassageSpan) (span : PassageSpan) :
  Demo.first_window offsets stride budget doc = Ok spans ->
  In span spans ->
  0 <= span_passage_start_t span <= span_passage_end_t span
  /\ span_passage_end_t span - span_passage_start_t span <= budget.
Proof.
  unfold Demo.first_window. destruct (Z.ltb_spec budget 0); [discriminate|].
  intros [= <-] [<- | []]. simpl. pose proof (len_nonneg offsets). lia.
Qed.

(** The windowing on a document of four words and a budget of
    two tokens. *)
Lemma split_docs_passages_fit_demo :
  exists basket ss sample t,
    In basket (_split_docs_into_passages Demo.first_window
                 Demo.span_processor [Demo.fresh_basket "aa bb cc dd"])
    /\ samples basket = Some ss /\ In sample ss
    /\ tokenized sample = Some t
    /\ len (passage_tokens t) = 2
    /\ len (passage_tokens t)
       <= max_seq_len Demo.span_processor - len (tk_question_tokens t)
          - num_special_tokens_to_add (tokenizer Demo.span_processor) true.
Proof.
  do 4 eexists.
  split; [left; reflexivity|]. split; [reflexivity|].
  split; [left; reflexivity|]. split; [reflexivity|].
  split; [reflexivity|].
  refine (split_docs_passages_fit Demo.first_window Demo.span_processor
            [Demo.fresh_basket "aa bb cc dd"] first_window_contract
            _ _ _ _ (or_introl eq_refl) _ eq_refl (or_introl eq_refl) eq_refl).
  discriminate.
Defined.

(** The two ways in which [_split_docs_into_passages] gives a basket no
    passage.  A basket with an empty document is skipped: it stays as it
    was, its [samples] included.  A basket for which
    [get_passage_offsets] raises gets the empty list of samples, and is
    therefore not complete for [_create_dataset]. *)
Theorem split_docs_without_passages
    (get_passage_offsets :
       list Z -> Z -> Z -> string -> result (list PassageSpan))
    (self : SquadProcessor) (baskets : list SampleBasket) (i : nat)
    (basket : SampleBasket) :
  baskets !! i = Some basket ->
  length (_split_docs_into_passages get_passage_offsets self baskets)
  = length baskets
  /\ (document_text (raw basket) = ""%string ->
      _split_docs_into_passages get_passage_offsets self baskets !! i
      = Some basket)
  /\ (document_text (raw basket) <> ""%string ->
      forall e,
        get_passage_offsets (document_offsets (raw basket)) (doc_stride self)
          (passage_budget self basket) (document_text (raw basket))
        = Raise e ->
        exists basket',
          _split_docs_into_passages get_passage_offsets self baskets !! i
          = Some basket'
          /\ samples basket' = Some [] /\ raw basket' = raw basket
          /\ id_internal basket' = id_internal basket
          /\ _check_sample_features basket' = false).
Proof.
  intros Hi. unfold _split_docs_into_passages.
  split; [apply length_map|].
  assert (map (split_basket get_passage_offsets self) baskets !! i
          = Some (split_basket get_passage_offsets self basket)) as ->.
  { change (map ?f ?l) with (f <$> l). now rewrite list_lookup_fmap, Hi. }
  unfold split_basket. split.
  - intros ->. reflexivity.
  - intros Hne e He.
    destruct (String.eqb_spec (document_text (raw basket)) "");
      [contradiction|].
    rewrite He. eexists. split; [reflexivity|]. repeat split.
Qed.

Lemma split_docs_without_passages_demo :
  length (_split_docs_into_passages Demo.get_passage_offsets
            Demo.span_processor
            [Demo.fresh_basket ""; Demo.fresh_basket "   "]) = 2%nat
  /\ _split_docs_into_passages Demo.get_passage_offsets Demo.span_processor
       [Demo.fresh_basket ""; Demo.fresh_basket "   "] !! 0%nat
     = Some (Demo.fresh_basket "")
  /\ exists basket',
      _split_docs_into_passages Demo.get_passage_offsets Demo.span_processor
        [Demo.fresh_basket ""; Demo.fresh_basket "   "] !! 1%nat
      = Some basket'
      /\ samples basket' = Some [] /\ raw basket' = raw (Demo.fresh_basket "   ")
      /\ id_internal basket' = id_internal (Demo.fresh_basket "   ")
      /\ _check_sample_features basket' = false.
Proof.
  destruct (split_docs_without_passages Demo.get_passage_offsets
              Demo.span_processor
              [Demo.fresh_basket ""; Demo.fresh_basket "   "] 0
              (Demo.fresh_basket "") eq_refl) as (Hlen & Hempty & _).
  destruct (split_docs_without_passages Demo.get_passage_offsets
              Demo.span_processor
              [Demo.fresh_basket ""; Demo.fresh_basket "   "] 1
              (Demo.fresh_basket "   ") eq_refl) as (_ & _ & Hfail).
  split; [exact Hlen|]. split; [exact (Hempty eq_refl)|].
  apply (Hfail ltac:(discriminate) ValueError). reflexivity.
Defined.

(** ** Baskets without samples *)

Lemma Forall2_In_l {A B} (R : A -> B -> Prop) (l : list A) (l' : list B)
    (x : A) :
  Forall2 R l l' -> In x l -> exists y, In y l' /\ R x y.
Proof.
  intros H Hx. apply list_elem_of_In, list_elem_of_lookup in Hx as [i Hi].
  destruct (Forall2_lookup_l _ _ _ i x H Hi) as (y & Hy & HR).
  exists y. split; [|exact HR].
  apply list_elem_of_In, list_elem_of_lookup. eauto.
Qed.

Lemma unset_samples_stop_answers
    (offset_to_token_idx_vecorized : list Z -> Z -> Z)
    (self : SquadProcessor) (baskets : list SampleBasket)
    (basket : SampleBasket) :
  In basket baskets -> samples basket = None ->
  forall out,
    _convert_answers offset_to_token_idx_vecorized self baskets <> Ok out.
Proof.
  intros Hin Hnone. unfold _convert_answers.
  apply (for_each_raises _ _ basket Hin).
  intros y. unfold convert_basket_answers. now rewrite Hnone.
Qed.

Lemma unset_samples_stop_features (self : SquadProcessor)
    (baskets : list SampleBasket) (basket : SampleBasket) (rb : bool) :
  In basket baskets -> samples basket = None ->
  forall out, _passages_to_paddle_features self baskets rb <> Ok out.
Proof.
  intros Hin Hnone [baskets' self'] H. apply passages_post in H.
  destruct (Forall2_In_l _ _ _ _ H Hin)
    as (b' & _ & _ & _ & _ & ss & ss' & Hss & _).
  congruence.
Qed.

(** A basket whose [samples] were never set stops both stages after the
    windowing: neither [_convert_answers] nor
    [_passages_to_paddle_features] returns on a list that holds one. *)
Theorem unset_samples_stop_the_stages
    (offset_to_token_idx_vecorized : list Z -> Z -> Z)
    (self : SquadProcessor) (baskets : list SampleBasket)
    (basket : SampleBasket) :
  In basket baskets -> samples basket = None ->
  (forall out,
      _convert_answers offset_to_token_idx_vecorized self baskets <> Ok out)
  /\ (forall return_baskets out,
        _passages_to_paddle_features self baskets return_baskets <> Ok out).
Proof.
  intros Hin Hnone. split.
  - now apply (unset_samples_stop_answers _ _ _ basket).
  - intros rb. now apply (unset_samples_stop_features _ _ basket).
Qed.

Lemma unset_samples_stop_the_stages_demo :
  _convert_answers Demo.offset_to_token_idx Demo.span_processor
    [Demo.fresh_basket ""] = Raise TypeError
  /\ _passages_to_paddle_features Demo.span_processor [Demo.fresh_basket ""]
       true = Raise TypeError
  /\ (forall out,
        _convert_answers Demo.offset_to_token_idx Demo.span_processor
          [Demo.fresh_basket ""] <> Ok out)
  /\ (forall return_baskets out,
        _passages_to_paddle_features Demo.span_processor
          [Demo.fresh_basket ""] return_baskets <> Ok out).
Proof.
  split; [reflexivity|]. split; [reflexivity|].
  exact (unset_samples_stop_the_stages Demo.offset_to_token_idx
           Demo.span_processor [Demo.fresh_basket ""] (Demo.fresh_basket "")
           (or_introl eq_refl) eq_refl).
Defined.

Section EmptyDocument.

Variable get_passage_offsets :
  list Z -> Z -> Z -> string -> result (list PassageSpan).
Variable offset_to_token_idx_vecorized : list Z -> Z -> Z.
Variable tokenize_batch_question_answering :
  list (gmap string value) -> Tokenizer -> option (list Z) ->
  result (list SampleBasket).
Variable Dataset : Type.
Variable convert_features_to_dataset : list FeatureRow -> Dataset * list string.

(** A document with an empty text is not dropped by [dataset_from_dicts]:
    when the tokenization returns a basket with an empty document text
    and no samples, the windowing stage skips it, the stage after it finds
    no samples to iterate over, and the call raises. *)
Theorem empty_document_fails_dataset_from_dicts (self : SquadProcessor)
    (dicts pre_baskets : list (gmap string value)) (indices : option (list Z))
    (return_baskets : bool) (baskets : list SampleBasket)
    (basket : SampleBasket) :
  for_each (convert_qa_input_dict self) dicts = Ok pre_baskets ->
  tokenize_batch_question_answering pre_baskets (tokenizer self) indices
  = Ok baskets ->
  In basket baskets ->
  document_text (raw basket) = ""%string -> samples basket = None ->
  forall out,
    dataset_from_dicts get_passage_offsets offset_to_token_idx_vecorized
      tokenize_batch_question_answering Dataset convert_features_to_dataset
      self dicts indices return_baskets <> Ok out.
Proof.
  intros Hpre Htok Hin Hdoc Hnone out.
  unfold dataset_from_dicts. rewrite Hpre. unfold_bind. rewrite Htok.
  cbv zeta.
  assert (In basket (_split_docs_into_passages get_passage_offsets self
                       baskets)) as Hin'.
  { unfold _split_docs_into_passages. apply in_map_iff. exists basket.
    split; [|exact Hin]. unfold split_basket. now rewrite Hdoc. }
  destruct return_baskets.
  - destruct (_passages_to_paddle_features self _ true)
      as [[bs s']|] eqn:E; [|discriminate].
    now apply (unset_samples_stop_features _ _ basket true Hin' Hnone) in E.
  - destruct (_convert_answers _ self _) as [bs|] eqn:E; [|discriminate].
    now apply (unset_samples_stop_answers _ _ _ basket Hin' Hnone) in E.
Qed.

End EmptyDocument.

Lemma empty_document_fails_demo :
  dataset_from_dicts Demo.get_passage_offsets Demo.offset_to_token_idx
    Demo.tokenize_batch_question_answering _ Demo.convert_features_to_dataset
    Demo.qa_processor [Demo.qa_doc; Demo.empty_doc] None false
  = Raise TypeError
  /\ forall out,
      dataset_from_dicts Demo.get_passage_offsets Demo.offset_to_token_idx
        Demo.tokenize_batch_question_answering _
        Demo.convert_features_to_dataset Demo.qa_processor
        [Demo.qa_doc; Demo.empty_doc] None false <> Ok out.
Proof.
  split; [vm_compute; reflexivity|].
  pose (bs := match Demo.tokenize_batch_question_answering
                      [Demo.qa_doc; Demo.empty_doc] Demo.bert_like None with
              | Ok baskets => baskets
              | Raise _ => []
              end).
  refine (empty_document_fails_dataset_from_dicts _ _ _ _ _
            Demo.qa_processor _ [Demo.qa_doc; Demo.empty_doc] None false bs
            (nth 1 bs inhabitant) _ _ _ _ _).
  - vm_compute. reflexivity.
  - vm_compute. reflexivity.
  - vm_compute. right. left. reflexivity.
  - vm_compute. reflexivity.
  - vm_compute. reflexivity.
Defined.

(** ** The answer stage *)

Section AnswerStage.

Variable offset_to_token_idx_vecorized : list Z -> Z -> Z.
Variable self : SquadProcessor.

Lemma set_row_ok (L : list (Z * Z)) (i : nat) (v w : Z) :
  (i < length L)%nat -> exists L', set_row L i v w = Ok L'.
Proof.
  intros Hi. unfold set_row, set_cell. unfold_bind.
  destruct (lookup_lt_is_Some_2 L i Hi) as [[s e] ->].
  rewrite list_lookup_insert_eq by exact Hi. eauto.
Qed.

Lemma set_row_out_of_range (L : list (Z * Z)) (i : nat) (v w : Z) :
  (length L <= i)%nat -> set_row L i v w = Raise IndexError.
Proof.
  intros Hi. unfold set_row, set_cell. unfold_bind.
  now rewrite (lookup_ge_None_2 L i Hi).
Qed.

(** The label matrix of a sample has one row for every answer slot. *)
Lemma sample_labels_length (r : BasketRaw) (err err' : bool) (s : Sample)
    (L : list (Z * Z)) :
  sample_labels offset_to_token_idx_vecorized self r err s = Ok (L, err') ->
  len L = max_answers self.
Proof.
  unfold sample_labels, np_full_labels. unfold_bind.
  destruct (Z.ltb_spec (max_answers self) 0); [discriminate|].
  assert (forall L' : list (Z * Z),
             length L'
             = length (replicate (Z.to_nat (max_answers self)) (-1, -1)) ->
             len L' = max_answers self) as Hlen.
  { intros L' HL. unfold len. rewrite HL, length_replicate. lia. }
  destruct (err || (len (answers r) =? 0)).
  - destruct (set_row _ 0 0 0) as [L1|] eqn:E; [|discriminate].
    intros [= <- _]. apply set_row_spec in E as [E _]. now apply Hlen.
  - destruct (tokenized s) as [t|]; [|discriminate].
    destruct (convert_answers_loop _ _ _ _ _ _ _) as [[L1 b]|] eqn:E;
      [|discriminate].
    intros [= <- _].
    apply convert_answers_loop_spec in E as [E _]. now apply Hlen.
Qed.

#[local] Abbreviation labelled :=
  (fun s s' : Sample =>
     sample_id s' = sample_id s /\ clear_text s' = clear_text s
     /\ features s' = features s
     /\ exists t L,
         tokenized s = Some t /\ tokenized s' = Some (set_labels t L)
         /\ len L = max_answers self).

Lemma convert_samples_post (r : BasketRaw) (ss : list Sample) :
  forall err ss',
    convert_samples offset_to_token_idx_vecorized self r err ss = Ok ss' ->
    Forall2 labelled ss ss'.
Proof.
  induction ss as [|s ss IH]; simpl; intros err ss'.
  - intros [= <-]. constructor.
  - unfold_bind.
    destruct (sample_labels _ self r err s) as [[L e]|] eqn:EL; [|discriminate].
    destruct (tokenized s) as [t|] eqn:Et; [|discriminate].
    destruct (convert_samples _ self r e ss) as [rest|] eqn:Er; [|discriminate].
    intros [= <-]. constructor; [|now apply (IH e)].
    repeat (split; [reflexivity|]). exists t, L.
    split; [exact Et|]. split; [reflexivity|].
    now apply sample_labels_length in EL.
Qed.

(** [_convert_answers] keeps the baskets and their samples in number and
    order, with their ids, raw input, clear text and features; in the
    tokenized form of every sample it sets the labels and changes nothing
    else, and the labels have exactly [max_answers] rows. *)
Theorem convert_answers_adds_labels (baskets baskets' : list SampleBasket) :
  _convert_answers offset_to_token_idx_vecorized self baskets = Ok baskets' ->
  Forall2
    (fun b b' =>
       id_internal b' = id_internal b /\ id_external b' = id_external b
       /\ raw b' = raw b
       /\ exists ss ss',
           samples b = Some ss /\ samples b' = Some ss'
           /\ Forall2
                (fun s s' =>
                   sample_id s' = sample_id s /\ clear_text s' = clear_text s
                   /\ features s' = features s
                   /\ exists t L,
                       tokenized s = Some t
                       /\ tokenized s' = Some (set_labels t L)
                       /\ len L = max_answers self)
                ss ss')
    baskets baskets'.
Proof.
  intros H. apply for_each_Forall2 in H.
  eapply Forall2_impl; [exact H|]. clear.
  intros b b'. unfold convert_basket_answers. unfold_bind.
  destruct (samples b) as [ss|]; [|discriminate].
  destruct (convert_samples _ self (raw b) false ss) as [ss'|] eqn:E;
    [|discriminate].
  intros [= <-]. repeat (split; [reflexivity|]). exists ss, ss'.
  repeat split. now apply convert_samples_post in E.
Qed.

(** The label matrix of a passage without answer: when the basket has no
    answers, or an earlier sample of the basket failed the answer check,
    the first row is [(0, 0)] and the other rows stay at [(-1, -1)].  With
    [max_answers = 0] there is no first row and the assignment raises
    [IndexError]; a negative [max_answers] makes [np.full] raise
    [ValueError]. *)
Theorem no_answer_labels (r : BasketRaw) (err : bool) (s : Sample) :
  err = true \/ answers r = [] ->
  sample_labels offset_to_token_idx_vecorized self r err s
  = if max_answers self <? 0 then Raise ValueError
    else if max_answers self =? 0 then Raise IndexError
    else Ok ((0, 0) :: replicate (Z.to_nat (max_answers self) - 1) (-1, -1),
             err).
Proof.
  intros H. unfold sample_labels, np_full_labels. unfold_bind.
  destruct (Z.ltb_spec (max_answers self) 0); [reflexivity|].
  assert (err || (len (answers r) =? 0) = true) as ->.
  { destruct H as [-> | ->]; [reflexivity | apply orb_true_r]. }
  destruct (Z.eqb_spec (max_answers self) 0) as [-> | Hne].
  - reflexivity.
  - destruct (Z.to_nat (max_answers self)) as [|n] eqn:En; [lia|].
    simpl. now rewrite Nat.sub_0_r.
Qed.

(** More answers than answer slots: when a basket has more answers than
    [max_answers] and the answer check marks none of the first
    [max_answers] of them, the stage raises [IndexError] at the first
    answer without a slot. *)
Theorem too_many_answers_raise (r : BasketRaw) (s : Sample) (t : Tokenized) :
  tokenized s = Some t ->
  0 <= max_answers self < len (answers r) ->
  (forall j a, Z.of_nat j < max_answers self -> answers r !! j = Some a ->
     ~ (0 <= answer_start_t_rel offset_to_token_idx_vecorized r t a
        /\ answer_end_t_rel offset_to_token_idx_vecorized r t a
           < len (passage_tokens t)
        /\ answer_mismatch r a)) ->
  sample_labels offset_to_token_idx_vecorized self r false s
  = Raise IndexError.
Proof.
  intros Ht [Hm Hlen] Hclean.
  unfold sample_labels, np_full_labels. unfold_bind.
  destruct (Z.ltb_spec (max_answers self) 0); [lia|].
  assert ((len (answers r) =? 0) = false) as -> by (apply Z.eqb_neq; lia).
  rewrite Ht. simpl.
  assert (forall (ans : list Answer) (k : nat) (L : list (Z * Z)),
             (k <= length L)%nat -> (length L < k + length ans)%nat ->
             (forall j a, (k + j < length L)%nat -> ans !! j = Some a ->
                ~ (0 <= answer_start_t_rel offset_to_token_idx_vecorized r t a
                   /\ answer_end_t_rel offset_to_token_idx_vecorized r t a
                      < len (passage_tokens t)
                   /\ answer_mismatch r a)) ->
             convert_answers_loop offset_to_token_idx_vecorized self r t k
               ans L = Raise IndexError) as Hloop.
  { clear. induction ans as [|a ans IH]; intros k L Hk Hmore Hok.
    - simpl in Hmore. lia.
    - simpl. unfold_bind.
      destruct (Nat.eq_dec k (length L)) as [-> | Hne].
      + unfold convert_answer. unfold_bind. cbv zeta.
        destruct (_ && _); now rewrite set_row_out_of_range.
      + destruct (convert_answer _ self r t k a L) as [o|e] eqn:Eo.
        * apply convert_answer_spec in Eo
            as (L1 & Hlen1 & _ & [(Hfl & _) | (_ & -> & _)]).
          { exfalso. apply (Hok 0%nat a); [lia | reflexivity | exact Hfl]. }
          apply IH; [lia | simpl in Hmore; lia|].
          intros j b Hj Hb. apply (Hok (S j) b); [lia | exact Hb].
        * exfalso. unfold convert_answer in Eo. unfold_bind. cbv zeta in Eo.
          destruct (set_row_ok L k) with (v := 0) (w := 0) as [L0 E0]; [lia|].
          destruct (_ && _) in Eo.
          -- destruct (set_row_ok L k) with
               (v := sp_toks_start self + len (tk_question_tokens t)
                     + sp_toks_mid self
                     + answer_start_t_rel offset_to_token_idx_vecorized r t a)
               (w := sp_toks_start self + len (tk_question_tokens t)
                     + sp_toks_mid self
                     + answer_end_t_rel offset_to_token_idx_vecorized r t a)
               as [L1 E1]; [lia|].
             rewrite E1 in Eo.
             assert (length L1 = length L) as HL1
               by (now apply set_row_spec in E1).
             destruct (_ || _); [discriminate|].
             destruct (negb _);
               [destruct (set_row_ok L1 k) with (v := -100) (w := -100)
                  as [L2 E2]; [lia|]; rewrite E2 in Eo; discriminate|].
             destruct (negb _); [|discriminate].
             destruct (set_row_ok L1 k) with (v := -100) (w := -100)
               as [L2 E2]; [lia|]. rewrite E2 in Eo. discriminate.
          -- rewrite E0 in Eo.
             assert (length L0 = length L) as HL0
               by (now apply set_row_spec in E0).
             destruct (_ || _); [discriminate|].
             destruct (negb _);
               [destruct (set_row_ok L0 k) with (v := -100) (w := -100)
                  as [L2 E2]; [lia|]; rewrite E2 in Eo; discriminate|].
             destruct (negb _); [|discriminate].
             destruct (set_row_ok L0 k) with (v := -100) (w := -100)
               as [L2 E2]; [lia|]. rewrite E2 in Eo. discriminate. }
  rewrite Hloop; [reflexivity | lia | |].
  - rewrite length_replicate. unfold len in Hlen. lia.
  - intros j a Hj Ha. rewrite length_replicate in Hj.
    apply (Hclean j a); [lia | exact Ha].
Qed.

End AnswerStage.

Lemma convert_answers_adds_labels_demo :
  exists baskets',
    _convert_answers Demo.offset_to_token_idx Demo.span_processor
      [Demo.span_basket [Demo.answer_bx; Demo.answer_aa]] = Ok baskets'
    /\ Forall2
         (fun b b' =>
            id_internal b' = id_internal b /\ id_external b' = id_external b
            /\ raw b' = raw b
            /\ exists ss ss',
                samples b = Some ss /\ samples b' = Some ss'
                /\ Forall2
                     (fun s s' =>
                        sample_id s' = sample_id s
                        /\ clear_text s' = clear_text s
                        /\ features s' = features s
                        /\ exists t L,
                            tokenized s = Some t
                            /\ tokenized s' = Some (set_labels t L)
                            /\ len L = max_answers Demo.span_processor)
                     ss ss')
         [Demo.span_basket [Demo.answer_bx; Demo.answer_aa]] baskets'.
Proof.
  destruct (_convert_answers Demo.offset_to_token_idx Demo.span_processor
              [Demo.span_basket [Demo.answer_bx; Demo.answer_aa]])
    as [baskets'|] eqn:E; [|vm_compute in E; discriminate].
  exists baskets'. split; [reflexivity|].
  exact (convert_answers_adds_labels _ _ _ _ E).
Defined.

Lemma no_answer_labels_demo :
  sample_labels Demo.offset_to_token_idx Demo.span_processor
    (Demo.span_raw []) false (Demo.window 0 0 0 "aa bb " ["aa"; "bb"])
  = Ok ([(0, 0); (-1, -1); (-1, -1)], false).
Proof.
  exact (no_answer_labels Demo.offset_to_token_idx Demo.span_processor
           (Demo.span_raw []) false (Demo.window 0 0 0 "aa bb " ["aa"; "bb"])
           (or_intror eq_refl)).
Defined.

(** Four answers that lie outside of the third window, for three answer
    slots. *)
Lemma too_many_answers_raise_demo :
  sample_labels Demo.offset_to_token_idx Demo.span_processor
    (Demo.span_raw [Demo.answer_aa; Demo.answer_aa; Demo.answer_aa;
                    Demo.answer_aa])
    false (Demo.window 2 2 6 "cc dd" ["cc"; "dd"])
  = Raise IndexError.
Proof.
  apply (too_many_answers_raise Demo.offset_to_token_idx Demo.span_processor
           (Demo.span_raw [Demo.answer_aa; Demo.answer_aa; Demo.answer_aa;
                           Demo.answer_aa])
           (Demo.window 2 2 6 "cc dd" ["cc"; "dd"])
           (Demo.window_tokenized 2 6 ["cc"; "dd"]) eq_refl).
  - vm_compute. split; [discriminate | reflexivity].
  - intros j a Hj Ha (Hs & _).
    assert (a = Demo.answer_aa) as ->.
    { change (max_answers Demo.span_processor) with 3 in Hj.
      destruct j as [|[|[|j]]]; [| | |lia];
        cbv in Ha; injection Ha as <-; reflexivity. }
    vm_compute in Hs. now apply Hs.
Defined.

(** ** The constructor and the input stage *)

Lemma list_index_app {A} `{EqDecision A} (x : A) (l1 l2 : list A) :
  ~ In x l1 -> list_index x (l1 ++ x :: l2) = Ok (len l1).
Proof.
  induction l1 as [|y l1 IH]; simpl; intros H.
  - destruct (decide (x = x)); [reflexivity | congruence].
  - destruct (decide (y = x)) as [->|_]; [tauto|].
    rewrite IH by tauto. unfold bind, len. simpl length. f_equal. lia.
Qed.

Lemma list_index_absent {A} `{EqDecision A} (x : A) (l : list A) :
  ~ In x l -> list_index x l = Raise ValueError.
Proof.
  induction l as [|y l IH]; simpl; intros H; [reflexivity|].
  destruct (decide (y = x)) as [->|_]; [tauto|].
  now rewrite IH by tauto.
Qed.

Lemma list_index_present {A} `{EqDecision A} (x : A) (l : list A) :
  In x l -> exists i, list_index x l = Ok i.
Proof.
  induction l as [|y l IH]; simpl; intros H; [destruct H|].
  destruct (decide (y = x)) as [->|Hne]; [eauto|].
  destruct H as [H|H]; [congruence|].
  destruct (IH H) as [i ->]. simpl. eauto.
Qed.

(** The constructor up to the counts of the special tokens: it reads the
    layout of a pair off the tokenizer. *)
Lemma special_tokens_counted (tk : Tokenizer)
    (msl ds mql ma : Z) (pre mid post : list token) :
  ds < msl - mql ->
  build_inputs_with_special_tokens tk [TokStr "a"] [TokStr "b"]
  = pre ++ TokStr "a" :: mid ++ TokStr "b" :: post ->
  ~ In (TokStr "a") pre -> ~ In (TokStr "b") pre -> ~ In (TokStr "b") mid ->
  __init__ tk msl ds mql ma
  = Ok {| tokenizer := tk; max_seq_len := msl; doc_stride := ds;
          max_query_length := mql; max_answers := ma;
          sp_toks_start := len pre; sp_toks_mid := len mid;
          sp_toks_end := len post; problematic_sample_ids := ∅ |}.
Proof.
  intros Hs Hvec Ha Hb Hm. unfold __init__.
  rewrite assert_doc_stride_passes by exact Hs. unfold_bind.
  unfold _initialize_special_tokens_count. unfold_bind. cbv zeta.
  rewrite Hvec, list_index_app by exact Ha.
  replace (pre ++ TokStr "a" :: mid ++ TokStr "b" :: post)
    with ((pre ++ TokStr "a" :: mid) ++ TokStr "b" :: post)
    by (now rewrite <- app_assoc).
  rewrite list_index_app.
  - rewrite !len_app.
    replace (len (TokStr "a" :: mid)) with (len mid + 1)
      by (unfold len; simpl length; lia).
    replace (len (TokStr "b" :: post)) with (len post + 1)
      by (unfold len; simpl length; lia).
    do 2 f_equal; lia.
  - intros [H | [H | H]]%in_app_or; [tauto | discriminate | tauto].
Qed.

(** Up to the counts of the special tokens, the constructor raises
    [ValueError] exactly when the stride is admissible and the tokenizer
    drops one of the markers. *)
Lemma special_tokens_value_error (tk : Tokenizer) (msl ds mql ma : Z) :
  __init__ tk msl ds mql ma = Raise ValueError
  <-> ds < msl - mql
      /\ (~ In (TokStr "a")
              (build_inputs_with_special_tokens tk [TokStr "a"] [TokStr "b"])
          \/ ~ In (TokStr "b")
                 (build_inputs_with_special_tokens tk [TokStr "a"]
                    [TokStr "b"])).
Proof.
  unfold __init__, assert_doc_stride. unfold_bind.
  destruct (Z.ltb_spec ds (msl - mql)) as [Hs|Hs].
  - unfold _initialize_special_tokens_count. unfold_bind. cbv zeta.
    set (vec := build_inputs_with_special_tokens tk _ _).
    destruct (in_dec token_eq_dec (TokStr "a") vec) as [Ha|Ha].
    + destruct (list_index_present _ _ Ha) as [ia ->].
      destruct (in_dec token_eq_dec (TokStr "b") vec) as [Hb|Hb].
      * destruct (list_index_present _ _ Hb) as [ib ->].
        split; [discriminate | intros [_ [H|H]]; tauto].
      * rewrite (list_index_absent _ _ Hb). tauto.
    + rewrite (list_index_absent _ _ Ha). tauto.
  - split; [discriminate | intros [H _]; lia].
Qed.

(** [convert_qa_input_dict] is idempotent: what it returns is in the
    internal format, and converting it again returns it unchanged. *)
Theorem convert_qa_input_dict_idempotent (self : SquadProcessor)
    (d d' : gmap string value) :
  convert_qa_input_dict self d = Ok d' ->
  convert_qa_input_dict self d' = Ok d'.
Proof.
  unfold convert_qa_input_dict. unfold_bind.
  destruct (assert_doc_stride _ _ _) as [[]|]; [|discriminate].
  destruct (convert_qa_input_dict_body d) as [x|e] eqn:E;
    [|destruct e; discriminate].
  intros [= ->].
  assert (convert_qa_input_dict_body d' = Ok d') as ->; [|reflexivity].
  unfold convert_qa_input_dict_body in *. unfold_bind.
  destruct (dict_has d "context" && dict_has d "qas") eqn:Eh.
  - injection E as <-. now rewrite Eh.
  - destruct (dict_get d "questions") as [q|]; [|discriminate].
    destruct (dict_get d "text") as [t|]; [|discriminate].
    destruct (py_iter q) as [qs|]; [|discriminate].
    injection E as <-. reflexivity.
Qed.

(** [convert_qa_input_dict] reports a wrong format exactly when the stride
    is admissible, the dictionary does not hold both keys of the internal
    format, and one of the keys ["questions"] and ["text"] is missing. *)
Theorem convert_qa_input_dict_format_error (self : SquadProcessor)
    (d : gmap string value) :
  convert_qa_input_dict self d = Raise InputFormatError
  <-> doc_stride self < max_seq_len self - max_query_length self
      /\ ~ (is_Some (d !! "context") /\ is_Some (d !! "qas"))
      /\ (d !! "questions" = None \/ d !! "text" = None).
Proof.
  unfold convert_qa_input_dict, assert_doc_stride. unfold_bind.
  destruct (Z.ltb_spec (doc_stride self)
              (max_seq_len self - max_query_length self)) as [Hs|Hs];
    [|split; [discriminate | intros [H _]; lia]].
  unfold convert_qa_input_dict_body, dict_has, dict_get. unfold_bind.
  destruct (bool_decide (is_Some (d !! "context"))
            && bool_decide (is_Some (d !! "qas"))) eqn:Eh.
  - apply andb_true_iff in Eh as [H1%bool_decide_eq_true H2%bool_decide_eq_true].
    split; [discriminate | intros (_ & H & _); tauto].
  - assert (~ (is_Some (d !! "context") /\ is_Some (d !! "qas"))) as Hn.
    { intros [H1 H2]. apply andb_false_iff in Eh as [E|E];
        apply bool_decide_eq_false in E; tauto. }
    destruct (d !! "questions") as [q|]; [|tauto].
    destruct (d !! "text") as [t|]; [|tauto].
    split; [|intros (_ & _ & [H|H]); discriminate].
    destruct q; simpl; discriminate.
Qed.

Lemma convert_qa_input_dict_idempotent_demo :
  exists d',
    convert_qa_input_dict (Demo.squad_processor 384 128 64 6) Demo.paris_api
    = Ok d'
    /\ convert_qa_input_dict (Demo.squad_processor 384 128 64 6) d' = Ok d'.
Proof.
  destruct (convert_qa_input_dict (Demo.squad_processor 384 128 64 6)
              Demo.paris_api) as [d'|] eqn:E; [|vm_compute in E; discriminate].
  exists d'. split; [reflexivity|].
  exact (convert_qa_input_dict_idempotent _ _ _ E).
Defined.

(** ** The pipeline *)

Lemma flat_map_map {A B C} (f : B -> list C) (g : A -> B) (l : list A) :
  flat_map f (map g l) = flat_map (fun x => f (g x)) l.
Proof. induction l as [|x l IH]; simpl; [reflexivity | now rewrite IH]. Qed.

Lemma for_each_first_error {A B} (f : A -> result B) (l1 l2 : list A)
    (x : A) (e : exn) :
  Forall (fun y => exists z, f y = Ok z) l1 -> f x = Raise e ->
  for_each f (l1 ++ x :: l2) = Raise e.
Proof.
  intros H Hx. induction H as [|y l1 [z Hz] _ IH]; simpl.
  - now rewrite Hx.
  - rewrite Hz, IH. reflexivity.
Qed.

Section PipelineFacts.

Variable get_passage_offsets :
  list Z -> Z -> Z -> string -> result (list PassageSpan).
Variable offset_to_token_idx_vecorized : list Z -> Z -> Z.
Variable tokenize_batch_question_answering :
  list (gmap string value) -> Tokenizer -> option (list Z) ->
  result (list SampleBasket).
Variable Dataset : Type.
Variable convert_features_to_dataset : list FeatureRow -> Dataset * list string.

#[local] Abbreviation run :=
  (dataset_from_dicts get_passage_offsets offset_to_token_idx_vecorized
     tokenize_batch_question_answering Dataset convert_features_to_dataset).

(** One dictionary that cannot be converted makes the whole call fail: the
    error of the first such dictionary leaves [dataset_from_dicts], and no
    dataset is built for the other dictionaries. *)
Theorem first_bad_dict_aborts_the_call (self : SquadProcessor)
    (dicts1 dicts2 : list (gmap string value)) (d : gmap string value)
    (e : exn) (indices : option (list Z)) (return_baskets : bool) :
  Forall (fun x => exists y, convert_qa_input_dict self x = Ok y) dicts1 ->
  convert_qa_input_dict self d = Raise e ->
  run self (dicts1 ++ d :: dicts2) indices return_baskets = Raise e.
Proof.
  intros H1 Hd. unfold dataset_from_dicts.
  now rewrite (for_each_first_error _ dicts1 dicts2 d e H1 Hd).
Qed.

Lemma dataset_from_dicts_problematic (self self' : SquadProcessor)
    (dicts : list (gmap string value)) (indices : option (list Z))
    (rb : bool) (out : Output Dataset) :
  run self dicts indices rb = Ok (out, self') ->
  problematic_sample_ids self ⊆ out_problematic_sample_ids out
  /\ problematic_sample_ids self' = out_problematic_sample_ids out.
Proof.
  unfold dataset_from_dicts. unfold_bind.
  destruct (for_each _ dicts) as [pre|]; [|discriminate].
  destruct (tokenize_batch_question_answering _ _ _) as [bs|]; [|discriminate].
  cbv zeta.
  destruct (if rb then _ else _) as [bs1|]; [|discriminate].
  destruct (_passages_to_paddle_features self bs1 rb) as [[bs2 s]|] eqn:E;
    [|discriminate].
  destruct (_create_dataset _ _ _ _) as [[[ds names] refs]|]; [|discriminate].
  intros [= <- <-]. cbn [out_problematic_sample_ids].
  split; [|reflexivity].
  unfold _passages_to_paddle_features in E. unfold_bind.
  destruct (fold_result _ _ _) as [[bs' [s1 lv1]]|] eqn:Efold; [|discriminate].
  injection E as <- <-.
  apply featurize_baskets_problematic in Efold. cbn [fst] in Efold.
  rewrite Efold. set_solver.
Qed.

(** The problematic ids are never reset: when the processor that one call
    of [dataset_from_dicts] leaves behind serves a second call, the ids
    that the first call reported are among those that the second
    reports. *)
Theorem problematic_ids_accumulate_over_calls
    (self self1 self2 : SquadProcessor)
    (dicts1 dicts2 : list (gmap string value))
    (indices1 indices2 : option (list Z)) (rb1 rb2 : bool)
    (out1 out2 : Output Dataset) :
  run self dicts1 indices1 rb1 = Ok (out1, self1) ->
  run self1 dicts2 indices2 rb2 = Ok (out2, self2) ->
  out_problematic_sample_ids out1 ⊆ out_problematic_sample_ids out2.
Proof.
  intros [_ H1]%dataset_from_dicts_problematic
         [H2 _]%dataset_from_dicts_problematic.
  now rewrite <- H1.
Qed.

Lemma lookup_total_seq (l : list SampleBasket) :
  map (fun i : nat => l !!! i) (seq 0 (length l)) = l.
Proof.
  apply list_eq. intros i. rewrite list_lookup_fmap.
  destruct (decide (i < length l)%nat) as [Hi|Hi].
  - rewrite lookup_seq_lt by exact Hi. simpl.
    now rewrite list_lookup_lookup_total_lt.
  - rewrite lookup_seq_ge by lia. simpl.
    symmetry. apply lookup_ge_None_2. lia.
Qed.

Lemma filter_map_comm {A B} (P : B -> bool) (g : A -> B) (l : list A) :
  map g (List.filter (fun x => P (g x)) l) = List.filter P (map g l).
Proof.
  induction l as [|x l IH]; simpl; [reflexivity|].
  destruct (P (g x)); simpl; now rewrite IH.
Qed.

(** What a successful call of [dataset_from_dicts] hands back: the baskets
    are returned exactly when [return_baskets] is set; they are complete,
    each with a list of samples that is not empty and every sample with
    exactly one feature row, whose id has three components; and the dataset
    is built from the concatenation of the [features] of the samples of
    these baskets, in order, and from nothing else. *)
Theorem dataset_from_dicts_output (self self' : SquadProcessor)
    (dicts : list (gmap string value)) (indices : option (list Z))
    (return_baskets : bool) (out : Output Dataset) :
  run self dicts indices return_baskets = Ok (out, self') ->
  exists baskets,
    out_baskets out = (if return_baskets then Some baskets else None)
    /\ convert_features_to_dataset
         (flat_map
            (fun basket =>
               flat_map (fun sample => default [] (features sample))
                 (default [] (samples basket)))
            baskets)
       = (out_dataset out, out_tensor_names out)
    /\ Forall
         (fun basket =>
            exists ss,
              samples basket = Some ss /\ ss <> []
              /\ forall sample, In sample ss ->
                   exists row,
                     features sample = Some [row] /\ len (row_id row) = 3)
         baskets.
Proof.
  unfold dataset_from_dicts. unfold_bind.
  destruct (for_each _ dicts) as [pre|]; [|discriminate].
  destruct (tokenize_batch_question_answering _ _ _) as [bs|]; [|discriminate].
  cbv zeta.
  destruct (if return_baskets then _ else _) as [bs1|]; [|discriminate].
  destruct (_passages_to_paddle_features self bs1 return_baskets)
    as [[bs2 s]|] eqn:E; [|discriminate].
  apply passages_post in E.
  unfold _create_dataset. rewrite scan_baskets_fold. cbn [app]. unfold_bind.
  pose proof (remove_baskets_filter (fun i : nat => bs2 !!! i) []
                (seq 0 (length bs2))) as Hr.
  cbn [app] in Hr. rewrite Hr by (intros ? []). clear Hr.
  destruct (convert_features_to_dataset _) as [ds names] eqn:Eds.
  intros [= <- _].
  cbn [out_baskets out_dataset out_tensor_names].
  rewrite (filter_map_comm _check_sample_features
             (fun i : nat => bs2 !!! i)), lookup_total_seq.
  rewrite <- (flat_map_map basket_rows (fun i : nat => bs2 !!! i)) in Eds.
  rewrite (filter_map_comm _check_sample_features
             (fun i : nat => bs2 !!! i)), lookup_total_seq in Eds.
  exists (List.filter _check_sample_features bs2).
  split; [reflexivity|]. split; [exact Eds|].
  apply List.Forall_forall. intros b [Hb Hc]%filter_In.
  apply check_sample_features_spec in Hc as (ss & Hss & Hne & Hall).
  exists ss. split; [exact Hss|]. split; [exact Hne|].
  intros sample Hs.
  destruct (Forall2_In_r _ _ _ _ E Hb)
    as (b0 & _ & _ & _ & _ & ss0 & ss' & _ & Hss' & Hsamples).
  rewrite Hss in Hss'. injection Hss' as <-.
  destruct (Forall2_In_r _ _ _ _ Hsamples Hs)
    as (s0 & _ & _ & _ & _ & [Hnone | (t & l & _ & _ & Hrow & _ & Hid3 & _)]).
  - now apply Hall in Hs.
  - eexists. split; [exact Hrow | exact Hid3].
Qed.

End PipelineFacts.

Lemma first_bad_dict_aborts_the_call_demo :
  dataset_from_dicts Demo.get_passage_offsets Demo.offset_to_token_idx
    Demo.tokenize_batch_question_answering _ Demo.convert_features_to_dataset
    Demo.qa_processor ([Demo.qa_doc] ++ ∅ :: [Demo.qa_doc]) None false
  = Raise InputFormatError.
Proof.
  apply (first_bad_dict_aborts_the_call Demo.get_passage_offsets
           Demo.offset_to_token_idx Demo.tokenize_batch_question_answering _
           Demo.convert_features_to_dataset Demo.qa_processor
           [Demo.qa_doc] [Demo.qa_doc] ∅ InputFormatError None false).
  - constructor; [|constructor]. exists Demo.qa_doc. reflexivity.
  - reflexivity.
Defined.

(** A call on a document whose answer fails the check, then a call on a
    sound document with the processor that the first call left. *)
Lemma problematic_ids_accumulate_demo :
  exists out1 self1 out2 self2,
    dataset_from_dicts Demo.get_passage_offsets Demo.offset_to_token_idx
      Demo.tokenize_batch_question_answering _
      Demo.convert_features_to_dataset Demo.qa_processor [Demo.bad_doc]
      None false = Ok (out1, self1)
    /\ dataset_from_dicts Demo.get_passage_offsets Demo.offset_to_token_idx
         Demo.tokenize_batch_question_answering _
         Demo.convert_features_to_dataset self1 [Demo.qa_doc]
         None false = Ok (out2, self2)
    /\ out_problematic_sample_ids out1 <> ∅
    /\ out_problematic_sample_ids out1 ⊆ out_problematic_sample_ids out2.
Proof.
  destruct (dataset_from_dicts Demo.get_passage_offsets
              Demo.offset_to_token_idx Demo.tokenize_batch_question_answering
              _ Demo.convert_features_to_dataset Demo.qa_processor
              [Demo.bad_doc] None false) as [[out1 self1]|] eqn:E1;
    [|vm_compute in E1; discriminate].
  destruct (dataset_from_dicts Demo.get_passage_offsets
              Demo.offset_to_token_idx Demo.tokenize_batch_question_answering
              _ Demo.convert_features_to_dataset self1
              [Demo.qa_doc] None false) as [[out2 self2]|] eqn:E2.
  - exists out1, self1, out2, self2.
    split; [reflexivity|]. split; [exact E2|]. split.
    + intros H. vm_compute in E1. injection E1 as <- _.
      vm_compute in H. discriminate H.
    + exact (problematic_ids_accumulate_over_calls _ _ _ _ _ _ _ _ _ _ _ _
               _ _ _ _ E1 E2).
  - vm_compute in E1. injection E1 as _ <-. vm_compute in E2. discriminate E2.
Defined.

Lemma dataset_from_dicts_output_demo :
  exists out self' baskets,
    dataset_from_dicts Demo.get_passage_offsets Demo.offset_to_token_idx
      Demo.tokenize_batch_question_answering _
      Demo.convert_features_to_dataset Demo.qa_processor
      [Demo.qa_doc; Demo.bad_doc] None true = Ok (out, self')
    /\ out_baskets out = Some baskets
    /\ Demo.convert_features_to_dataset
         (flat_map
            (fun basket =>
               flat_map (fun sample => default [] (features sample))
                 (default [] (samples basket)))
            baskets)
       = (out_dataset out, out_tensor_names out)
    /\ Forall
         (fun basket =>
            exists ss,
              samples basket = Some ss /\ ss <> []
              /\ forall sample, In sample ss ->
                   exists row,
                     features sample = Some [row] /\ len (row_id row) = 3)
         baskets.
Proof.
  destruct (dataset_from_dicts Demo.get_passage_offsets
              Demo.offset_to_token_idx Demo.tokenize_batch_question_answering
              _ Demo.convert_features_to_dataset Demo.qa_processor
              [Demo.qa_doc; Demo.bad_doc] None true) as [[out self']|] eqn:E;
    [|vm_compute in E; discriminate].
  destruct (dataset_from_dicts_output _ _ _ _ _ _ _ _ _ _ _ E)
    as (baskets & H1 & H2 & H3).
  exists out, self', baskets. split; [reflexivity|].
  split; [exact H1|]. split; [exact H2 | exact H3].
Defined.

End SquadStageFacts.

(* ===================================================================== *)
(** * The stages of the retrieval processor *)

Module TextSimilarityStageFacts.
Import Py TextSimilarity PyFacts.
#[local] Set Warnings "-clear-no-such-hyp".

Ltac unfold_bind := unfold mbind, result_bind, mret, result_ret, bind in *.

(** ** [_fill_baskets] *)

(** [_fill_baskets] pairs the dictionaries with internal ids.  Without
    indices, or with an empty list of them, every dictionary gets a basket
    and the id is its position.  With indices, the basket at a position
    pairs the dictionary and the index at that position, and the shorter
    of the two lists decides how many baskets there are: surplus
    dictionaries are dropped without an error.  No basket has samples. *)
Theorem fill_baskets_pairs_dicts_with_ids (dicts : list (gmap string value)) :
  (forall indices,
      indices = None \/ indices = Some [] ->
      length (_fill_baskets dicts indices) = length dicts
      /\ forall (i : nat) d,
          dicts !! i = Some d ->
          _fill_baskets dicts indices !! i
          = Some {| id_external := None; id_internal := Z.of_nat i;
                    raw := d; samples := None |})
  /\ (forall idx,
        idx <> [] ->
        length (_fill_baskets dicts (Some idx))
        = Nat.min (length dicts) (length idx)
        /\ forall (i : nat) d k,
            dicts !! i = Some d -> idx !! i = Some k ->
            _fill_baskets dicts (Some idx) !! i
            = Some {| id_external := None; id_internal := k;
                      raw := d; samples := None |}).
Proof.
  assert (forall idx : list Z,
             length (map (fun di : gmap string value * Z =>
                            {| id_external := None; id_internal := snd di;
                               raw := fst di; samples := None |})
                       (zip dicts idx))
             = Nat.min (length dicts) (length idx)
             /\ forall (i : nat) d k,
                 dicts !! i = Some d -> idx !! i = Some k ->
                 map (fun di : gmap string value * Z =>
                        {| id_external := None; id_internal := snd di;
                           raw := fst di; samples := None |})
                   (zip dicts idx) !! i
                 = Some {| id_external := None; id_internal := k;
                           raw := d; samples := None |}) as Hzip.
  { intros idx. split.
    - now rewrite length_map, length_zip_with.
    - intros i d k Hd Hk.
      rewrite list_lookup_fmap, lookup_zip_with, Hd, Hk. reflexivity. }
  split.
  - intros indices Hi.
    assert (_fill_baskets dicts indices
            = map (fun di : gmap string value * Z =>
                     {| id_external := None; id_internal := snd di;
                        raw := fst di; samples := None |})
                (zip dicts (map Z.of_nat (seq 0 (length dicts))))) as ->
      by (destruct Hi as [-> | ->]; reflexivity).
    destruct (Hzip (map Z.of_nat (seq 0 (length dicts)))) as [Hlen Hlk].
    split.
    + rewrite Hlen, length_map, length_seq. lia.
    + intros i d Hd. apply Hlk; [exact Hd|].
      rewrite list_lookup_fmap, lookup_seq_lt
        by (apply lookup_lt_is_Some; eauto).
      reflexivity.
  - intros idx Hne.
    assert (_fill_baskets dicts (Some idx)
            = map (fun di : gmap string value * Z =>
                     {| id_external := None; id_internal := snd di;
                        raw := fst di; samples := None |})
                (zip dicts idx)) as ->
      by (destruct idx; [congruence | reflexivity]).
    apply Hzip.
Qed.

(** ** [_convert_queries] *)

#[local] Abbreviation query_sample b :=
  (fun s : Sample =>
     sample_id s = ""%string
     /\ (features s = None \/ exists f, features s = Some [f])
     /\ (raw b !! "query" = None ->
         clear_text s = ∅ /\ tokenized s = ∅ /\ features s = Some [∅])).

Lemma convert_query_sample (self : TextSimilarityProcessor)
    (b : SampleBasket) (s : Sample) :
  convert_query self b = NewSample s -> query_sample b s.
Proof.
  unfold convert_query.
  destruct (raw b !! "query") as [q|].
  - destruct (tokenize_query self q) as [[[[query qi] tq] n]|e].
    + destruct (n =? 0); [discriminate|].
      destruct (dict_get qi "input_ids"), (dict_get qi "token_type_ids");
        intros [= <-]; cbn; split; try reflexivity; split; eauto;
        discriminate.
    + intros [= <-]. cbn. split; [reflexivity|]. split; [now left|discriminate].
  - intros [= <-]. cbn. split; [reflexivity|]. split; [eauto|]. now intros _.
Qed.

(** When [_convert_queries] returns the baskets, every basket has its ids
    and its raw input as before and exactly one sample, with the id [""],
    whatever samples it had; the features of this sample are [None] or one
    dictionary; and a basket without the key ["query"] gets the sample with
    empty clear text, empty tokenization and the one empty feature
    dictionary. *)
Theorem convert_queries_one_sample_each (self : TextSimilarityProcessor)
    (baskets baskets' : list SampleBasket) :
  _convert_queries self baskets = Some baskets' ->
  Forall2
    (fun b b' =>
       id_internal b' = id_internal b /\ id_external b' = id_external b
       /\ raw b' = raw b
       /\ exists s,
           samples b' = Some [s]
           /\ sample_id s = ""%string
           /\ (features s = None \/ exists f, features s = Some [f])
           /\ (raw b !! "query" = None ->
               clear_text s = ∅ /\ tokenized s = ∅
               /\ features s = Some [∅]))
    baskets baskets'.
Proof.
  unfold _convert_queries. revert baskets'.
  induction baskets as [|b bs IH]; simpl; intros baskets'.
  - intros [= <-]. constructor.
  - destruct (convert_query self b) as [s|] eqn:Es; [|discriminate].
    destruct (convert_queries_loop self bs) as [rest returned].
    destruct returned; [|discriminate].
    intros [= <-]. constructor; [|now apply IH].
    cbn. repeat (split; [reflexivity|]). exists s.
    split; [reflexivity|]. exact (convert_query_sample self b s Es).
Qed.

(** After [_convert_queries] every basket has a first sample. *)
Lemma convert_queries_set_samples (self : TextSimilarityProcessor)
    (baskets baskets' : list SampleBasket) :
  _convert_queries self baskets = Some baskets' ->
  Forall (fun b => exists s ss, samples b = Some (s :: ss)) baskets'.
Proof.
  unfold _convert_queries. revert baskets'.
  induction baskets as [|b bs IH]; simpl; intros baskets'.
  - intros [= <-]. constructor.
  - destruct (convert_query self b) as [s|]; [|discriminate].
    destruct (convert_queries_loop self bs) as [rest returned].
    destruct returned; [|discriminate].
    intros [= <-]. constructor; [cbn; eauto | now apply IH].
Qed.

Lemma convert_queries_one_sample_each_demo :
  exists baskets',
    _convert_queries (Demo.retrieval_processor 1 2)
      [Demo.query_basket 0 "" []; Demo.query_basket 1 "world" []]
    = Some baskets'
    /\ Forall2
         (fun b b' =>
            id_internal b' = id_internal b /\ id_external b' = id_external b
            /\ raw b' = raw b
            /\ exists s,
                samples b' = Some [s]
                /\ sample_id s = ""%string
                /\ (features s = None \/ exists f, features s = Some [f])
                /\ (raw b !! "query" = None ->
                    clear_text s = ∅ /\ tokenized s = ∅
                    /\ features s = Some [∅]))
         [Demo.query_basket 0 "" []; Demo.query_basket 1 "world" []] baskets'.
Proof.
  destruct (_convert_queries (Demo.retrieval_processor 1 2)
              [Demo.query_basket 0 "" []; Demo.query_basket 1 "world" []])
    as [baskets'|] eqn:E; [|vm_compute in E; discriminate].
  exists baskets'. split; [reflexivity|].
  exact (convert_queries_one_sample_each _ _ _ E).
Defined.

(** ** [_convert_contexts] *)

Section ContextFacts.

Variable rng : Type.
Variable shuffle : rng -> list value -> list value * rng.
Variable self : TextSimilarityProcessor.

#[local] Abbreviation context_post :=
  (fun b b' : SampleBasket =>
     id_internal b' = id_internal b /\ id_external b' = id_external b
     /\ raw b' = raw b
     /\ (raw b !! "passages" = None -> b' = b)
     /\ exists s s' ss,
         samples b = Some (s :: ss) /\ samples b' = Some (s' :: ss)
         /\ sample_id s' = sample_id s).

Lemma null_first_features_post (b : SampleBasket) (s : Sample)
    (ss : list Sample) :
  samples b = Some (s :: ss) ->
  null_first_features b = Ok (set_samples b (set_features s None :: ss)).
Proof. intros H. unfold null_first_features. now rewrite H. Qed.

Lemma convert_context_post (g : rng) (b : SampleBasket) (s : Sample)
    (ss : list Sample) :
  samples b = Some (s :: ss) ->
  exists b', fst (convert_context rng shuffle self g b) = Ok b'
             /\ context_post b b'.
Proof.
  intros Hs. unfold convert_context.
  destruct (raw b !! "passages") as [p|] eqn:Ep.
  - destruct (select_contexts rng shuffle self g p) as [selected g1].
    match goal with
    | |- context [match ?prep with Ok _ => _ | Raise _ => _ end] =>
        destruct prep as [[[ps ci] tp]|e]
    end.
    + unfold store_contexts. rewrite Hs.
      destruct (dict_get ci "input_ids") as [ids|];
        [destruct (features s) as [[|f0 fs]|];
         [| destruct (dict_get ci "token_type_ids") |] |];
        cbn [fst snd]; unfold null_first_features;
        cbn [set_samples samples];
        eexists; (split; [reflexivity|]);
        cbn [set_samples set_features id_internal id_external raw samples
             sample_id];
        repeat (split; [first [reflexivity | discriminate]|]);
        eexists s, _, ss; repeat split; exact Hs.
    + cbn [fst]. rewrite (null_first_features_post b s ss Hs).
      eexists. split; [reflexivity|].
      cbn [set_samples set_features id_internal id_external raw samples
           sample_id].
      repeat (split; [first [reflexivity | discriminate]|]).
      eexists s, _, ss. repeat split. exact Hs.
  - exists b. split; [reflexivity|]. repeat (split; [reflexivity|]).
    exists s, s, ss. repeat split; exact Hs.
Qed.

(** The [try] block of [_convert_contexts] keeps every failure inside its
    basket: when every basket has a first sample, as after
    [_convert_queries], the stage returns; every basket keeps its ids, its
    raw input and all the samples after the first one, the first sample
    keeps its id, and a basket without the key ["passages"] is returned as
    it was. *)
Theorem convert_contexts_isolates_failures (g : rng)
    (baskets : list SampleBasket) :
  Forall (fun b => exists s ss, samples b = Some (s :: ss)) baskets ->
  exists baskets',
    fst (_convert_contexts rng shuffle self g baskets) = Ok baskets'
    /\ Forall2
         (fun b b' =>
            id_internal b' = id_internal b /\ id_external b' = id_external b
            /\ raw b' = raw b
            /\ (raw b !! "passages" = None -> b' = b)
            /\ exists s s' ss,
                samples b = Some (s :: ss) /\ samples b' = Some (s' :: ss)
                /\ sample_id s' = sample_id s)
         baskets baskets'.
Proof.
  intros H. revert g.
  induction H as [|b bs (s & ss & Hs) _ IH]; intros g; simpl.
  - exists []. split; [reflexivity | constructor].
  - destruct (convert_context_post g b s ss Hs) as (b' & Hb & Hpost).
    destruct (convert_context rng shuffle self g b) as [r g1].
    cbn [fst] in Hb. subst r.
    destruct (IH g1) as (bs' & Hbs & Hposts).
    destruct (_convert_contexts rng shuffle self g1 bs) as [r g2].
    cbn [fst] in Hbs. subst r.
    exists (b' :: bs'). split; [reflexivity | now constructor].
Qed.

(** [_convert_contexts] returns on baskets that have a first sample. *)
Lemma convert_contexts_returns (baskets : list SampleBasket) :
  Forall (fun b => exists s ss, samples b = Some (s :: ss)) baskets ->
  forall g,
  exists baskets',
    fst (_convert_contexts rng shuffle self g baskets) = Ok baskets'.
Proof.
  induction 1 as [|b bs (s & ss & Hs) _ IH]; intros g; simpl.
  - exists []. reflexivity.
  - destruct (convert_context_post g b s ss Hs) as (b' & Hb & _).
    destruct (convert_context rng shuffle self g b) as [r g1].
    cbn [fst] in Hb. subst r.
    destruct (IH g1) as (bs' & Hbs).
    destruct (_convert_contexts rng shuffle self g1 bs) as [r g2].
    cbn [fst] in Hbs. subst r.
    exists (b' :: bs'). reflexivity.
Qed.

(** A basket with passages but without a first sample is beyond the
    [try] block: the handler itself raises, [TypeError] when the samples
    are not set and [IndexError] when the list of samples is empty, and so
    does [_convert_contexts]. *)
Theorem convert_context_needs_a_sample (g : rng) (b : SampleBasket) :
  is_Some (raw b !! "passages") ->
  (samples b = None
   -> fst (convert_context rng shuffle self g b) = Raise TypeError)
  /\ (samples b = Some []
      -> fst (convert_context rng shuffle self g b) = Raise IndexError).
Proof.
  intros [p Hp]. unfold convert_context. rewrite Hp.
  destruct (select_contexts rng shuffle self g p) as [selected g1].
  split; intros Hs;
    match goal with
    | |- context [match ?prep with Ok _ => _ | Raise _ => _ end] =>
        destruct prep as [[[ps ci] tp]|e]
    end;
    unfold store_contexts, null_first_features; rewrite Hs;
    cbn [fst snd]; rewrite ?Hs; reflexivity.
Qed.

Lemma select_contexts_rng (g : rng) (p : value) :
  shuffle_positives self = false -> shuffle_negatives self = false ->
  snd (select_contexts rng shuffle self g p) = g.
Proof.
  intros Hp Hn. unfold select_contexts. rewrite Hp, Hn.
  destruct (py_iter p) as [ps|]; [|reflexivity].
  destruct (filter_label "positive" ps); [|reflexivity].
  destruct (filter_label "hard_negative" ps); reflexivity.
Qed.

Lemma convert_context_rng (g : rng) (b : SampleBasket) :
  shuffle_positives self = false -> shuffle_negatives self = false ->
  snd (convert_context rng shuffle self g b) = g.
Proof.
  intros Hp Hn. unfold convert_context.
  destruct (raw b !! "passages") as [p|]; [|reflexivity].
  pose proof (select_contexts_rng g p Hp Hn) as Hg.
  destruct (select_contexts rng shuffle self g p) as [selected g1].
  cbn [snd] in Hg. subst g1.
  match goal with
  | |- context [match ?prep with Ok _ => _ | Raise _ => _ end] =>
      destruct prep as [[[ps ci] tp]|e]
  end; [|reflexivity].
  now destruct (store_contexts b ps ci tp) as [b' raised].
Qed.

(** Without shuffling, [_convert_contexts] leaves the state of the random
    number generator as it found it, whether it returns or raises. *)
Theorem convert_contexts_keeps_rng (g : rng) (baskets : list SampleBasket) :
  shuffle_positives self = false -> shuffle_negatives self = false ->
  snd (_convert_contexts rng shuffle self g baskets) = g.
Proof.
  intros Hp Hn. induction baskets as [|b bs IH]; simpl; [reflexivity|].
  pose proof (convert_context_rng g b Hp Hn) as Hg.
  destruct (convert_context rng shuffle self g b) as [[b'|e] g1];
    cbn [snd] in Hg; subst g1; [|reflexivity].
  destruct (_convert_contexts rng shuffle self g bs) as [[bs'|e] g2];
    cbn [snd] in IH; subst g2; reflexivity.
Qed.

Lemma py_slice_to_0 {A} (l : list A) : py_slice_to l 0 = [].
Proof.
  unfold py_slice_to, py_slice, slice_index.
  change (0 <? 0) with false. cbv beta iota zeta.
  rewrite Z.sub_diag. reflexivity.
Qed.

(** With [num_positives = 0] and [num_hard_negatives = 0] the list
    [all_ctx] is empty, its first entry cannot be taken, and every basket
    with passages loses the features of its first sample. *)
Theorem no_contexts_requested_fails_the_basket (g : rng) (b : SampleBasket)
    (s : Sample) (ss : list Sample) :
  num_positives self = 0 -> num_hard_negatives self = 0 ->
  is_Some (raw b !! "passages") ->
  samples b = Some (s :: ss) ->
  fst (convert_context rng shuffle self g b)
  = Ok (set_samples b (set_features s None :: ss)).
Proof.
  intros Hnp Hnh [p Hp] Hs. unfold convert_context. rewrite Hp.
  assert (forall r, fst (select_contexts rng shuffle self g p) = Ok r ->
                    r = ([], [])) as Hsel.
  { unfold select_contexts. rewrite Hnp, Hnh.
    destruct (py_iter p) as [ps|]; [|discriminate].
    destruct (filter_label "positive" ps) as [pos|]; [|discriminate].
    destruct (if shuffle_positives self then _ else _) as [pos' g1].
    destruct (filter_label "hard_negative" ps) as [neg|]; [|discriminate].
    destruct (if shuffle_negatives self then _ else _) as [neg' g2].
    cbn [fst]. intros r [= <-]. now rewrite !py_slice_to_0. }
  destruct (select_contexts rng shuffle self g p) as [[r|e] g1]; cbn [fst].
  - rewrite (Hsel r eq_refl). unfold_bind. unfold all_ctx. unfold_bind.
    cbn [for_each]. unfold_bind.
    destruct (embed_title self); cbn [_combine_title_context app];
      rewrite Hnp, Hnh; cbn; now apply null_first_features_post.
  - unfold_bind. now apply null_first_features_post.
Qed.

Lemma len_py_slice_to_le {A} (l : list A) (n : Z) :
  0 <= n -> len (py_slice_to l n) <= n.
Proof.
  intros Hn. pose proof (len_py_slice_le l 0 n) as H.
  unfold py_slice_to. lia.
Qed.

Lemma for_each_length {A B} (f : A -> result B) (l : list A) (l' : list B) :
  for_each f l = Ok l' -> length l' = length l.
Proof.
  revert l'. induction l as [|x l IH]; simpl; intros l'.
  - now intros [= <-].
  - unfold_bind. destruct (f x); [|discriminate].
    destruct (for_each f l) as [ys|]; [|discriminate].
    intros [= <-]. simpl. now rewrite (IH ys).
Qed.

Lemma combine_title_context_length (titles texts : list value) :
  length titles = length texts ->
  length (_combine_title_context titles texts) = length texts.
Proof.
  revert texts. induction titles as [|t titles IH]; intros [|c texts];
    simpl; intros H; try congruence.
  now rewrite IH by congruence.
Qed.

(** The list [all_ctx] has one entry for every requested passage: when
    the counts [num_positives] and [num_hard_negatives] are not negative,
    the passages that [select_contexts] keeps, with or without their
    titles, are padded to exactly [num_positives + num_hard_negatives]
    entries, whatever the shuffle does. *)
Theorem all_ctx_has_requested_length (g : rng) (passages : value)
    (positive_context hard_negative_context ctxs : list value) :
  0 <= num_positives self -> 0 <= num_hard_negatives self ->
  fst (select_contexts rng shuffle self g passages)
  = Ok (positive_context, hard_negative_context) ->
  all_ctx self positive_context hard_negative_context = Ok ctxs ->
  len ctxs = num_positives self + num_hard_negatives self.
Proof.
  intros Hnp Hnh Hsel Hall.
  assert (len positive_context <= num_positives self
          /\ len hard_negative_context <= num_hard_negatives self)
    as [Hp Hn].
  { revert Hsel. unfold select_contexts.
    destruct (py_iter passages) as [ps|]; [|discriminate].
    destruct (filter_label "positive" ps) as [pos|]; [|discriminate].
    destruct (if shuffle_positives self then _ else _) as [pos' g1].
    destruct (filter_label "hard_negative" ps) as [neg|]; [|discriminate].
    destruct (if shuffle_negatives self then _ else _) as [neg' g2].
    cbn [fst]. intros [= <- <-]. split; now apply len_py_slice_to_le. }
  revert Hall. unfold all_ctx. unfold_bind.
  destruct (for_each _ positive_context) as [pt|] eqn:E1; [|discriminate].
  destruct (for_each _ positive_context) as [px|] eqn:E2 in |- *;
    [|discriminate].
  destruct (for_each _ hard_negative_context) as [nt|] eqn:E3;
    [|discriminate].
  destruct (for_each _ hard_negative_context) as [nx|] eqn:E4 in |- *;
    [|discriminate].
  apply for_each_length in E1, E2, E3, E4.
  intros [= <-]. rewrite len_app, len_py_repeat.
  assert (len (if embed_title self
               then _combine_title_context pt px
                    ++ _combine_title_context nt nx
               else px ++ nx)
          = len positive_context + len hard_negative_context) as ->.
  { destruct (embed_title self); rewrite len_app; unfold len;
      rewrite ?combine_title_context_length by congruence; lia. }
  lia.
Qed.

End ContextFacts.

(** ** [_create_dataset] and the pipeline *)

Lemma lookup_total_positions {A} `{Inhabited A} (l : list A) :
  map (fun i : nat => l !!! i) (seq 0 (length l)) = l.
Proof.
  apply list_eq. intros i. rewrite list_lookup_fmap.
  destruct (decide (i < length l)%nat) as [Hi|Hi].
  - rewrite lookup_seq_lt by exact Hi. simpl.
    now rewrite list_lookup_lookup_total_lt.
  - rewrite lookup_seq_ge by lia. simpl.
    symmetry. apply lookup_ge_None_2. lia.
Qed.

Lemma list_remove_first_app {A} `{EqDecision A} (x : A) (l1 l2 : list A) :
  ~ In x l1 -> list_remove_first x (l1 ++ x :: l2) = Ok (l1 ++ l2).
Proof.
  induction l1 as [|y l1 IH]; simpl; intros H.
  - destruct (decide (x = x)); [reflexivity | congruence].
  - destruct (decide (y = x)) as [->|_]; [tauto|].
    rewrite IH by tauto. reflexivity.
Qed.

Section RetrievalDataset.

Variable rng : Type.
Variable shuffle : rng -> list value -> list value * rng.
Variable Dataset : Type.
Variable convert_features_to_dataset :
  list (gmap string value) -> Dataset * list string.

Section Baskets.

Variable deref : nat -> SampleBasket.

#[local] Abbreviation complete :=
  (fun b : nat => _check_sample_features (deref b)).

Lemma retrieval_scan_fold (baskets : list nat)
    (F : list (gmap string value)) (R : list nat) :
  fold_left (scan_basket deref) baskets (F, R)
  = (F ++ flat_map (fun b => basket_rows (deref b))
            (List.filter complete baskets),
     R ++ List.filter (fun b => negb (complete b)) baskets).
Proof.
  revert F R. induction baskets as [|b l IH]; intros F R; simpl.
  - now rewrite !app_nil_r.
  - destruct (_check_sample_features (deref b)); simpl; rewrite IH;
      now rewrite <- app_assoc.
Qed.

Lemma retrieval_remove_filter (l2 : list nat) :
  forall (l1 : list nat) (ids : gset Z),
    (forall b, In b l1 -> complete b = true) ->
    remove_baskets deref (List.filter (fun b => negb (complete b)) l2)
      (l1 ++ l2) ids
    = Ok (l1 ++ List.filter complete l2,
          list_to_set
            (map (fun b => id_internal (deref b))
               (List.filter (fun b => negb (complete b)) l2)) ∪ ids).
Proof.
  induction l2 as [|b l2 IH]; intros l1 ids H1; simpl.
  - rewrite !app_nil_r. f_equal. f_equal. set_solver.
  - destruct (_check_sample_features (deref b)) eqn:Eb; simpl.
    + replace (l1 ++ b :: l2) with ((l1 ++ [b]) ++ l2)
        by now rewrite <- app_assoc.
      rewrite IH.
      * now rewrite <- app_assoc.
      * intros x [Hx | [<- | []]]%in_app_or; [now apply H1 | exact Eb].
    + unfold_bind. rewrite list_remove_first_app.
      * rewrite IH by exact H1. f_equal. f_equal. set_solver.
      * intros Hin. apply H1 in Hin. congruence.
Qed.

(** [_create_dataset] of the retrieval processor always returns: the
    dataset is built from the concatenation of the [features] of the
    samples of the complete baskets, in order; the complete baskets are
    the ones returned; and the problematic ids are the internal ids of the
    baskets that are not complete, and no other. *)
Theorem create_dataset_reports_removed_baskets (baskets : list nat) :
  _create_dataset Dataset convert_features_to_dataset deref baskets
  = Ok (fst (convert_features_to_dataset
               (flat_map
                  (fun b =>
                     flat_map (fun sample => default [] (features sample))
                       (default [] (samples (deref b))))
                  (List.filter (fun b => _check_sample_features (deref b))
                     baskets))),
        snd (convert_features_to_dataset
               (flat_map
                  (fun b =>
                     flat_map (fun sample => default [] (features sample))
                       (default [] (samples (deref b))))
                  (List.filter (fun b => _check_sample_features (deref b))
                     baskets))),
        list_to_set
          (map (fun b => id_internal (deref b))
             (List.filter (fun b => negb (_check_sample_features (deref b)))
                baskets)),
        List.filter (fun b => _check_sample_features (deref b)) baskets).
Proof.
  unfold _create_dataset. rewrite retrieval_scan_fold. cbn [app].
  unfold_bind.
  pose proof (retrieval_remove_filter baskets [] ∅) as Hr.
  cbn [app] in Hr. rewrite Hr by (intros ? []). clear Hr.
  rewrite (right_id_L ∅ (∪)). unfold basket_rows.
  now destruct (convert_features_to_dataset _) as [ds names].
Qed.

End Baskets.

#[local] Abbreviation run :=
  (dataset_from_dicts rng shuffle Dataset convert_features_to_dataset).

(** [dataset_from_dicts] of the retrieval processor fails in one case
    only: when [_convert_queries] returns [None] for a query without
    tokens, the call raises [TypeError].  In every other case it returns:
    the problematic ids are the internal ids of the baskets that leave
    [_convert_contexts] incomplete, the baskets are handed back exactly
    when [return_baskets] is set and are the complete ones, and the
    dataset is built from the concatenation of the [features] of their
    samples. *)
Theorem dataset_from_dicts_fails_only_without_query_tokens
    (self : TextSimilarityProcessor) (g : rng)
    (dicts : list (gmap string value)) (indices : option (list Z))
    (return_baskets : bool) :
  match _convert_queries self (_fill_baskets dicts indices) with
  | None => fst (run self g dicts indices return_baskets) = Raise TypeError
  | Some queries =>
      exists baskets out,
        fst (_convert_contexts rng shuffle self g queries) = Ok baskets
        /\ fst (run self g dicts indices return_baskets) = Ok out
        /\ out_problematic_ids out
           = list_to_set
               (map id_internal
                  (List.filter (fun b => negb (_check_sample_features b))
                     baskets))
        /\ out_baskets out
           = (if return_baskets
              then Some (List.filter _check_sample_features baskets)
              else None)
        /\ convert_features_to_dataset
             (flat_map
                (fun basket =>
                   flat_map (fun sample => default [] (features sample))
                     (default [] (samples basket)))
                (List.filter _check_sample_features baskets))
           = (out_dataset out, out_tensor_names out)
  end.
Proof.
  unfold dataset_from_dicts.
  destruct (_convert_queries self (_fill_baskets dicts indices))
    as [queries|] eqn:Eq; [|reflexivity].
  apply convert_queries_set_samples in Eq.
  destruct (convert_contexts_returns rng shuffle self queries Eq g)
    as (baskets & Hc).
  destruct (_convert_contexts rng shuffle self g queries) as [r g1].
  cbn [fst] in Hc. subst r. exists baskets.
  unfold _create_dataset. rewrite retrieval_scan_fold. cbn [app].
  unfold_bind.
  pose proof (retrieval_remove_filter (fun i : nat => baskets !!! i)
                (seq 0 (length baskets)) [] ∅) as Hr.
  cbn [app] in Hr. rewrite Hr by (intros ? []). clear Hr.
  rewrite (right_id_L ∅ (∪)).
  destruct (convert_features_to_dataset _) as [ds names] eqn:Eds.
  cbn [fst].
  eexists. split; [reflexivity|]. split; [reflexivity|].
  cbn [out_problematic_ids out_baskets out_dataset out_tensor_names].
  rewrite <- (map_map (fun i : nat => baskets !!! i) id_internal).
  rewrite (SquadStageFacts.filter_map_comm
             (fun b => negb (_check_sample_features b))
             (fun i : nat => baskets !!! i)).
  rewrite !(SquadStageFacts.filter_map_comm _check_sample_features
              (fun i : nat => baskets !!! i)).
  rewrite !lookup_total_positions.
  rewrite <- (SquadStageFacts.flat_map_map basket_rows
                (fun i : nat => baskets !!! i)) in Eds.
  rewrite (SquadStageFacts.filter_map_comm _check_sample_features
             (fun i : nat => baskets !!! i)), lookup_total_positions in Eds.
  split; [reflexivity|]. split; [reflexivity|]. exact Eds.
Qed.

End RetrievalDataset.

(** ** On the sample inputs *)

Lemma convert_contexts_isolates_failures_demo :
  exists b0 b1 s0 s1,
    fst (_convert_contexts nat Demo.counting_shuffle
           (Demo.retrieval_processor 1 2) 0%nat Demo.retrieval_queries)
    = Ok [b0; b1]
    /\ samples b0 = Some [s0] /\ is_Some (features s0)
    /\ samples b1 = Some [s1] /\ features s1 = None
    /\ Forall2
         (fun b b' =>
            id_internal b' = id_internal b /\ id_external b' = id_external b
            /\ raw b' = raw b
            /\ (raw b !! "passages" = None -> b' = b)
            /\ exists s s' ss,
                samples b = Some (s :: ss) /\ samples b' = Some (s' :: ss)
                /\ sample_id s' = sample_id s)
         Demo.retrieval_queries [b0; b1].
Proof.
  assert (Forall (fun b => exists s ss, samples b = Some (s :: ss))
            Demo.retrieval_queries) as H.
  { vm_compute. constructor; [eexists _, _; reflexivity|].
    constructor; [eexists _, _; reflexivity | constructor]. }
  destruct (convert_contexts_isolates_failures nat Demo.counting_shuffle
              (Demo.retrieval_processor 1 2) 0%nat Demo.retrieval_queries H)
    as (baskets' & Hc & Hpost).
  assert (exists b0 b1 s0 s1,
             fst (_convert_contexts nat Demo.counting_shuffle
                    (Demo.retrieval_processor 1 2) 0%nat
                    Demo.retrieval_queries) = Ok [b0; b1]
             /\ samples b0 = Some [s0] /\ is_Some (features s0)
             /\ samples b1 = Some [s1] /\ features s1 = None)
    as (b0 & b1 & s0 & s1 & Hc' & Hrest).
  { vm_compute. do 4 eexists. split; [reflexivity|].
    repeat split; eauto. }
  exists b0, b1, s0, s1. split; [exact Hc'|].
  rewrite Hc' in Hc. injection Hc as <-.
  destruct Hrest as (H0 & H1 & H2 & H3).
  repeat (split; [assumption|]). exact Hpost.
Defined.

Lemma convert_context_needs_a_sample_demo :
  fst (convert_context nat Demo.counting_shuffle
         (Demo.retrieval_processor 1 2) 0%nat
         (Demo.query_basket 0 "who?" [Demo.passage "t1" "p1" "positive"]))
  = Raise TypeError.
Proof.
  refine (proj1 (convert_context_needs_a_sample nat Demo.counting_shuffle
                   (Demo.retrieval_processor 1 2) 0%nat
                   (Demo.query_basket 0 "who?"
                      [Demo.passage "t1" "p1" "positive"]) _) eq_refl).
  vm_compute. eauto.
Defined.

Lemma convert_contexts_keeps_rng_demo :
  snd (_convert_contexts nat Demo.counting_shuffle
         (Demo.retrieval_processor 1 2) 7%nat Demo.retrieval_queries)
  = 7%nat.
Proof.
  exact (convert_contexts_keeps_rng nat Demo.counting_shuffle
           (Demo.retrieval_processor 1 2) 7%nat Demo.retrieval_queries
           eq_refl eq_refl).
Defined.

Lemma no_contexts_requested_demo :
  exists s,
    samples (nth 0 Demo.retrieval_queries inhabitant) = Some [s]
    /\ is_Some (features s)
    /\ fst (convert_context nat Demo.counting_shuffle
              (Demo.retrieval_processor 0 0) 0%nat
              (nth 0 Demo.retrieval_queries inhabitant))
       = Ok (set_samples (nth 0 Demo.retrieval_queries inhabitant)
               [set_features s None]).
Proof.
  assert (exists s,
             samples (nth 0 Demo.retrieval_queries inhabitant) = Some [s]
             /\ is_Some (features s)) as (s & Hs & Hf).
  { vm_compute. eauto. }
  exists s. split; [exact Hs|]. split; [exact Hf|].
  apply (no_contexts_requested_fails_the_basket nat Demo.counting_shuffle
           (Demo.retrieval_processor 0 0) 0%nat
           (nth 0 Demo.retrieval_queries inhabitant) s [] eq_refl eq_refl).
  - vm_compute. eauto.
  - exact Hs.
Defined.

Lemma all_ctx_has_requested_length_demo :
  exists positive_context hard_negative_context ctxs,
    fst (select_contexts nat Demo.counting_shuffle
           (Demo.retrieval_processor 1 2) 0%nat
           (VList [Demo.passage "t1" "p1" "positive";
                   Demo.passage "t2" "p2" "positive"]))
    = Ok (positive_context, hard_negative_context)
    /\ len positive_context + len hard_negative_context = 1
    /\ all_ctx (Demo.retrieval_processor 1 2) positive_context
         hard_negative_context = Ok ctxs
    /\ len ctxs = 3.
Proof.
  destruct (fst (select_contexts nat Demo.counting_shuffle
                   (Demo.retrieval_processor 1 2) 0%nat
                   (VList [Demo.passage "t1" "p1" "positive";
                           Demo.passage "t2" "p2" "positive"])))
    as [[pos neg]|] eqn:Esel; [|vm_compute in Esel; discriminate].
  destruct (all_ctx (Demo.retrieval_processor 1 2) pos neg)
    as [ctxs|] eqn:Eall;
    [|vm_compute in Esel; injection Esel as <- <-;
      vm_compute in Eall; discriminate].
  exists pos, neg, ctxs. split; [reflexivity|]. split.
  { vm_compute in Esel. injection Esel as <- <-. reflexivity. }
  split; [exact Eall|].
  refine (all_ctx_has_requested_length nat Demo.counting_shuffle
            (Demo.retrieval_processor 1 2) 0%nat _ pos neg ctxs _ _ Esel Eall).
  - vm_compute. discriminate.
  - vm_compute. discriminate.
Defined.

End TextSimilarityStageFacts.

(* ===================================================================== *)
(** * Tasks *)

Module TaskFacts.
Import Py Tasks.

Ltac unfold_bind := unfold mbind, result_bind, mret, result_ret, bind in *.

(** [add_task] fails exactly on a label list that is not a list
    ([ValueError]) and, for a list, on a label name that is neither [None]
    nor a string ([TypeError]).  When it returns, the task stands under
    its name, with the label name (by default the name of the task
    followed by ["_label"]) and the tensor name, which is the label name
    followed by ["_ids"]; the tasks under other names are as before. *)
Theorem add_task_registers (tasks : gmap string value) (name : string)
    (metric label_list label_column_name label_name task_type
       text_column_name : value) :
  match add_task tasks name metric label_list label_column_name label_name
          task_type text_column_name with
  | Raise e =>
      (e = ValueError /\ forall l, label_list <> VList l)
      \/ (e = TypeError /\ (exists l, label_list = VList l)
          /\ label_name <> VNone /\ forall s, label_name <> VStr s)
  | Ok tasks' =>
      exists l s entry,
        label_list = VList l
        /\ (label_name = VNone /\ s = String.append name "_label"
            \/ label_name = VStr s)
        /\ tasks' !! name = Some (VDict entry)
        /\ entry !! "label_name" = Some (VStr s)
        /\ entry !! "label_tensor_name" = Some (VStr (String.append s "_ids"))
        /\ entry !! "label_list" = Some label_list
        /\ entry !! "metric" = Some metric
        /\ forall other, other <> name -> tasks' !! other = tasks !! other
  end.
Proof.
  unfold add_task.
  destruct label_list as [| | |l| |];
    try (left; split; [reflexivity | intros; discriminate]).
  destruct label_name as [| |s| | |];
    try (right; split; [reflexivity|]; split; [eauto|];
         split; [discriminate | intros; discriminate]).
  - unfold task_entry. eexists l, _, _.
    split; [reflexivity|]. split; [left; split; reflexivity|].
    split; [apply lookup_insert_eq|]. repeat (split; [reflexivity|]).
    intros other Hne. now apply lookup_insert_ne.
  - unfold task_entry. eexists l, _, _.
    split; [reflexivity|]. split; [right; reflexivity|].
    split; [apply lookup_insert_eq|]. repeat (split; [reflexivity|]).
    intros other Hne. now apply lookup_insert_ne.
Qed.

(** The constructor of the retrieval processor fails exactly when a
    metric is given without a list of labels, as with the default
    [label_list=None]: it raises [ValueError]. *)
Theorem text_similarity_init_needs_label_list
    (query_tokenizer passage_tokenizer : TextSimilarity.Tokenizer)
    (max_seq_len_query max_seq_len_passage : Z) (embed_title : bool)
    (num_positives num_hard_negatives : Z)
    (shuffle_negatives shuffle_positives : bool) (metric label_list : value)
    (e : exn) :
  TextSimilarityProcessor_init query_tokenizer passage_tokenizer
    max_seq_len_query max_seq_len_passage embed_title num_positives
    num_hard_negatives shuffle_negatives shuffle_positives metric label_list
  = Raise e
  <-> e = ValueError /\ truthy metric = true
      /\ forall l, label_list <> VList l.
Proof.
  unfold TextSimilarityProcessor_init. unfold_bind. cbv zeta.
  destruct (truthy metric).
  - unfold add_task.
    destruct label_list; cbn;
      (split; [intros [= <-]; repeat split; intros; discriminate
              | intros (-> & _ & H); first [reflexivity | now destruct (H l)]]).
  - split; [discriminate | intros (_ & [=] & _)].
Qed.

(** The constructor of the question-answering processor adds the task
    ["question_answering"] only for a metric and a label list that are
    both true in a condition: then a list of labels gives the task with
    the tensor name ["question_answering_label_ids"], and any other label
    list, a tuple of labels say, makes the constructor raise
    [ValueError]; without them the processor has no task. *)
Theorem squad_init_default_task (tk : Squad.Tokenizer)
    (max_seq_len doc_stride max_query_length max_answers : Z)
    (metric label_list : value) (self : Squad.SquadProcessor) :
  Squad.__init__ tk max_seq_len doc_stride max_query_length max_answers
  = Ok self ->
  SquadProcessor_init tk max_seq_len doc_stride max_query_length max_answers
    metric label_list
  = if truthy metric && truthy label_list
    then match label_list with
         | VList _ =>
             Ok (self,
                 {[ "question_answering"%string :=
                      task_entry metric label_list VNone
                        "question_answering_label" VNone VNone ]})
         | _ => Raise ValueError
         end
    else Ok (self, ∅).
Proof.
  intros Hinit. unfold SquadProcessor_init. rewrite Hinit. unfold_bind.
  destruct (truthy metric && truthy label_list); [|reflexivity].
  unfold add_task. destruct label_list; reflexivity.
Qed.

(** The constructor reads the layout of a pair off the tokenizer: when the
    tokenizer frames the one-token sequences ["a"] and ["b"] as
    [pre ++ "a" :: mid ++ "b" :: post], with neither marker among the
    tokens before it, the stride is admissible, and the label list, where
    a metric and labels are given, is a list, the constructor returns a
    processor with the counts [len pre], [len mid] and [len post] of
    special tokens and no problematic ids. *)
Theorem init_counts_special_tokens (tk : Squad.Tokenizer)
    (msl ds mql ma : Z) (pre mid post : list Squad.token)
    (metric label_list : value) :
  ds < msl - mql ->
  Squad.build_inputs_with_special_tokens tk [Squad.TokStr "a"]
    [Squad.TokStr "b"]
  = pre ++ Squad.TokStr "a" :: mid ++ Squad.TokStr "b" :: post ->
  ~ In (Squad.TokStr "a") pre -> ~ In (Squad.TokStr "b") pre ->
  ~ In (Squad.TokStr "b") mid ->
  (truthy metric && truthy label_list = true ->
   exists l, label_list = VList l) ->
  exists tasks,
    SquadProcessor_init tk msl ds mql ma metric label_list
    = Ok ({| Squad.tokenizer := tk; Squad.max_seq_len := msl;
             Squad.doc_stride := ds; Squad.max_query_length := mql;
             Squad.max_answers := ma; Squad.sp_toks_start := len pre;
             Squad.sp_toks_mid := len mid; Squad.sp_toks_end := len post;
             Squad.problematic_sample_ids := ∅ |},
          tasks).
Proof.
  intros Hs Hvec Ha Hb Hm Hlist. unfold SquadProcessor_init.
  rewrite (SquadStageFacts.special_tokens_counted tk msl ds mql ma pre mid
             post Hs Hvec Ha Hb Hm).
  unfold_bind.
  destruct (truthy metric && truthy label_list); [|eauto].
  destruct (Hlist eq_refl) as [l ->]. unfold add_task. eauto.
Qed.

(** The constructor raises [ValueError] exactly when the stride is
    admissible and either the tokenizer drops one of the markers ["a"] and
    ["b"] from the pair it builds, or a metric and labels are given and
    the labels are not a list. *)
Theorem init_raises_value_error (tk : Squad.Tokenizer) (msl ds mql ma : Z)
    (metric label_list : value) :
  SquadProcessor_init tk msl ds mql ma metric label_list = Raise ValueError
  <-> ds < msl - mql
      /\ (~ In (Squad.TokStr "a")
              (Squad.build_inputs_with_special_tokens tk [Squad.TokStr "a"]
                 [Squad.TokStr "b"])
          \/ ~ In (Squad.TokStr "b")
                 (Squad.build_inputs_with_special_tokens tk
                    [Squad.TokStr "a"] [Squad.TokStr "b"])
          \/ (truthy metric = true /\ truthy label_list = true
              /\ forall l, label_list <> VList l)).
Proof.
  unfold SquadProcessor_init. unfold_bind.
  destruct (Squad.__init__ tk msl ds mql ma) as [self|e] eqn:Einit.
  - pose proof (SquadStageFacts.special_tokens_value_error tk msl ds mql ma)
      as Hprefix.
    pose proof (SquadFacts.init_raises_assertion tk msl ds mql ma) as Hassert.
    rewrite Einit in Hprefix, Hassert.
    assert (ds < msl - mql) as Hs.
    { destruct (Z.lt_ge_cases ds (msl - mql)) as [H|H]; [exact H|].
      assert (Ok self = Raise AssertionError) as E by (apply Hassert; lia).
      discriminate E. }
    assert (~ (~ In (Squad.TokStr "a")
                   (Squad.build_inputs_with_special_tokens tk
                      [Squad.TokStr "a"] [Squad.TokStr "b"])
               \/ ~ In (Squad.TokStr "b")
                      (Squad.build_inputs_with_special_tokens tk
                         [Squad.TokStr "a"] [Squad.TokStr "b"]))) as Hnab.
    { intros H. assert (Ok self = Raise ValueError) as E
        by (apply Hprefix; tauto).
      discriminate E. }
    destruct (truthy metric) eqn:Em; cbn [andb].
    + destruct (truthy label_list) eqn:El.
      * unfold add_task.
        destruct label_list; cbn;
          (split;
           [first [discriminate
                  | intros _; split; [exact Hs|]; right; right;
                    repeat split; intros; discriminate]
           | intros (_ & [H|[H|(_ & _ & H)]]);
             [exfalso; apply Hnab; tauto | exfalso; apply Hnab; tauto
             | first [reflexivity | now destruct (H l)]]]).
      * split; [discriminate|].
        intros (_ & [H|[H|(_ & H & _)]]);
          [exfalso; apply Hnab; tauto | exfalso; apply Hnab; tauto
          | discriminate].
    + split; [discriminate|].
      intros (_ & [H|[H|(H & _)]]);
        [exfalso; apply Hnab; tauto | exfalso; apply Hnab; tauto
        | discriminate].
  - pose proof (SquadStageFacts.special_tokens_value_error tk msl ds mql ma)
      as Hprefix.
    pose proof (SquadFacts.init_raises_assertion tk msl ds mql ma) as Hassert.
    rewrite Einit in Hprefix, Hassert.
    split.
    + intros [= ->]. destruct (proj1 Hprefix eq_refl) as [Hs H].
      split; [exact Hs | tauto].
    + intros (Hs & _). f_equal.
      assert (e = AssertionError \/ e = ValueError) as [-> | ->].
      { revert Einit. unfold Squad.__init__. unfold_bind.
        destruct (Squad.assert_doc_stride ds msl mql) as [[]|e'] eqn:Ea.
        - destruct (Squad._initialize_special_tokens_count tk)
            as [[[x y] z]|e'] eqn:Ec; [discriminate|].
          intros [= <-]. right.
          now apply SquadFacts.special_tokens_count_raises in Ec.
        - unfold Squad.assert_doc_stride in Ea.
          destruct (ds <? msl - mql); [discriminate|].
          injection Ea as <-. intros [= <-]. now left. }
      * assert (ds >= msl - mql) by (now apply Hassert). lia.
      * reflexivity.
Qed.

Lemma init_counts_special_tokens_demo :
  exists tasks,
    SquadProcessor_init Demo.bert_like 384 128 64 6 (VStr "squad")
      (VList [VStr "start_token"; VStr "end_token"])
    = Ok ({| Squad.tokenizer := Demo.bert_like; Squad.max_seq_len := 384;
             Squad.doc_stride := 128; Squad.max_query_length := 64;
             Squad.max_answers := 6;
             Squad.sp_toks_start := len [Squad.TokId 101];
             Squad.sp_toks_mid := len [Squad.TokId 102];
             Squad.sp_toks_end := len [Squad.TokId 102];
             Squad.problematic_sample_ids := ∅ |},
          tasks).
Proof.
  apply (init_counts_special_tokens Demo.bert_like 384 128 64 6
           [Squad.TokId 101] [Squad.TokId 102] [Squad.TokId 102]
           (VStr "squad") (VList [VStr "start_token"; VStr "end_token"])).
  - lia.
  - reflexivity.
  - intros [H|[]]; discriminate.
  - intros [H|[]]; discriminate.
  - intros [H|[]]; discriminate.
  - intros _. eauto.
Defined.

Lemma squad_init_default_task_demo :
  SquadProcessor_init Demo.bert_like 384 128 64 6 (VStr "squad")
    (VList [VStr "start_token"; VStr "end_token"])
  = Ok (Demo.squad_processor 384 128 64 6,
        {[ "question_answering"%string :=
             task_entry (VStr "squad")
               (VList [VStr "start_token"; VStr "end_token"]) VNone
               "question_answering_label" VNone VNone ]})
  /\ SquadProcessor_init Demo.bert_like 384 128 64 6 (VStr "squad")
       (VTuple [VStr "start_token"; VStr "end_token"])
     = Raise ValueError.
Proof.
  split.
  - exact (squad_init_default_task Demo.bert_like 384 128 64 6 (VStr "squad")
             (VList [VStr "start_token"; VStr "end_token"])
             (Demo.squad_processor 384 128 64 6) eq_refl).
  - exact (squad_init_default_task Demo.bert_like 384 128 64 6 (VStr "squad")
             (VTuple [VStr "start_token"; VStr "end_token"])
             (Demo.squad_processor 384 128 64 6) eq_refl).
Defined.

End TaskFacts.

(* ===================================================================== *)
(** * The ids of the samples, written and read back *)

Module SampleIdFacts.
Import Py Squad PyFacts Numerals.

Ltac unfold_bind := unfold mbind, result_bind, mret, result_ret, bind in *.

Lemma horner_of_uint_acc (d : Decimal.uint) :
  forall acc : positive, horner (Z.pos acc) d = Z.pos (Pos.of_uint_acc d acc).
Proof.
  induction d; intros acc; simpl; [reflexivity|..];
    rewrite <- IHd; f_equal; lia.
Qed.

Lemma horner_of_uint (d : Decimal.uint) :
  horner 0 d = Z.of_N (Pos.of_uint d).
Proof.
  induction d; simpl; [reflexivity | exact IHd |..];
    apply (horner_of_uint_acc d).
Qed.

Lemma chars_of_uint_digits (d : Decimal.uint) :
  Forall digit_char
    (list_ascii_of_string (NilEmpty.string_of_uint d)).
Proof.
  induction d; simpl; constructor; try exact IHd;
    unfold digit_char; simpl; tauto.
Qed.

Lemma parse_digits_of_uint (d : Decimal.uint) :
  forall acc b,
    d <> Decimal.Nil \/ b = true ->
    parse_digits acc b
      (list_ascii_of_string (NilEmpty.string_of_uint d))
    = Some (horner acc d).
Proof.
  induction d; intros acc b H; simpl;
    [destruct H as [H | ->]; [congruence | reflexivity] |..];
    rewrite IHd by (now right);
    match goal with
    | |- context [Z.of_nat (nat_of_ascii ?c) - 48] =>
        let v := eval vm_compute in (Z.of_nat (nat_of_ascii c) - 48) in
        change (Z.of_nat (nat_of_ascii c) - 48) with v
    end;
    do 2 f_equal; lia.
Qed.

Lemma digit_char_facts (c : ascii) :
  digit_char c ->
  is_int_space c = false /\ Ascii.eqb c "-" = false
  /\ Ascii.eqb c "+" = false.
Proof.
  unfold digit_char. simpl.
  intros [<-|[<-|[<-|[<-|[<-|[<-|[<-|[<-|[<-|[<-|[]]]]]]]]]]];
    repeat split.
Qed.

Lemma int_lstrip_id (l : list ascii) :
  Forall (fun c => is_int_space c = false) l -> int_lstrip l = l.
Proof. intros [|c l' Hc _]; simpl; [reflexivity | now rewrite Hc]. Qed.

(** [int] has nothing to skip around a text without whitespace. *)
Lemma int_strip_id (l : list ascii) :
  Forall (fun c => is_int_space c = false) l ->
  rev (int_lstrip (rev (int_lstrip l))) = l.
Proof.
  intros H.
  rewrite (int_lstrip_id _ H), int_lstrip_id by (now apply List.Forall_rev).
  apply rev_involutive.
Qed.

Lemma str_split_no_sep (s : string) :
  Forall (fun c => Ascii.eqb c "-" = false) (list_ascii_of_string s) ->
  str_split "-" s = [s].
Proof.
  induction s as [|c s IH]; simpl; [reflexivity|].
  intros H. inversion H as [|? ? Hc Hs]; subst.
  rewrite Hc, IH by exact Hs. reflexivity.
Qed.

Lemma str_split_app (a b : string) :
  Forall (fun c => Ascii.eqb c "-" = false) (list_ascii_of_string a) ->
  str_split "-" (String.append a (String "-" b)) = a :: str_split "-" b.
Proof.
  induction a as [|c a IH]; simpl; [reflexivity|].
  intros H. inversion H as [|? ? Hc Ha]; subst.
  rewrite Hc, IH by exact Ha. reflexivity.
Qed.

(** The numeral of an integer that is not negative: digits only. *)
Lemma str_of_int_digits (z : Z) :
  0 <= z ->
  exists d,
    d <> Decimal.Nil /\ str_of_int z = NilEmpty.string_of_uint d
    /\ horner 0 d = z.
Proof.
  intros Hz. unfold str_of_int. destruct z as [|p|p]; [| |lia].
  - exists (Decimal.D0 Decimal.Nil). repeat split. discriminate.
  - exists (Pos.to_uint p). split; [apply DecimalPos.Unsigned.to_uint_nonnil|].
    split.
    + simpl. pose proof (DecimalPos.Unsigned.to_uint_nonnil p) as Hn.
      now destruct (Pos.to_uint p).
    + rewrite horner_of_uint, DecimalPos.Unsigned.of_to. reflexivity.
Qed.

(** [int(str(z)) == z] for an integer that is not negative. *)
Lemma py_int_str_of_int (z : Z) : 0 <= z -> py_int (str_of_int z) = Ok z.
Proof.
  intros Hz. destruct (str_of_int_digits z Hz) as (d & Hd & -> & Hv).
  pose proof (chars_of_uint_digits d) as Hdig.
  unfold py_int. rewrite int_strip_id.
  - pose proof (parse_digits_of_uint d 0 false (or_introl Hd)) as Hp.
    destruct (list_ascii_of_string (NilEmpty.string_of_uint d)) as [|c l] eqn:E.
    + destruct d; simpl in E; congruence.
    + apply Forall_inv in Hdig.
      destruct (digit_char_facts c Hdig) as (_ & -> & ->).
      cbv zeta. rewrite Hp, Hv. reflexivity.
  - eapply List.Forall_impl; [|exact Hdig]. intros c Hc.
    now destruct (digit_char_facts c Hc).
Qed.


Lemma string_append_assoc (a b c : string) :
  String.append (String.append a b) c = String.append a (String.append b c).
Proof.
  induction a as [|x a IH]; [reflexivity|].
  change (String x (String.append (String.append a b) c)
          = String x (String.append a (String.append b c))).
  now rewrite IH.
Qed.

Lemma str_of_int_no_sep (z : Z) :
  0 <= z ->
  Forall (fun c => Ascii.eqb c "-" = false)
    (list_ascii_of_string (str_of_int z)).
Proof.
  intros Hz. destruct (str_of_int_digits z Hz) as (d & _ & -> & _).
  eapply List.Forall_impl; [|exact (chars_of_uint_digits d)].
  intros c Hc. now destruct (digit_char_facts c Hc) as (_ & -> & _).
Qed.

(** The id that [_split_docs_into_passages] writes is read back by
    [_passages_to_paddle_features]: for a basket whose internal id is made
    of two numbers joined by ["-"] and a
    passage id that is not negative, splitting the id of the sample at
    ["-"] and converting the parts gives the two numbers and the passage
    id, so that the sample passes the check of the id. *)
Theorem sample_id_round_trip (self : SquadProcessor) (basket : SampleBasket)
    (span : PassageSpan) (i j : Z) :
  0 <= i -> 0 <= j -> 0 <= span_passage_id span ->
  id_internal basket
  = String.append (str_of_int i) (String "-" (str_of_int j)) ->
  for_each py_int
    (str_split "-" (sample_id (sample_of_span self basket span)))
  = Ok [i; j; span_passage_id span].
Proof.
  intros Hi Hj Hk Hid. unfold sample_of_span. cbn [sample_id].
  rewrite Hid.
  change ("-" ++ str_of_int (span_passage_id span))%string
    with (String "-" (str_of_int (span_passage_id span))).
  rewrite string_append_assoc.
  change (String.append (String "-" (str_of_int j))
            (String "-" (str_of_int (span_passage_id span))))
    with (String "-" (String.append (str_of_int j)
                        (String "-" (str_of_int (span_passage_id span))))).
  rewrite str_split_app by (now apply str_of_int_no_sep).
  rewrite str_split_app by (now apply str_of_int_no_sep).
  rewrite str_split_no_sep by (now apply str_of_int_no_sep).
  cbn [for_each]. unfold bind.
  now rewrite !py_int_str_of_int by assumption.
Qed.

Lemma sample_id_round_trip_demo :
  for_each py_int
    (str_split "-"
       (sample_id
          (sample_of_span Demo.span_processor (Demo.span_basket [])
             {| span_passage_start_t := 0; span_passage_end_t := 2;
                span_passage_start_c := 0; span_passage_end_c := 6;
                span_passage_id := 12 |})))
  = Ok [0; 0; 12].
Proof.
  apply (sample_id_round_trip Demo.span_processor (Demo.span_basket [])
           {| span_passage_start_t := 0; span_passage_end_t := 2;
              span_passage_start_c := 0; span_passage_end_c := 6;
              span_passage_id := 12 |} 0 0); [lia | lia | simpl; lia|].
  reflexivity.
Defined.

End SampleIdFacts.

(* ===================================================================== *)
(** * Passages beyond the budget *)

Module FeatureEdgeFacts.
Import Py Squad PyFacts SquadFacts.
#[local] Set Warnings "-clear-no-such-hyp".

Section Overlong.

Variable self : SquadProcessor.

(** The contract of the tokenizer and of the counts that the constructor
    reads off it. *)
Hypothesis build_adds :
  forall a b,
    len (build_inputs_with_special_tokens (tokenizer self) a b)
    = len a + len b + num_special_tokens_to_add (tokenizer self) true.
Hypothesis type_ids_len :
  forall a b,
    len (create_token_type_ids_from_sequences (tokenizer self) a b)
    = len (build_inputs_with_special_tokens (tokenizer self) a b).
Hypothesis counts :
  0 <= sp_toks_start self /\ 0 <= sp_toks_mid self /\ 0 <= sp_toks_end self
  /\ sp_toks_start self + sp_toks_mid self + sp_toks_end self
     = num_special_tokens_to_add (tokenizer self) true.

(** [_passages_to_paddle_features] pads but never truncates, and its
    checks compare the arrays with each other, not with [max_seq_len]: a
    sample whose question and passage exceed the sequence length once the
    special tokens are added is not rejected.  Prepared for inference, it
    gets a feature row whose five arrays are all longer than
    [max_seq_len]. *)
Theorem overlong_sample_is_not_rejected (lv : option Locals)
    (sample : Sample) (t : Tokenized) (l : Locals) :
  tokenized sample = Some t ->
  bind_locals sample t = Ok l -> len (lv_sample_id l) = 3 ->
  len (tk_question_start_of_word t) = len (tk_question_tokens t) ->
  len (passage_start_of_word t) = len (passage_tokens t) ->
  max_seq_len self
  < len (tk_question_tokens t) + len (passage_tokens t)
    + num_special_tokens_to_add (tokenizer self) true ->
  exists row,
    featurize_sample true (self, lv) sample
    = Ok (set_features sample (Some [row]), (self, Some l))
    /\ max_seq_len self < len (input_ids row)
    /\ len (padding_mask row) = len (input_ids row)
    /\ len (segment_ids row) = len (input_ids row)
    /\ len (start_of_word row) = len (input_ids row)
    /\ len (span_mask row) = len (input_ids row).
Proof.
  intros Ht Hl Hid Hq Hp Hlong.
  pose proof Hl as Hl'. unfold bind_locals in Hl'. unfold_bind.
  destruct (for_each py_int _) as [ids|]; [|discriminate].
  injection Hl' as Hl'.
  assert (lv_question_input_ids l = tk_question_tokens t
          /\ lv_passage_input_ids l = passage_tokens t
          /\ lv_question_start_of_word l = tk_question_start_of_word t
          /\ lv_passage_start_of_word l = passage_start_of_word t
          /\ lv_question_len_t l = len (tk_question_tokens t)
          /\ lv_passage_len_t l = len (passage_tokens t))
    as (Hqi & Hpi & Hqs & Hps & Hql & Hpl) by (subst l; repeat split).
  clear Hl'.
  destruct counts as (Hs & Hm & He & Hsum).
  pose proof (len_nonneg (tk_question_tokens t)) as Hq0.
  pose proof (len_nonneg (passage_tokens t)) as Hp0.
  assert (len (a_input_ids (padded_arrays self l))
          = len (tk_question_tokens t) + len (passage_tokens t)
            + num_special_tokens_to_add (tokenizer self) true
          /\ len (a_padding_mask (padded_arrays self l))
             = len (a_input_ids (padded_arrays self l))
          /\ len (a_segment_ids (padded_arrays self l))
             = len (a_input_ids (padded_arrays self l))
          /\ len (a_start_of_word (padded_arrays self l))
             = len (a_input_ids (padded_arrays self l))
          /\ len (a_span_mask (padded_arrays self l))
             = len (a_input_ids (padded_arrays self l)))
    as (Hin & Hpm & Hsg & Hsw & Hsp).
  { unfold padded_arrays.
    cbn [a_input_ids a_padding_mask a_segment_ids a_start_of_word
         a_span_mask].
    rewrite !len_app, !len_py_repeat, type_ids_len, !build_adds.
    rewrite Hqi, Hpi, Hqs, Hps, Hql, Hpl, Hq, Hp. lia. }
  assert (len_check (padded_arrays self l) = true) as Hcheck.
  { unfold len_check. rewrite Hpm, Hsg, Hsw, Hsp, !Z.eqb_refl. reflexivity. }
  eexists. split.
  - unfold featurize_sample. rewrite Ht, Hl. unfold_bind.
    cbv beta iota zeta. cbn [label_check label_check2].
    rewrite Hcheck, Hid. cbn [Z.eqb andb Pos.eqb]. reflexivity.
  - cbn [input_ids padding_mask segment_ids start_of_word span_mask].
    repeat split; try assumption. lia.
Qed.

End Overlong.

Lemma bert_like_type_ids (a b : list token) :
  len (create_token_type_ids_from_sequences Demo.bert_like a b)
  = len (build_inputs_with_special_tokens Demo.bert_like a b).
Proof.
  cbn [create_token_type_ids_from_sequences build_inputs_with_special_tokens
       Demo.bert_like].
  pose proof (len_nonneg a). pose proof (len_nonneg b).
  rewrite !len_app, !len_py_repeat. unfold len. simpl length. lia.
Qed.

(** Three tokens of passage and one of question in sequences of six. *)
Lemma overlong_sample_demo :
  exists row,
    featurize_sample true (Demo.span_processor, None)
      (Demo.window 0 0 0 "aa bb cc " ["aa"; "bb"; "cc"])
    = Ok (set_features (Demo.window 0 0 0 "aa bb cc " ["aa"; "bb"; "cc"])
            (Some [row]),
          (Demo.span_processor,
           Some {| lv_question_start_of_word := [1];
                   lv_question_len_t := 1;
                   lv_passage_start_t := 0;
                   lv_passage_start_of_word := [1; 1; 1];
                   lv_passage_len_t := 3;
                   lv_sample_id := [0; 0; 0];
                   lv_question_input_ids := [TokStr "q"];
                   lv_passage_input_ids :=
                     [TokStr "aa"; TokStr "bb"; TokStr "cc"] |}))
    /\ max_seq_len Demo.span_processor < len (input_ids row)
    /\ len (padding_mask row) = len (input_ids row)
    /\ len (segment_ids row) = len (input_ids row)
    /\ len (start_of_word row) = len (input_ids row)
    /\ len (span_mask row) = len (input_ids row).
Proof.
  apply (overlong_sample_is_not_rejected Demo.span_processor bert_like_adds
           bert_like_type_ids)
    with (t := Demo.window_tokenized 0 0 ["aa"; "bb"; "cc"]).
  - vm_compute. repeat split; discriminate.
  - reflexivity.
  - reflexivity.
  - reflexivity.
  - reflexivity.
  - reflexivity.
  - vm_compute. reflexivity.
Defined.

(** A sample without tokenized form never gets features from the values
    that the sample before it left in the local variables: as the first
    sample of a call it raises [NameError]; later it raises, or, prepared
    for inference with values that fail the checks, loses its features
    and joins the problematic ids. *)
Theorem untokenized_sample_gets_no_features (return_baskets : bool)
    (self : SquadProcessor) (lv : option Locals) (sample : Sample) :
  tokenized sample = None ->
  (lv = None ->
   featurize_sample return_baskets (self, lv) sample = Raise NameError)
  /\ (forall sample' st',
        featurize_sample return_baskets (self, lv) sample = Ok (sample', st')
        -> features sample' = None /\ return_baskets = true
           /\ sample_id sample ∈ problematic_sample_ids (fst st')).
Proof.
  intros Ht. unfold featurize_sample. rewrite Ht. unfold_bind. split.
  - intros ->. reflexivity.
  - intros sample' st'. destruct lv as [l|]; [|discriminate].
    cbv beta iota zeta. unfold label_check, label_check2. rewrite Ht.
    destruct return_baskets; [|discriminate].
    destruct (_ && _); [discriminate|].
    intros [= <- <-]. cbn. split; [reflexivity|]. split; [reflexivity|].
    set_solver.
Qed.

Lemma untokenized_sample_demo :
  featurize_sample false (Demo.span_processor, None)
    {| sample_id := "0-0-0";
       clear_text := {| passage_text := ""; ct_question_text := "q";
                        passage_id := 0 |};
       tokenized := None; features := None |}
  = Raise NameError.
Proof.
  exact (proj1 (untokenized_sample_gets_no_features false Demo.span_processor
                  None
                  {| sample_id := "0-0-0";
                     clear_text := {| passage_text := "";
                                      ct_question_text := "q";
                                      passage_id := 0 |};
                     tokenized := None; features := None |} eq_refl)
           eq_refl).
Defined.

End FeatureEdgeFacts.

(* ===================================================================== *)
(** * Passages without a label *)

Module RetrievalEdgeFacts.
Import Py TextSimilarity PyFacts.

Ltac unfold_bind := unfold mbind, result_bind, mret, result_ret, bind in *.

Lemma filter_label_returns (label : string) (passages r : list value) :
  filter_label label passages = Ok r ->
  Forall (fun x => exists d l, x = VDict d /\ d !! "label" = Some l) passages.
Proof.
  revert r. induction passages as [|x ps IH]; simpl; intros r.
  - constructor.
  - unfold_bind. destruct (subscript x "label") as [l|] eqn:El; [|discriminate].
    destruct (filter_label label ps) as [r'|]; [|discriminate].
    intros _. constructor; [|now apply (IH r')].
    destruct x; try discriminate. unfold subscript, dict_get in El.
    destruct (d !! "label") as [l'|] eqn:Ed; [|discriminate]. eauto.
Qed.

(** One passage that is not a dictionary with a label costs the basket
    its features: the selection of the passages raises inside the [try]
    block, whatever the other passages are, and the handler sets the
    features of the first sample to [None]. *)
Theorem passage_without_label_fails_the_basket (rng : Type)
    (shuffle : rng -> list value -> list value * rng)
    (self : TextSimilarityProcessor) (g : rng) (b : SampleBasket)
    (passages x : value) (ps : list value) (s : Sample) (ss : list Sample) :
  raw b !! "passages" = Some passages -> py_iter passages = Ok ps ->
  In x ps -> (forall d, x = VDict d -> d !! "label" = None) ->
  samples b = Some (s :: ss) ->
  convert_context rng shuffle self g b
  = (Ok (set_samples b (set_features s None :: ss)), g).
Proof.
  intros Hp Hiter Hx Hlabel Hs. unfold convert_context. rewrite Hp.
  unfold select_contexts. rewrite Hiter.
  destruct (filter_label "positive" ps) as [r|e] eqn:Ef.
  - exfalso. apply filter_label_returns in Ef.
    rewrite List.Forall_forall in Ef.
    destruct (Ef x Hx) as (d & l & -> & Hd).
    rewrite (Hlabel d eq_refl) in Hd. discriminate.
  - unfold_bind. unfold null_first_features. now rewrite Hs.
Qed.

Lemma passage_without_label_demo :
  exists s,
    samples (nth 1 Demo.retrieval_queries inhabitant) = Some [s]
    /\ is_Some (features s)
    /\ convert_context nat Demo.counting_shuffle
         (Demo.retrieval_processor 1 2) 0%nat
         (nth 1 Demo.retrieval_queries inhabitant)
       = (Ok (set_samples (nth 1 Demo.retrieval_queries inhabitant)
                [set_features s None]), 0%nat).
Proof.
  assert (exists s,
             samples (nth 1 Demo.retrieval_queries inhabitant) = Some [s]
             /\ is_Some (features s)) as (s & Hs & Hf).
  { vm_compute. eauto. }
  exists s. split; [exact Hs|]. split; [exact Hf|].
  apply (passage_without_label_fails_the_basket nat Demo.counting_shuffle
           (Demo.retrieval_processor 1 2) 0%nat
           (nth 1 Demo.retrieval_queries inhabitant)
           (VList [VInt 3]) (VInt 3) [VInt 3] s []).
  - reflexivity.
  - reflexivity.
  - now left.
  - intros d [=].
  - exact Hs.
Defined.

End RetrievalEdgeFacts.
